(** * DVWTP: the in-browser plant simulation (services/mockSimulation.ts,
      services/api.ts, App.tsx) embedded in Rocq.

    JavaScript numbers are idealised as exact rationals [Q]: every
    arithmetic operation of the source is the corresponding exact
    operation, comparisons are decided exactly, and NaN and the
    infinities do not occur.  Equations between numbers are therefore
    stated with [==] (equality of rationals), and equations between
    records whose fields are copied verbatim with [=].

    The module-global [physicsState] object that [simulatePhysics] and
    [resetDamage] mutate in place is threaded explicitly: each function
    takes the object before the call and returns the object after it.
    The two sources of non-determinism of [simulatePhysics], the clock
    ([Date.now()], used through [Math.sin]) and [Math.random()], are the
    fields of an environment record that the function receives. *)

From Stdlib Require Import ZArith QArith Qminmax Qabs Lqa Lia Bool List.
Import ListNotations.
Open Scope Q_scope.

(** ** Numbers *)

(** [x > y] and [x < y] of the source, as booleans. *)
Definition Qgtb (x y : Q) : bool := negb (Qle_bool x y).
Definition Qltb (x y : Q) : bool := negb (Qle_bool y x).
Infix ">?" := Qgtb (at level 70, no associativity) : Q_scope.
Infix "<?" := Qltb (at level 70, no associativity) : Q_scope.

(** [Math.max] and [Math.min] on two arguments. *)
Definition Math_max : Q -> Q -> Q := Qmax.
Definition Math_min : Q -> Q -> Q := Qmin.

(** ** types.ts *)

Record SimulationControls : Set := mkControls {
  wellfield_on : bool;
  ro_feed_pump_on : bool;
  dist_pump_on : bool;
  valve_101_open : bool;
  valve_201_open : bool;
  valve_202_open : bool;
  valve_203_open : bool;
  valve_401_open : bool;
  naoh_pump_on : bool;
  cl_pump_on : bool;
  NaOH_dose : Q;
  Cl_dose : Q;
  Q_out_sp : Q
}.

(** The published [SimulationState].  Its field names coincide with those
    of the internal physics object, hence the name space. *)
Module Pub.
Record SimulationState : Set := mkState {
  Q_wellfield : Q;
  Q_feed : Q;
  Q_perm : Q;
  Q_brine : Q;
  Q_out : Q;
  level_feed_tank : Q;
  level_clearwell : Q;
  V_clearwell : Q;
  TDS_feed : Q;
  TDS_perm : Q;
  pH_true : Q;
  Cl_true : Q;
  H2S_feed : Q;
  H2S_out : Q;
  pressure_well : Q;
  dP_ro_true : Q;
  pressure_feed : Q;
  pressure_dist : Q;
  membrane_health : Q;
  pump_well_health : Q;
  pump_feed_health : Q;
  pump_dist_health : Q;
  pipe_well_health : Q;
  pipe_feed_health : Q;
  pipe_dist_health : Q
}.
End Pub.

(** ** mockSimulation.ts: the internal physics object *)

Record PhysicsState : Set := mkPhysics {
  Q_wellfield : Q;
  Q_feed : Q;
  Q_out : Q;
  level_feed_tank : Q;
  level_clearwell : Q;
  pressure_well : Q;
  pressure_feed : Q;
  pressure_dist : Q;
  TDS_feed : Q;
  pH_true : Q;
  Cl_true : Q;
  H2S_feed : Q;
  membrane_health : Q;
  pump_well_health : Q;
  pump_feed_health : Q;
  pump_dist_health : Q;
  pipe_well_health : Q;
  pipe_feed_health : Q;
  pipe_dist_health : Q
}.

(** [let physicsState = { ... }] *)
Definition physicsState : PhysicsState := {|
  Q_wellfield := 0;
  Q_feed := 0;
  Q_out := 0;
  level_feed_tank := 2.5;
  level_clearwell := 3.0;
  pressure_well := 0.0;
  pressure_feed := 0.0;
  pressure_dist := 0.0;
  TDS_feed := 1250;
  pH_true := 7.2;
  Cl_true := 0.0;
  H2S_feed := 2.5;
  membrane_health := 100.0;
  pump_well_health := 100.0;
  pump_feed_health := 100.0;
  pump_dist_health := 100.0;
  pipe_well_health := 100.0;
  pipe_feed_health := 100.0;
  pipe_dist_health := 100.0
|}.

(** Assignments [physicsState.f = v], one function per assigned field. *)
Definition set_Q_wellfield (v : Q) (s : PhysicsState) : PhysicsState :=
  mkPhysics v (Q_feed s) (Q_out s) (level_feed_tank s) (level_clearwell s)
    (pressure_well s) (pressure_feed s) (pressure_dist s) (TDS_feed s)
    (pH_true s) (Cl_true s) (H2S_feed s) (membrane_health s)
    (pump_well_health s) (pump_feed_health s) (pump_dist_health s)
    (pipe_well_health s) (pipe_feed_health s) (pipe_dist_health s).

Definition set_Q_feed (v : Q) (s : PhysicsState) : PhysicsState :=
  mkPhysics (Q_wellfield s) v (Q_out s) (level_feed_tank s) (level_clearwell s)
    (pressure_well s) (pressure_feed s) (pressure_dist s) (TDS_feed s)
    (pH_true s) (Cl_true s) (H2S_feed s) (membrane_health s)
    (pump_well_health s) (pump_feed_health s) (pump_dist_health s)
    (pipe_well_health s) (pipe_feed_health s) (pipe_dist_health s).

Definition set_Q_out (v : Q) (s : PhysicsState) : PhysicsState :=
  mkPhysics (Q_wellfield s) (Q_feed s) v (level_feed_tank s) (level_clearwell s)
    (pressure_well s) (pressure_feed s) (pressure_dist s) (TDS_feed s)
    (pH_true s) (Cl_true s) (H2S_feed s) (membrane_health s)
    (pump_well_health s) (pump_feed_health s) (pump_dist_health s)
    (pipe_well_health s) (pipe_feed_health s) (pipe_dist_health s).

Definition set_level_feed_tank (v : Q) (s : PhysicsState) : PhysicsState :=
  mkPhysics (Q_wellfield s) (Q_feed s) (Q_out s) v (level_clearwell s)
    (pressure_well s) (pressure_feed s) (pressure_dist s) (TDS_feed s)
    (pH_true s) (Cl_true s) (H2S_feed s) (membrane_health s)
    (pump_well_health s) (pump_feed_health s) (pump_dist_health s)
    (pipe_well_health s) (pipe_feed_health s) (pipe_dist_health s).

Definition set_level_clearwell (v : Q) (s : PhysicsState) : PhysicsState :=
  mkPhysics (Q_wellfield s) (Q_feed s) (Q_out s) (level_feed_tank s) v
    (pressure_well s) (pressure_feed s) (pressure_dist s) (TDS_feed s)
    (pH_true s) (Cl_true s) (H2S_feed s) (membrane_health s)
    (pump_well_health s) (pump_feed_health s) (pump_dist_health s)
    (pipe_well_health s) (pipe_feed_health s) (pipe_dist_health s).

Definition set_pressure_well (v : Q) (s : PhysicsState) : PhysicsState :=
  mkPhysics (Q_wellfield s) (Q_feed s) (Q_out s) (level_feed_tank s)
    (level_clearwell s) v (pressure_feed s) (pressure_dist s) (TDS_feed s)
    (pH_true s) (Cl_true s) (H2S_feed s) (membrane_health s)
    (pump_well_health s) (pump_feed_health s) (pump_dist_health s)
    (pipe_well_health s) (pipe_feed_health s) (pipe_dist_health s).

Definition set_pressure_feed (v : Q) (s : PhysicsState) : PhysicsState :=
  mkPhysics (Q_wellfield s) (Q_feed s) (Q_out s) (level_feed_tank s)
    (level_clearwell s) (pressure_well s) v (pressure_dist s) (TDS_feed s)
    (pH_true s) (Cl_true s) (H2S_feed s) (membrane_health s)
    (pump_well_health s) (pump_feed_health s) (pump_dist_health s)
    (pipe_well_health s) (pipe_feed_health s) (pipe_dist_health s).

Definition set_pressure_dist (v : Q) (s : PhysicsState) : PhysicsState :=
  mkPhysics (Q_wellfield s) (Q_feed s) (Q_out s) (level_feed_tank s)
    (level_clearwell s) (pressure_well s) (pressure_feed s) v (TDS_feed s)
    (pH_true s) (Cl_true s) (H2S_feed s) (membrane_health s)
    (pump_well_health s) (pump_feed_health s) (pump_dist_health s)
    (pipe_well_health s) (pipe_feed_health s) (pipe_dist_health s).

Definition set_Cl_true (v : Q) (s : PhysicsState) : PhysicsState :=
  mkPhysics (Q_wellfield s) (Q_feed s) (Q_out s) (level_feed_tank s)
    (level_clearwell s) (pressure_well s) (pressure_feed s) (pressure_dist s)
    (TDS_feed s) (pH_true s) v (H2S_feed s) (membrane_health s)
    (pump_well_health s) (pump_feed_health s) (pump_dist_health s)
    (pipe_well_health s) (pipe_feed_health s) (pipe_dist_health s).

Definition set_membrane_health (v : Q) (s : PhysicsState) : PhysicsState :=
  mkPhysics (Q_wellfield s) (Q_feed s) (Q_out s) (level_feed_tank s)
    (level_clearwell s) (pressure_well s) (pressure_feed s) (pressure_dist s)
    (TDS_feed s) (pH_true s) (Cl_true s) (H2S_feed s) v
    (pump_well_health s) (pump_feed_health s) (pump_dist_health s)
    (pipe_well_health s) (pipe_feed_health s) (pipe_dist_health s).

Definition set_pump_well_health (v : Q) (s : PhysicsState) : PhysicsState :=
  mkPhysics (Q_wellfield s) (Q_feed s) (Q_out s) (level_feed_tank s)
    (level_clearwell s) (pressure_well s) (pressure_feed s) (pressure_dist s)
    (TDS_feed s) (pH_true s) (Cl_true s) (H2S_feed s) (membrane_health s)
    v (pump_feed_health s) (pump_dist_health s)
    (pipe_well_health s) (pipe_feed_health s) (pipe_dist_health s).

Definition set_pump_feed_health (v : Q) (s : PhysicsState) : PhysicsState :=
  mkPhysics (Q_wellfield s) (Q_feed s) (Q_out s) (level_feed_tank s)
    (level_clearwell s) (pressure_well s) (pressure_feed s) (pressure_dist s)
    (TDS_feed s) (pH_true s) (Cl_true s) (H2S_feed s) (membrane_health s)
    (pump_well_health s) v (pump_dist_health s)
    (pipe_well_health s) (pipe_feed_health s) (pipe_dist_health s).

Definition set_pump_dist_health (v : Q) (s : PhysicsState) : PhysicsState :=
  mkPhysics (Q_wellfield s) (Q_feed s) (Q_out s) (level_feed_tank s)
    (level_clearwell s) (pressure_well s) (pressure_feed s) (pressure_dist s)
    (TDS_feed s) (pH_true s) (Cl_true s) (H2S_feed s) (membrane_health s)
    (pump_well_health s) (pump_feed_health s) v
    (pipe_well_health s) (pipe_feed_health s) (pipe_dist_health s).

Definition set_pipe_well_health (v : Q) (s : PhysicsState) : PhysicsState :=
  mkPhysics (Q_wellfield s) (Q_feed s) (Q_out s) (level_feed_tank s)
    (level_clearwell s) (pressure_well s) (pressure_feed s) (pressure_dist s)
    (TDS_feed s) (pH_true s) (Cl_true s) (H2S_feed s) (membrane_health s)
    (pump_well_health s) (pump_feed_health s) (pump_dist_health s)
    v (pipe_feed_health s) (pipe_dist_health s).

Definition set_pipe_feed_health (v : Q) (s : PhysicsState) : PhysicsState :=
  mkPhysics (Q_wellfield s) (Q_feed s) (Q_out s) (level_feed_tank s)
    (level_clearwell s) (pressure_well s) (pressure_feed s) (pressure_dist s)
    (TDS_feed s) (pH_true s) (Cl_true s) (H2S_feed s) (membrane_health s)
    (pump_well_health s) (pump_feed_health s) (pump_dist_health s)
    (pipe_well_health s) v (pipe_dist_health s).

Definition set_pipe_dist_health (v : Q) (s : PhysicsState) : PhysicsState :=
  mkPhysics (Q_wellfield s) (Q_feed s) (Q_out s) (level_feed_tank s)
    (level_clearwell s) (pressure_well s) (pressure_feed s) (pressure_dist s)
    (TDS_feed s) (pH_true s) (Cl_true s) (H2S_feed s) (membrane_health s)
    (pump_well_health s) (pump_feed_health s) (pump_dist_health s)
    (pipe_well_health s) (pipe_feed_health s) v.

(** Physics constants *)
Definition TANK_AREA_FEED : Q := 10.
Definition TANK_AREA_CLEARWELL : Q := 40.
Definition WELL_FLOW_RATE : Q := 110.
Definition RO_FEED_RATE : Q := 100.
Definition DIST_PUMP_CAPACITY : Q := 120.
Definition RAMP_RATE : Q := 0.1.
Definition MAX_FEED_PRESSURE : Q := 15.0.

(** Critical limits *)
Definition MEMBRANE_CHLORINE_LIMIT : Q := 0.1.
Definition PIPE_BURST_PRESSURE : Q := 25.0.

(** [resetDamage]: the seven assignments to the local object.  The
    request that follows them goes to the Python twin and does not touch
    [physicsState]; its failure is caught and ignored. *)
Definition resetDamage (s : PhysicsState) : PhysicsState :=
  let s := set_membrane_health 100.0 s in
  let s := set_pump_well_health 100.0 s in
  let s := set_pump_feed_health 100.0 s in
  let s := set_pump_dist_health 100.0 s in
  let s := set_pipe_well_health 100.0 s in
  let s := set_pipe_feed_health 100.0 s in
  let s := set_pipe_dist_health 100.0 s in
  s.

(** ** [simulatePhysics] *)

(** What the function reads from outside: [sin_now] is the value of
    [Math.sin(Date.now() / 10000)] at the call, and [rnd k] is the result
    of the [k]-th call of [Math.random()] made by it (counting from 0). *)
Record Env : Set := mkEnv {
  sin_now : Q;
  rnd : nat -> Q
}.

(** Section 1 of the source, wellfield: the pair
    [(target_Q_well, target_P_well)]. *)
Definition well_targets (controls : SimulationControls) : Q * Q :=
  if wellfield_on controls then
    if valve_101_open controls then (WELL_FLOW_RATE, 3.0)
    else (0, 12.0)
  else (0, 0).

(** One debit [h = Math.max(0, h - rate * dt_seconds)]. *)
Definition debit (rate dt_seconds h : Q) : Q :=
  Math_max 0 (h - rate * dt_seconds).

(** P-201 cavitation, P-101 deadhead, P-401 cavitation and deadhead. *)
Definition pump_damage (controls : SimulationControls) (dt_seconds : Q)
    (suction_head_ok : bool) (s : PhysicsState) : PhysicsState :=
  let s :=
    if ro_feed_pump_on controls && negb suction_head_ok
    then set_pump_feed_health (debit 0.5 dt_seconds (pump_feed_health s)) s
    else s in
  let s :=
    if wellfield_on controls && negb (valve_101_open controls)
    then set_pump_well_health (debit 0.3 dt_seconds (pump_well_health s)) s
    else s in
  if dist_pump_on controls then
    let s :=
      if level_clearwell s <? 0.2
      then set_pump_dist_health (debit 0.5 dt_seconds (pump_dist_health s)) s
      else s in
    if negb (valve_401_open controls)
    then set_pump_dist_health (debit 0.3 dt_seconds (pump_dist_health s)) s
    else s
  else s.

(** RO system: the pair [(target_Q_feed, target_P_feed)]. *)
Definition feed_targets (controls : SimulationControls)
    (suction_head_ok discharge_path_open : bool) (pump_efficiency : Q)
    : Q * Q :=
  if ro_feed_pump_on controls && suction_head_ok then
    if discharge_path_open then
      if valve_202_open controls && valve_203_open controls
      then (RO_FEED_RATE * pump_efficiency, 12.0)
      else (0, MAX_FEED_PRESSURE * 2.0)
    else (0, MAX_FEED_PRESSURE * 2.2)
  else (0, 0).

(** Distribution: the pair [(target_Q_dist, target_P_dist)]. *)
Definition dist_targets (controls : SimulationControls) (s : PhysicsState)
    : Q * Q :=
  if dist_pump_on controls && (level_clearwell s >? 0.1) then
    if valve_401_open controls
    then (Math_min (Q_out_sp controls) DIST_PUMP_CAPACITY, 4.0)
    else (0, 15.0)
  else (0, 0).

(** Section 2: the six ramps. *)
Definition ramps (target_Q_well target_Q_feed target_Q_dist
    target_P_well target_P_feed target_P_dist : Q) (s : PhysicsState)
    : PhysicsState :=
  let s := set_Q_wellfield
    (Q_wellfield s + (target_Q_well - Q_wellfield s) * RAMP_RATE) s in
  let s := set_Q_feed (Q_feed s + (target_Q_feed - Q_feed s) * RAMP_RATE) s in
  let s := set_Q_out (Q_out s + (target_Q_dist - Q_out s) * RAMP_RATE) s in
  let s := set_pressure_well
    (pressure_well s + (target_P_well - pressure_well s) * 0.5) s in
  let s := set_pressure_feed
    (pressure_feed s + (target_P_feed - pressure_feed s) * 0.5) s in
  let s := set_pressure_dist
    (pressure_dist s + (target_P_dist - pressure_dist s) * 0.5) s in
  s.

(** Pipe damage from overpressure. *)
Definition pipe_damage (dt_seconds : Q) (s : PhysicsState) : PhysicsState :=
  let s :=
    if pressure_well s >? 10
    then set_pipe_well_health (debit 0.2 dt_seconds (pipe_well_health s)) s
    else s in
  let s :=
    if pressure_feed s >? 20
    then set_pipe_feed_health (debit 0.5 dt_seconds (pipe_feed_health s)) s
    else s in
  let s :=
    if pressure_dist s >? 12
    then set_pipe_dist_health (debit 0.3 dt_seconds (pipe_dist_health s)) s
    else s in
  s.

(** Section 3, chlorine: the local [current_Cl]. *)
Definition current_Cl (controls : SimulationControls) (s : PhysicsState) : Q :=
  if cl_pump_on controls then
    if Q_feed s >? 5 then Math_max 0 (Cl_dose controls * 0.9)
    else if Cl_dose controls >? 0 then 50.0
    else 0
  else 0.

Definition chlorine (controls : SimulationControls) (s : PhysicsState)
    : PhysicsState :=
  set_Cl_true (Cl_true s + (current_Cl controls s - Cl_true s) * 0.1) s.

(** Membrane damage: chemical attack, then high pressure. *)
Definition membrane_damage (dt_seconds : Q) (s : PhysicsState)
    : PhysicsState :=
  let s :=
    if (Cl_true s >? MEMBRANE_CHLORINE_LIMIT) && (Q_feed s >? 0)
    then set_membrane_health (debit 0.2 dt_seconds (membrane_health s)) s
    else s in
  let s :=
    if pressure_feed s >? 20.0
    then set_membrane_health (debit 1.0 dt_seconds (membrane_health s)) s
    else s in
  s.

Definition ro_recovery : Q := 0.75.

(** Section 4, feed tank: integration, overflow check, underflow check.
    The local flag [is_overflowing_feed] of the source is assigned and
    never read. *)
Definition feed_tank_balance (dt_seconds : Q) (s : PhysicsState)
    : PhysicsState :=
  let dV_feed := (Q_wellfield s - Q_feed s) * (dt_seconds / 3600) in
  let s := set_level_feed_tank (level_feed_tank s + dV_feed / TANK_AREA_FEED) s in
  let s := if level_feed_tank s >? 5.0 then set_level_feed_tank 5.0 s else s in
  let s := if level_feed_tank s <? 0 then set_level_feed_tank 0 s else s in
  s.

(** Clearwell: integration and the two checks. *)
Definition clearwell_balance (dt_seconds Q_perm_actual : Q) (s : PhysicsState)
    : PhysicsState :=
  let dV_clear := (Q_perm_actual - Q_out s) * (dt_seconds / 3600) in
  let s :=
    set_level_clearwell (level_clearwell s + dV_clear / TANK_AREA_CLEARWELL) s in
  let s := if level_clearwell s >? 6.0 then set_level_clearwell 6.0 s else s in
  let s := if level_clearwell s <? 0 then set_level_clearwell 0 s else s in
  s.

(** Section 5: the local [dP_ro]. *)
Definition dP_ro (s : PhysicsState) : Q :=
  if Q_feed s >? 1 then
    let flow_component := Q_feed s / RO_FEED_RATE in
    let rupture_factor := if membrane_health s <? 30 then 0.2 else 1.0 in
    (0.5 + flow_component * 1.5) * rupture_factor
  else 0.

(** [noise(mag)] at the [k]-th call of [Math.random()]. *)
Definition noise (e : Env) (k : nat) (mag : Q) : Q := (rnd e k - 0.5) * mag.

(** [v + noise(mag)]: the value and the number of random draws so far. *)
Definition noisy (e : Env) (v mag : Q) (k : nat) : Q * nat :=
  (v + noise e k mag, S k).

(** [b ? v + noise(mag) : 0]: no draw is made when [b] is false. *)
Definition noisy_if (e : Env) (b : bool) (v mag : Q) (k : nat) : Q * nat :=
  if b then noisy e v mag k else (0, k).

(** The returned object literal; its initialisers run in source order. *)
Definition emit (e : Env) (Q_perm_actual TDS_feed_now TDS_perm pH_now dP : Q)
    (s : PhysicsState) : Pub.SimulationState :=
  let r1 := noisy_if e (Q_wellfield s >? 1) (Q_wellfield s) 2 0%nat in
  let r2 := noisy_if e (Q_feed s >? 1) (Q_feed s) 2 (snd r1) in
  let r3 := noisy_if e (Q_perm_actual >? 0.1) Q_perm_actual 1 (snd r2) in
  let r4 := noisy_if e (Q_feed s - Q_perm_actual >? 0.1)
              (Q_feed s - Q_perm_actual) 1 (snd r3) in
  let r5 := noisy_if e (Q_out s >? 1) (Q_out s) 1 (snd r4) in
  let r6 := noisy e TDS_feed_now 5 (snd r5) in
  let r7 := noisy e TDS_perm 2 (snd r6) in
  let r8 := noisy e pH_now 0.05 (snd r7) in
  let r9 := noisy_if e (Cl_true s >? 0.05) (Cl_true s) 0.01 (snd r8) in
  let r10 := noisy e (pressure_well s) 0.1 (snd r9) in
  let r11 := noisy e dP 0.02 (snd r10) in
  let r12 := noisy e (pressure_feed s) 0.1 (snd r11) in
  let r13 := noisy e (pressure_dist s) 0.1 (snd r12) in
  {| Pub.Q_wellfield := fst r1;
     Pub.Q_feed := fst r2;
     Pub.Q_perm := fst r3;
     Pub.Q_brine := fst r4;
     Pub.Q_out := fst r5;
     Pub.level_feed_tank := level_feed_tank s;
     Pub.level_clearwell := level_clearwell s;
     Pub.V_clearwell := level_clearwell s * TANK_AREA_CLEARWELL;
     Pub.TDS_feed := fst r6;
     Pub.TDS_perm := fst r7;
     Pub.pH_true := fst r8;
     Pub.Cl_true := fst r9;
     Pub.H2S_feed := 2.5;
     Pub.H2S_out := 0;
     Pub.pressure_well := fst r10;
     Pub.dP_ro_true := fst r11;
     Pub.pressure_feed := fst r12;
     Pub.pressure_dist := fst r13;
     Pub.membrane_health := membrane_health s;
     Pub.pump_well_health := pump_well_health s;
     Pub.pump_feed_health := pump_feed_health s;
     Pub.pump_dist_health := pump_dist_health s;
     Pub.pipe_well_health := pipe_well_health s;
     Pub.pipe_feed_health := pipe_feed_health s;
     Pub.pipe_dist_health := pipe_dist_health s |}.

(** The whole function: the returned snapshot and [physicsState] after
    the call. *)
Definition simulatePhysics (controls : SimulationControls) (dt_seconds : Q)
    (e : Env) (s : PhysicsState) : Pub.SimulationState * PhysicsState :=
  let target_well := well_targets controls in
  let suction_head_ok := level_feed_tank s >? 0.2 in
  let discharge_path_open := valve_201_open controls in
  let s := pump_damage controls dt_seconds suction_head_ok s in
  let pump_efficiency := pump_feed_health s / 100.0 in
  let target_feed :=
    feed_targets controls suction_head_ok discharge_path_open pump_efficiency in
  let target_dist := dist_targets controls s in
  let s := ramps (fst target_well) (fst target_feed) (fst target_dist)
                 (snd target_well) (snd target_feed) (snd target_dist) s in
  let s := pipe_damage dt_seconds s in
  let s := chlorine controls s in
  let s := membrane_damage dt_seconds s in
  let pH_adjustment :=
    if naoh_pump_on controls then NaOH_dose controls * 0.15 else 0 in
  let rejection_rate := 0.98 * (membrane_health s / 100.0) in
  let s := feed_tank_balance dt_seconds s in
  let Q_perm_actual := Q_feed s * ro_recovery in
  let s := clearwell_balance dt_seconds Q_perm_actual s in
  let TDS_feed_now := 1250 + sin_now e * 20 in
  let TDS_perm := TDS_feed_now * (1 - rejection_rate) in
  let pH_now := 7.0 + pH_adjustment in
  (emit e Q_perm_actual TDS_feed_now TDS_perm pH_now (dP_ro s) s, s).

(** [physicsState] at the successive program points of one call, and
    the local [(target_Q_feed, target_P_feed)] of that call. *)
Definition after_pump_damage (c : SimulationControls) (dt : Q)
    (s : PhysicsState) : PhysicsState :=
  pump_damage c dt (level_feed_tank s >? 0.2) s.

Definition target_feed (c : SimulationControls) (dt : Q) (s : PhysicsState)
    : Q * Q :=
  feed_targets c (level_feed_tank s >? 0.2) (valve_201_open c)
    (pump_feed_health (after_pump_damage c dt s) / 100.0).

Definition after_ramps (c : SimulationControls) (dt : Q) (s : PhysicsState)
    : PhysicsState :=
  let s1 := after_pump_damage c dt s in
  ramps (fst (well_targets c)) (fst (target_feed c dt s))
        (fst (dist_targets c s1))
        (snd (well_targets c)) (snd (target_feed c dt s))
        (snd (dist_targets c s1)) s1.

Definition after_pipe_damage (c : SimulationControls) (dt : Q)
    (s : PhysicsState) : PhysicsState :=
  pipe_damage dt (after_ramps c dt s).

Definition after_chlorine (c : SimulationControls) (dt : Q)
    (s : PhysicsState) : PhysicsState :=
  chlorine c (after_pipe_damage c dt s).

Definition after_membrane_damage (c : SimulationControls) (dt : Q)
    (s : PhysicsState) : PhysicsState :=
  membrane_damage dt (after_chlorine c dt s).

Definition after_feed_tank (c : SimulationControls) (dt : Q)
    (s : PhysicsState) : PhysicsState :=
  feed_tank_balance dt (after_membrane_damage c dt s).

(** The effect of one call on [physicsState]; [simulatePhysics_state]
    below shows that it is the second component of [simulatePhysics]. *)
Definition tick (c : SimulationControls) (dt : Q) (s : PhysicsState)
    : PhysicsState :=
  let s6 := after_feed_tank c dt s in
  clearwell_balance dt (Q_feed s6 * ro_recovery) s6.

(** The snapshot returned by one call. *)
Definition published (c : SimulationControls) (dt : Q) (e : Env)
    (s : PhysicsState) : Pub.SimulationState :=
  fst (simulatePhysics c dt e s).

(** ** api.ts: [PlantApi] *)

(** [private currentControls] *)
Definition currentControls : SimulationControls := {|
  wellfield_on := false;
  ro_feed_pump_on := false;
  dist_pump_on := false;
  valve_101_open := true;
  valve_201_open := true;
  valve_202_open := true;
  valve_203_open := true;
  valve_401_open := true;
  naoh_pump_on := false;
  cl_pump_on := false;
  NaOH_dose := 5.0;
  Cl_dose := 1.0;
  Q_out_sp := 80.0
|}.

(** [keyof SimulationControls] *)
Inductive ControlKey : Set :=
| K_wellfield_on | K_ro_feed_pump_on | K_dist_pump_on
| K_valve_101_open | K_valve_201_open | K_valve_202_open
| K_valve_203_open | K_valve_401_open
| K_naoh_pump_on | K_cl_pump_on
| K_NaOH_dose | K_Cl_dose | K_Q_out_sp.

(** The [number | boolean] argument of [sendControl]. *)
Inductive JsValue : Set :=
| JNum (n : Q)
| JBool (b : bool).

(** [value === 1 || value === true] *)
Definition is_one_or_true (value : JsValue) : bool :=
  match value with
  | JNum n => Qeq_bool n 1
  | JBool b => b
  end.

(** [Number(value)] *)
Definition Number (value : JsValue) : Q :=
  match value with
  | JNum n => n
  | JBool true => 1
  | JBool false => 0
  end.

(** [sendControl]: the object spread with one key replaced. *)
Definition sendControl (control : ControlKey) (value : JsValue)
    (c : SimulationControls) : SimulationControls :=
  let b := is_one_or_true value in
  let n := Number value in
  match control with
  | K_wellfield_on =>
      mkControls b (ro_feed_pump_on c) (dist_pump_on c) (valve_101_open c)
        (valve_201_open c) (valve_202_open c) (valve_203_open c)
        (valve_401_open c) (naoh_pump_on c) (cl_pump_on c)
        (NaOH_dose c) (Cl_dose c) (Q_out_sp c)
  | K_ro_feed_pump_on =>
      mkControls (wellfield_on c) b (dist_pump_on c) (valve_101_open c)
        (valve_201_open c) (valve_202_open c) (valve_203_open c)
        (valve_401_open c) (naoh_pump_on c) (cl_pump_on c)
        (NaOH_dose c) (Cl_dose c) (Q_out_sp c)
  | K_dist_pump_on =>
      mkControls (wellfield_on c) (ro_feed_pump_on c) b (valve_101_open c)
        (valve_201_open c) (valve_202_open c) (valve_203_open c)
        (valve_401_open c) (naoh_pump_on c) (cl_pump_on c)
        (NaOH_dose c) (Cl_dose c) (Q_out_sp c)
  | K_valve_101_open =>
      mkControls (wellfield_on c) (ro_feed_pump_on c) (dist_pump_on c) b
        (valve_201_open c) (valve_202_open c) (valve_203_open c)
        (valve_401_open c) (naoh_pump_on c) (cl_pump_on c)
        (NaOH_dose c) (Cl_dose c) (Q_out_sp c)
  | K_valve_201_open =>
      mkControls (wellfield_on c) (ro_feed_pump_on c) (dist_pump_on c)
        (valve_101_open c) b (valve_202_open c) (valve_203_open c)
        (valve_401_open c) (naoh_pump_on c) (cl_pump_on c)
        (NaOH_dose c) (Cl_dose c) (Q_out_sp c)
  | K_valve_202_open =>
      mkControls (wellfield_on c) (ro_feed_pump_on c) (dist_pump_on c)
        (valve_101_open c) (valve_201_open c) b (valve_203_open c)
        (valve_401_open c) (naoh_pump_on c) (cl_pump_on c)
        (NaOH_dose c) (Cl_dose c) (Q_out_sp c)
  | K_valve_203_open =>
      mkControls (wellfield_on c) (ro_feed_pump_on c) (dist_pump_on c)
        (valve_101_open c) (valve_201_open c) (valve_202_open c) b
        (valve_401_open c) (naoh_pump_on c) (cl_pump_on c)
        (NaOH_dose c) (Cl_dose c) (Q_out_sp c)
  | K_valve_401_open =>
      mkControls (wellfield_on c) (ro_feed_pump_on c) (dist_pump_on c)
        (valve_101_open c) (valve_201_open c) (valve_202_open c)
        (valve_203_open c) b (naoh_pump_on c) (cl_pump_on c)
        (NaOH_dose c) (Cl_dose c) (Q_out_sp c)
  | K_naoh_pump_on =>
      mkControls (wellfield_on c) (ro_feed_pump_on c) (dist_pump_on c)
        (valve_101_open c) (valve_201_open c) (valve_202_open c)
        (valve_203_open c) (valve_401_open c) b (cl_pump_on c)
        (NaOH_dose c) (Cl_dose c) (Q_out_sp c)
  | K_cl_pump_on =>
      mkControls (wellfield_on c) (ro_feed_pump_on c) (dist_pump_on c)
        (valve_101_open c) (valve_201_open c) (valve_202_open c)
        (valve_203_open c) (valve_401_open c) (naoh_pump_on c) b
        (NaOH_dose c) (Cl_dose c) (Q_out_sp c)
  | K_NaOH_dose =>
      mkControls (wellfield_on c) (ro_feed_pump_on c) (dist_pump_on c)
        (valve_101_open c) (valve_201_open c) (valve_202_open c)
        (valve_203_open c) (valve_401_open c) (naoh_pump_on c) (cl_pump_on c)
        n (Cl_dose c) (Q_out_sp c)
  | K_Cl_dose =>
      mkControls (wellfield_on c) (ro_feed_pump_on c) (dist_pump_on c)
        (valve_101_open c) (valve_201_open c) (valve_202_open c)
        (valve_203_open c) (valve_401_open c) (naoh_pump_on c) (cl_pump_on c)
        (NaOH_dose c) n (Q_out_sp c)
  | K_Q_out_sp =>
      mkControls (wellfield_on c) (ro_feed_pump_on c) (dist_pump_on c)
        (valve_101_open c) (valve_201_open c) (valve_202_open c)
        (valve_203_open c) (valve_401_open c) (naoh_pump_on c) (cl_pump_on c)
        (NaOH_dose c) (Cl_dose c) n
  end.

(** ** MODBUS_MAP.md: the coil table, addresses 0 to 9 *)
Definition COIL_MAP (address : nat) : option ControlKey :=
  match address with
  | 0%nat => Some K_wellfield_on
  | 1%nat => Some K_ro_feed_pump_on
  | 2%nat => Some K_dist_pump_on
  | 3%nat => Some K_valve_101_open
  | 4%nat => Some K_valve_201_open
  | 5%nat => Some K_valve_202_open
  | 6%nat => Some K_valve_203_open
  | 7%nat => Some K_valve_401_open
  | 8%nat => Some K_naoh_pump_on
  | 9%nat => Some K_cl_pump_on
  | _ => None
  end.

(** Setting a list of coils on a controls object, through [sendControl]. *)
Fixpoint set_coils (coils : list (nat * bool)) (c : SimulationControls)
    : SimulationControls :=
  match coils with
  | [] => c
  | (address, v) :: rest =>
      match COIL_MAP address with
      | Some k => set_coils rest (sendControl k (JBool v) c)
      | None => set_coils rest c
      end
  end.

(** ** App.tsx: the two [useState] initial values *)
Definition App_simState : Pub.SimulationState := {|
  Pub.Q_wellfield := 0;
  Pub.Q_feed := 0;
  Pub.Q_perm := 0;
  Pub.Q_brine := 0;
  Pub.Q_out := 0;
  Pub.level_feed_tank := 0;
  Pub.level_clearwell := 0;
  Pub.V_clearwell := 0;
  Pub.TDS_feed := 0;
  Pub.TDS_perm := 0;
  Pub.pH_true := 7.0;
  Pub.Cl_true := 0.0;
  Pub.H2S_feed := 0;
  Pub.H2S_out := 0;
  Pub.pressure_well := 0;
  Pub.dP_ro_true := 0;
  Pub.pressure_feed := 0;
  Pub.pressure_dist := 0;
  Pub.membrane_health := 100;
  Pub.pump_well_health := 100;
  Pub.pump_feed_health := 100;
  Pub.pump_dist_health := 100;
  Pub.pipe_well_health := 100;
  Pub.pipe_feed_health := 100;
  Pub.pipe_dist_health := 100
|}.

Definition App_controls : SimulationControls := {|
  wellfield_on := false;
  ro_feed_pump_on := false;
  dist_pump_on := false;
  valve_101_open := false;
  valve_201_open := false;
  valve_202_open := false;
  valve_203_open := false;
  valve_401_open := false;
  naoh_pump_on := false;
  cl_pump_on := false;
  NaOH_dose := 0;
  Cl_dose := 0;
  Q_out_sp := 0
|}.

(** The five valve flags of a controls object, in the order 101, 201, 202,
    203, 401, and its other boolean flags. *)
Definition valves (c : SimulationControls) : list bool :=
  [valve_101_open c; valve_201_open c; valve_202_open c; valve_203_open c;
   valve_401_open c].

Definition switches (c : SimulationControls) : list bool :=
  [wellfield_on c; ro_feed_pump_on c; dist_pump_on c; naoh_pump_on c;
   cl_pump_on c].

(** ** Vocabulary of the properties *)

(** The numeric fields of [physicsState], to quantify over them. *)
Inductive Field : Set :=
| F_Q_wellfield | F_Q_feed | F_Q_out
| F_level_feed_tank | F_level_clearwell
| F_pressure_well | F_pressure_feed | F_pressure_dist
| F_TDS_feed | F_pH_true | F_Cl_true | F_H2S_feed
| F_membrane_health
| F_pump_well_health | F_pump_feed_health | F_pump_dist_health
| F_pipe_well_health | F_pipe_feed_health | F_pipe_dist_health.

Definition get (f : Field) (s : PhysicsState) : Q :=
  match f with
  | F_Q_wellfield => Q_wellfield s
  | F_Q_feed => Q_feed s
  | F_Q_out => Q_out s
  | F_level_feed_tank => level_feed_tank s
  | F_level_clearwell => level_clearwell s
  | F_pressure_well => pressure_well s
  | F_pressure_feed => pressure_feed s
  | F_pressure_dist => pressure_dist s
  | F_TDS_feed => TDS_feed s
  | F_pH_true => pH_true s
  | F_Cl_true => Cl_true s
  | F_H2S_feed => H2S_feed s
  | F_membrane_health => membrane_health s
  | F_pump_well_health => pump_well_health s
  | F_pump_feed_health => pump_feed_health s
  | F_pump_dist_health => pump_dist_health s
  | F_pipe_well_health => pipe_well_health s
  | F_pipe_feed_health => pipe_feed_health s
  | F_pipe_dist_health => pipe_dist_health s
  end.

(** The seven health variables. *)
Definition is_health (f : Field) : bool :=
  match f with
  | F_membrane_health
  | F_pump_well_health | F_pump_feed_health | F_pump_dist_health
  | F_pipe_well_health | F_pipe_feed_health | F_pipe_dist_health => true
  | _ => false
  end.

Definition is_pump_health (f : Field) : bool :=
  match f with
  | F_pump_well_health | F_pump_feed_health | F_pump_dist_health => true
  | _ => false
  end.

Definition is_pipe_health (f : Field) : bool :=
  match f with
  | F_pipe_well_health | F_pipe_feed_health | F_pipe_dist_health => true
  | _ => false
  end.

Definition is_ramped (f : Field) : bool :=
  match f with
  | F_Q_wellfield | F_Q_feed | F_Q_out
  | F_pressure_well | F_pressure_feed | F_pressure_dist => true
  | _ => false
  end.

Definition health_in_range (s : PhysicsState) : Prop :=
  forall f, is_health f = true -> 0 <= get f s <= 100.

(** The ranges of the three setpoints (the sliders of ControlPanel.tsx). *)
Definition controls_in_range (c : SimulationControls) : Prop :=
  0 <= NaOH_dose c <= 20 /\ 0 <= Cl_dose c <= 5 /\ 0 <= Q_out_sp c <= 150.

(** Every [Math.random()] result lies in [0, 1). *)
Definition jitter_ok (e : Env) : Prop := forall k, 0 <= rnd e k < 1.

(** [n] calls with the same controls and step. *)
Fixpoint ticks (n : nat) (c : SimulationControls) (dt : Q) (s : PhysicsState)
    : PhysicsState :=
  match n with
  | O => s
  | S n' => tick c dt (ticks n' c dt s)
  end.

(** The two operations that write [physicsState], and a sequence of
    them, oldest first. *)
Inductive Op : Set :=
| OpTick (c : SimulationControls) (dt : Q)
| OpReset.

Definition exec1 (o : Op) (s : PhysicsState) : PhysicsState :=
  match o with
  | OpTick c dt => tick c dt s
  | OpReset => resetDamage s
  end.

Definition exec (ops : list Op) (s : PhysicsState) : PhysicsState :=
  fold_left (fun s o => exec1 o s) ops s.

(** A call with a non-negative step, or a reset. *)
Definition step_ok (o : Op) : Prop :=
  match o with
  | OpTick _ dt => 0 <= dt
  | OpReset => True
  end.

Definition op_ok (o : Op) : Prop :=
  match o with
  | OpTick c dt => controls_in_range c /\ 0 <= dt
  | OpReset => True
  end.

(** The states the module can be in: the initial object, then any calls
    with controls in range and a non-negative step, and any resets. *)
Inductive reachable : PhysicsState -> Prop :=
| reach_init : reachable physicsState
| reach_op o s : reachable s -> op_ok o -> reachable (exec1 o s).

(** Scenario S1: coils 1 and 4 set, 5 and 6 cleared, on the defaults. *)
Definition S1_controls : SimulationControls :=
  set_coils [(1%nat, true); (4%nat, true); (5%nat, false); (6%nat, false)]
    currentControls.

(** A debit that applies only when its condition holds. *)
Definition debit_if (b : bool) (rate dt h : Q) : Q :=
  if b then debit rate dt h else h.

(** Clamping into [[lo, hi]]. *)
Definition clamp (lo hi x : Q) : Q := Qmax lo (Qmin hi x).

(** Flows and pressures of the integrated state are non-negative, and so
    is the feed pump health that scales the feed-flow target. *)
Definition hydraulics_nonneg (s : PhysicsState) : Prop :=
  0 <= Q_wellfield s /\ 0 <= Q_feed s /\ 0 <= Q_out s /\
  0 <= pressure_well s /\ 0 <= pressure_feed s /\ 0 <= pressure_dist s /\
  0 <= pump_feed_health s.

(** The two module-level objects of the page together: [physicsState] of
    mockSimulation.ts and [currentControls] of the [PlantApi] instance. *)
Record Plant : Set := mkPlant {
  plant_physics : PhysicsState;
  plant_controls : SimulationControls
}.

(** The page at load time. *)
Definition plant_start : Plant := mkPlant physicsState currentControls.

(** App.tsx, [handleResetDamage]: it calls [resetDamage()] and nothing
    else. *)
Definition handleResetDamage (p : Plant) : Plant :=
  mkPlant (resetDamage (plant_physics p)) (plant_controls p).

(** The React state of [App]: the two [useState] cells, and the callback
    handed to [api.connect], which overwrites both from a payload. *)
Record AppState : Set := mkApp {
  app_simState : Pub.SimulationState;
  app_controls : SimulationControls
}.

Definition App_start : AppState := mkApp App_simState App_controls.

Definition App_onData (state : Pub.SimulationState)
    (controls : SimulationControls) (a : AppState) : AppState :=
  mkApp state controls.

(** The RO feed rule in the words of the design document, section 4.3.1,
    on the state before the call. *)
Definition spec_target_feed (c : SimulationControls) (s : PhysicsState)
    : Q * Q :=
  let suction_ok := level_feed_tank s >? 0.2 in
  let eta := pump_feed_health s / 100 in
  if ro_feed_pump_on c && suction_ok && valve_201_open c
     && valve_202_open c && valve_203_open c
  then (100 * eta, 12.0)
  else if ro_feed_pump_on c && suction_ok && valve_201_open c
          && negb (valve_202_open c && valve_203_open c)
  then (0, 30.0)
  else if ro_feed_pump_on c && suction_ok && negb (valve_201_open c)
  then (0, 33.0)
  else (0, 0).

(** The chlorine rule in the words of the design document, section 4.3.4,
    for a feed flow [q]. *)
Definition spec_current_Cl (c : SimulationControls) (q : Q) : Q :=
  if cl_pump_on c && (q >? 5) then 0.9 * Cl_dose c
  else if cl_pump_on c && negb (q >? 5) && (Cl_dose c >? 0) then 50.0
  else 0.

(** The seven health fields, in the order of the source. *)
Definition health_fields : list Field :=
  [F_membrane_health; F_pump_well_health; F_pump_feed_health;
   F_pump_dist_health; F_pipe_well_health; F_pipe_feed_health;
   F_pipe_dist_health].

(** [q] to the power [n]. *)
Fixpoint pow (q : Q) (n : nat) : Q :=
  match n with
  | O => 1
  | S k => q * pow q k
  end.

(** Concrete inputs used as examples: the default controls with the
    chlorine pump switched on, the default controls with the RO feed pump
    switched on, an environment whose random draws are all 0, and one
    whose first draw is 0 and whose later draws are 3/4. *)
Definition Cl_dosing_controls : SimulationControls :=
  sendControl K_cl_pump_on (JBool true) currentControls.

Definition RO_running_controls : SimulationControls :=
  sendControl K_ro_feed_pump_on (JBool true) currentControls.

Definition env_low : Env := mkEnv 0 (fun _ => 0).

Definition env_skewed : Env :=
  mkEnv 0 (fun k => match k with O => 0 | S _ => 3 # 4 end).

(** Scenario S1 after [k] calls at the step 0.1 from the initial object. *)
Definition S1_after (k : nat) : PhysicsState :=
  ticks k S1_controls 0.1 physicsState.

(** What holds in scenario S1 after [n] calls that debited the membrane
    and the feed pipe. *)
Definition S1_inv (n : nat) (s : PhysicsState) : Prop :=
  Q_wellfield s == 0 /\ Q_feed s == 0 /\
  level_feed_tank s == 2.5 /\ Cl_true s == 0 /\
  22.5 <= pressure_feed s <= 30 /\
  membrane_health s == 100 - 0.1 * inject_Z (Z.of_nat n) /\
  pipe_feed_health s == 100 - 0.05 * inject_Z (Z.of_nat n).

(** ** api.ts, continued: reading a control and the timer callback *)

(** [controls[key]] *)
Definition getControl (key : ControlKey) (c : SimulationControls) : JsValue :=
  match key with
  | K_wellfield_on => JBool (wellfield_on c)
  | K_ro_feed_pump_on => JBool (ro_feed_pump_on c)
  | K_dist_pump_on => JBool (dist_pump_on c)
  | K_valve_101_open => JBool (valve_101_open c)
  | K_valve_201_open => JBool (valve_201_open c)
  | K_valve_202_open => JBool (valve_202_open c)
  | K_valve_203_open => JBool (valve_203_open c)
  | K_valve_401_open => JBool (valve_401_open c)
  | K_naoh_pump_on => JBool (naoh_pump_on c)
  | K_cl_pump_on => JBool (cl_pump_on c)
  | K_NaOH_dose => JNum (NaOH_dose c)
  | K_Cl_dose => JNum (Cl_dose c)
  | K_Q_out_sp => JNum (Q_out_sp c)
  end.

(** The list test [isBooleanControl] of [sendControl]. *)
Definition isBooleanControl (control : ControlKey) : bool :=
  match control with
  | K_NaOH_dose | K_Cl_dose | K_Q_out_sp => false
  | _ => true
  end.

(** What [sendControl] stores under [control] for [value]. *)
Definition stored (control : ControlKey) (value : JsValue) : JsValue :=
  if isBooleanControl control then JBool (is_one_or_true value)
  else JNum (Number value).

Inductive ConnectionStatus : Set :=
| connecting | connected | disconnected.

(** The two [console.log] lines of the timer callback. *)
Inductive LogLine : Set :=
| Log_backend_connected
| Log_backend_offline.

(** [ApiPayload] *)
Record ApiPayload : Set := mkPayload {
  time_s : Q;
  payload_state : Pub.SimulationState;
  payload_controls : SimulationControls
}.

(** The fields of a [PlantApi] instance that the callback uses. *)
Record PlantApi : Set := mkApi {
  backendAvailable : bool;
  api_controls : SimulationControls
}.

(** [export const api = new PlantApi()] *)
Definition api : PlantApi := mkApi false currentControls.

(** One firing of the [setInterval] callback of [connect], run to its
    end.  [response] is [Some state] when the request to the Python twin
    came back [ok] with that state, and [None] when it threw, timed out or
    came back not [ok]; [now] is [Date.now() / 1000].  The result holds
    the status given to [onStatus], the payload given to [onData], the
    lines logged, the instance and [physicsState] afterwards. *)
Record Fired : Set := mkFired {
  fired_status : ConnectionStatus;
  fired_payload : ApiPayload;
  fired_log : list LogLine;
  fired_api : PlantApi;
  fired_physics : PhysicsState
}.

Definition timer_callback (response : option Pub.SimulationState) (now : Q)
    (e : Env) (a : PlantApi) (s : PhysicsState) : Fired :=
  match response with
  | Some newState =>
      let log := if negb (backendAvailable a)
                 then [Log_backend_connected] else [] in
      let a := if negb (backendAvailable a)
               then mkApi true (api_controls a) else a in
      mkFired (if backendAvailable a then connected else connected)
        (mkPayload now newState (api_controls a)) log a s
  | None =>
      let log := if backendAvailable a then [Log_backend_offline] else [] in
      let a := if backendAvailable a
               then mkApi false (api_controls a) else a in
      let r := simulatePhysics (api_controls a) 0.1 e s in
      mkFired (if backendAvailable a then connected else connected)
        (mkPayload now (fst r) (api_controls a)) log a (snd r)
  end.

(** A run of firings, oldest first: each with its response, clock and
    environment.  The payloads are returned oldest first. *)
Fixpoint timer_run (firings : list (option Pub.SimulationState * Q * Env))
    (a : PlantApi) (s : PhysicsState)
    : list Fired * PlantApi * PhysicsState :=
  match firings with
  | [] => ([], a, s)
  | (response, now, e) :: rest =>
      let f := timer_callback response now e a s in
      let r := timer_run rest (fired_api f) (fired_physics f) in
      (f :: fst (fst r), snd (fst r), snd r)
  end.

(** The number of firings whose request failed. *)
Fixpoint failures (firings : list (option Pub.SimulationState * Q * Env))
    : nat :=
  match firings with
  | [] => O
  | (None, _, _) :: rest => S (failures rest)
  | (Some _, _, _) :: rest => failures rest
  end.

(** ** App.tsx, continued: the handlers *)

(** The ten switches of ControlPanel.tsx, the only callers of
    [onToggle], each with its key. *)
Inductive Switch : Set :=
| SW_wellfield_on | SW_valve_101_open
| SW_ro_feed_pump_on | SW_valve_201_open | SW_valve_203_open
| SW_valve_202_open
| SW_dist_pump_on | SW_valve_401_open
| SW_naoh_pump_on | SW_cl_pump_on.

Definition switch_key (w : Switch) : ControlKey :=
  match w with
  | SW_wellfield_on => K_wellfield_on
  | SW_valve_101_open => K_valve_101_open
  | SW_ro_feed_pump_on => K_ro_feed_pump_on
  | SW_valve_201_open => K_valve_201_open
  | SW_valve_203_open => K_valve_203_open
  | SW_valve_202_open => K_valve_202_open
  | SW_dist_pump_on => K_dist_pump_on
  | SW_valve_401_open => K_valve_401_open
  | SW_naoh_pump_on => K_naoh_pump_on
  | SW_cl_pump_on => K_cl_pump_on
  end.

(** [controls[key]] for the key of a switch. *)
Definition switch_value (w : Switch) (c : SimulationControls) : bool :=
  match w with
  | SW_wellfield_on => wellfield_on c
  | SW_valve_101_open => valve_101_open c
  | SW_ro_feed_pump_on => ro_feed_pump_on c
  | SW_valve_201_open => valve_201_open c
  | SW_valve_203_open => valve_203_open c
  | SW_valve_202_open => valve_202_open c
  | SW_dist_pump_on => dist_pump_on c
  | SW_valve_401_open => valve_401_open c
  | SW_naoh_pump_on => naoh_pump_on c
  | SW_cl_pump_on => cl_pump_on c
  end.

(** [{ ...prev, [key]: newValue }] for the key of a switch. *)
Definition spread_switch (w : Switch) (newValue : bool)
    (prev : SimulationControls) : SimulationControls :=
  match w with
  | SW_wellfield_on =>
      mkControls newValue (ro_feed_pump_on prev) (dist_pump_on prev)
        (valve_101_open prev) (valve_201_open prev) (valve_202_open prev)
        (valve_203_open prev) (valve_401_open prev) (naoh_pump_on prev)
        (cl_pump_on prev) (NaOH_dose prev) (Cl_dose prev) (Q_out_sp prev)
  | SW_valve_101_open =>
      mkControls (wellfield_on prev) (ro_feed_pump_on prev)
        (dist_pump_on prev) newValue (valve_201_open prev)
        (valve_202_open prev) (valve_203_open prev) (valve_401_open prev)
        (naoh_pump_on prev) (cl_pump_on prev) (NaOH_dose prev)
        (Cl_dose prev) (Q_out_sp prev)
  | SW_ro_feed_pump_on =>
      mkControls (wellfield_on prev) newValue (dist_pump_on prev)
        (valve_101_open prev) (valve_201_open prev) (valve_202_open prev)
        (valve_203_open prev) (valve_401_open prev) (naoh_pump_on prev)
        (cl_pump_on prev) (NaOH_dose prev) (Cl_dose prev) (Q_out_sp prev)
  | SW_valve_201_open =>
      mkControls (wellfield_on prev) (ro_feed_pump_on prev)
        (dist_pump_on prev) (valve_101_open prev) newValue
        (valve_202_open prev) (valve_203_open prev) (valve_401_open prev)
        (naoh_pump_on prev) (cl_pump_on prev) (NaOH_dose prev)
        (Cl_dose prev) (Q_out_sp prev)
  | SW_valve_203_open =>
      mkControls (wellfield_on prev) (ro_feed_pump_on prev)
        (dist_pump_on prev) (valve_101_open prev) (valve_201_open prev)
        (valve_202_open prev) newValue (valve_401_open prev)
        (naoh_pump_on prev) (cl_pump_on prev) (NaOH_dose prev)
        (Cl_dose prev) (Q_out_sp prev)
  | SW_valve_202_open =>
      mkControls (wellfield_on prev) (ro_feed_pump_on prev)
        (dist_pump_on prev) (valve_101_open prev) (valve_201_open prev)
        newValue (valve_203_open prev) (valve_401_open prev)
        (naoh_pump_on prev) (cl_pump_on prev) (NaOH_dose prev)
        (Cl_dose prev) (Q_out_sp prev)
  | SW_dist_pump_on =>
      mkControls (wellfield_on prev) (ro_feed_pump_on prev) newValue
        (valve_101_open prev) (valve_201_open prev) (valve_202_open prev)
        (valve_203_open prev) (valve_401_open prev) (naoh_pump_on prev)
        (cl_pump_on prev) (NaOH_dose prev) (Cl_dose prev) (Q_out_sp prev)
  | SW_valve_401_open =>
      mkControls (wellfield_on prev) (ro_feed_pump_on prev)
        (dist_pump_on prev) (valve_101_open prev) (valve_201_open prev)
        (valve_202_open prev) (valve_203_open prev) newValue
        (naoh_pump_on prev) (cl_pump_on prev) (NaOH_dose prev)
        (Cl_dose prev) (Q_out_sp prev)
  | SW_naoh_pump_on =>
      mkControls (wellfield_on prev) (ro_feed_pump_on prev)
        (dist_pump_on prev) (valve_101_open prev) (valve_201_open prev)
        (valve_202_open prev) (valve_203_open prev) (valve_401_open prev)
        newValue (cl_pump_on prev) (NaOH_dose prev) (Cl_dose prev)
        (Q_out_sp prev)
  | SW_cl_pump_on =>
      mkControls (wellfield_on prev) (ro_feed_pump_on prev)
        (dist_pump_on prev) (valve_101_open prev) (valve_201_open prev)
        (valve_202_open prev) (valve_203_open prev) (valve_401_open prev)
        (naoh_pump_on prev) newValue (NaOH_dose prev) (Cl_dose prev)
        (Q_out_sp prev)
  end.

(** The three sliders of ControlPanel.tsx, the only callers of
    [onUpdate], each with its key. *)
Inductive Slider : Set :=
| SL_NaOH | SL_Cl | SL_Flow_SP.

Definition slider_key (sl : Slider) : ControlKey :=
  match sl with
  | SL_NaOH => K_NaOH_dose
  | SL_Cl => K_Cl_dose
  | SL_Flow_SP => K_Q_out_sp
  end.

(** [{ ...prev, [key]: value }] for the key of a slider. *)
Definition spread_slider (sl : Slider) (value : Q)
    (prev : SimulationControls) : SimulationControls :=
  match sl with
  | SL_NaOH =>
      mkControls (wellfield_on prev) (ro_feed_pump_on prev)
        (dist_pump_on prev) (valve_101_open prev) (valve_201_open prev)
        (valve_202_open prev) (valve_203_open prev) (valve_401_open prev)
        (naoh_pump_on prev) (cl_pump_on prev) value (Cl_dose prev)
        (Q_out_sp prev)
  | SL_Cl =>
      mkControls (wellfield_on prev) (ro_feed_pump_on prev)
        (dist_pump_on prev) (valve_101_open prev) (valve_201_open prev)
        (valve_202_open prev) (valve_203_open prev) (valve_401_open prev)
        (naoh_pump_on prev) (cl_pump_on prev) (NaOH_dose prev) value
        (Q_out_sp prev)
  | SL_Flow_SP =>
      mkControls (wellfield_on prev) (ro_feed_pump_on prev)
        (dist_pump_on prev) (valve_101_open prev) (valve_201_open prev)
        (valve_202_open prev) (valve_203_open prev) (valve_401_open prev)
        (naoh_pump_on prev) (cl_pump_on prev) (NaOH_dose prev)
        (Cl_dose prev) value
  end.

(** The controls as the page holds them: [controls] as the last render
    of [App] bound it, which is what the handlers built by that render
    read; the current React state, which a functional update
    [setControls(prev => ...)] receives as [prev]; and [currentControls]
    of the [PlantApi] instance. *)
Record Desk : Set := mkDesk {
  desk_rendered : SimulationControls;
  desk_app : SimulationControls;
  desk_api : SimulationControls
}.

(** [handleToggle]: the new value is the negation of [controls[key]] as
    the last render bound it ([useCallback] with [[controls]]); it is
    spread into the current state [prev] and sent as
    [Number(newValue)]. *)
Definition handleToggle (w : Switch) (d : Desk) : Desk :=
  let newValue := negb (switch_value w (desk_rendered d)) in
  mkDesk (desk_rendered d)
         (spread_switch w newValue (desk_app d))
         (sendControl (switch_key w) (JNum (Number (JBool newValue)))
            (desk_api d)).

(** [handleUpdate] *)
Definition handleUpdate (sl : Slider) (value : Q) (d : Desk) : Desk :=
  mkDesk (desk_rendered d)
         (spread_slider sl value (desk_app d))
         (sendControl (slider_key sl) (JNum value) (desk_api d)).

(** [handleEmergencyStop]: thirteen writes to the [PlantApi] instance;
    the React copy is not written. *)
Definition emergency_keys : list ControlKey :=
  [K_wellfield_on; K_ro_feed_pump_on; K_dist_pump_on;
   K_valve_101_open; K_valve_201_open; K_valve_202_open; K_valve_203_open;
   K_valve_401_open; K_naoh_pump_on; K_cl_pump_on].

Definition handleEmergencyStop (c : SimulationControls) : SimulationControls :=
  let c := fold_left (fun c k => sendControl k (JNum 0) c) emergency_keys c in
  let c := sendControl K_NaOH_dose (JNum 0) c in
  let c := sendControl K_Cl_dose (JNum 0) c in
  let c := sendControl K_Q_out_sp (JNum 0) c in
  c.

(** [handleReset], the button "Normal Operation". *)
Definition handleReset (c : SimulationControls) : SimulationControls :=
  let c := sendControl K_wellfield_on (JNum 1) c in
  let c := sendControl K_ro_feed_pump_on (JNum 1) c in
  let c := sendControl K_dist_pump_on (JNum 1) c in
  let c := sendControl K_valve_101_open (JNum 1) c in
  let c := sendControl K_valve_201_open (JNum 1) c in
  let c := sendControl K_valve_202_open (JNum 1) c in
  let c := sendControl K_valve_203_open (JNum 1) c in
  let c := sendControl K_valve_401_open (JNum 1) c in
  let c := sendControl K_naoh_pump_on (JNum 1) c in
  let c := sendControl K_cl_pump_on (JNum 1) c in
  let c := sendControl K_NaOH_dose (JNum 5.0) c in
  let c := sendControl K_Cl_dose (JNum 1.0) c in
  let c := sendControl K_Q_out_sp (JNum 80.0) c in
  c.

(** The events of the control panel that write controls, and the
    re-render of [App]. *)
Inductive DeskEvent : Set :=
| Toggle (w : Switch)
| Update (sl : Slider) (value : Q)
| EmergencyStop
| NormalOperation
| Payload (controls : SimulationControls)
| Render.

(** [Payload] is the [onData] callback: [setControls(data.controls)]
    overwrites the React state with the controls of the payload.
    [Render] is a render of [App]: [controls] is bound to the current
    state, and [handleToggle] is rebuilt over it. *)
Definition desk_step (ev : DeskEvent) (d : Desk) : Desk :=
  match ev with
  | Toggle w => handleToggle w d
  | Update sl value => handleUpdate sl value d
  | EmergencyStop =>
      mkDesk (desk_rendered d) (desk_app d)
        (handleEmergencyStop (desk_api d))
  | NormalOperation =>
      mkDesk (desk_rendered d) (desk_app d) (handleReset (desk_api d))
  | Payload controls => mkDesk (desk_rendered d) controls (desk_api d)
  | Render => mkDesk (desk_app d) (desk_app d) (desk_api d)
  end.

(** Panel resizing: the React state and the two refs it uses. *)
Record Panel : Set := mkPanel {
  panelHeight : Q;
  isDragging : bool;
  dragStartY : Q;
  dragStartHeight : Q
}.

(** [useState(300)], [useState(false)], [useRef(0)], [useRef(0)] *)
Definition panel_start : Panel := mkPanel 300 false 0 0.

Inductive MouseEvent : Set :=
| MouseDown (clientY : Q)
| MouseMove (clientY innerHeight : Q)
| MouseUp.

(** [startResize], [handleMouseMove] (with [window.innerHeight] at the
    event) and [handleMouseUp]. *)
Definition panel_step (ev : MouseEvent) (p : Panel) : Panel :=
  match ev with
  | MouseDown clientY => mkPanel (panelHeight p) true clientY (panelHeight p)
  | MouseMove clientY innerHeight =>
      if negb (isDragging p) then p
      else
        let deltaY := dragStartY p - clientY in
        let newHeight :=
          Math_max 150
            (Math_min (innerHeight - 200) (dragStartHeight p + deltaY)) in
        mkPanel newHeight (isDragging p) (dragStartY p) (dragStartHeight p)
  | MouseUp =>
      mkPanel (panelHeight p) false (dragStartY p) (dragStartHeight p)
  end.

(** ** DataPanel.tsx: the status of each row *)

Inductive Status : Set :=
| normal | warning | alarm | critical.

(** [x >= y] of the source. *)
Definition Qgeb (x y : Q) : bool := Qle_bool y x.

Module DataPanel.

Definition recovery (state : Pub.SimulationState) : Q :=
  if Pub.Q_feed state >? 0
  then (Pub.Q_perm state / Pub.Q_feed state) * 100
  else 0.

Definition memHealthStatus (state : Pub.SimulationState) : Status :=
  if Pub.membrane_health state <? 50 then critical
  else if Pub.membrane_health state <? 80 then warning
  else normal.

Definition pumpHealthStatus (state : Pub.SimulationState) : Status :=
  if Pub.pump_feed_health state <? 80 then critical else normal.

(** Table 1 *)
Definition feed_tank_level (state : Pub.SimulationState) : Status :=
  if (Pub.level_feed_tank state <? 0.5) || (Pub.level_feed_tank state >? 4.8)
  then alarm else normal.

Definition feed_pressure (state : Pub.SimulationState) : Status :=
  if Pub.pressure_feed state >? 15 then alarm else normal.

Definition feed_pump_health (state : Pub.SimulationState) : Status :=
  pumpHealthStatus state.

(** Table 2 *)
Definition permeate_cond (state : Pub.SimulationState) : Status :=
  if Pub.TDS_perm state >? 100 then alarm else normal.

Definition recovery_rate (state : Pub.SimulationState) : Status :=
  if (recovery state <? 70) && (Pub.Q_feed state >? 10)
  then warning else normal.

Definition diff_pressure (state : Pub.SimulationState) : Status :=
  if Pub.dP_ro_true state >? 1.5 then warning else normal.

Definition membrane_health (state : Pub.SimulationState) : Status :=
  memHealthStatus state.

(** Table 3 *)
Definition clearwell_level (state : Pub.SimulationState) : Status :=
  if (Pub.level_clearwell state <? 0.5) || (Pub.level_clearwell state >? 5.8)
  then alarm else normal.

Definition product_pH (state : Pub.SimulationState) : Status :=
  if (Pub.pH_true state >? 8.5) || (Pub.pH_true state <? 6.5)
  then alarm else normal.

Definition residual_chlorine (state : Pub.SimulationState) : Status :=
  if Pub.Cl_true state >? 2.0 then alarm else normal.

(** Table 4: the expression shared by its seven rows, on a health. *)
Definition equipment (health : Q) : Status :=
  if health <? 50 then critical
  else if health <? 80 then warning
  else normal.

End DataPanel.

(** ** ProcessDiagram.tsx *)

Module ProcessDiagram.






(** [Tank2D]: the fill height, the overflow flag and the red colouring. *)
Definition fillH (levelPct h : Q) : Q := (levelPct / 100) * h.
Definition isOverflowing (levelPct : Q) : bool := Qgeb levelPct 100.
Definition isLowLevel (levelPct : Q) : bool := levelPct <? 15.
Definition liquid_red (levelPct : Q) : bool :=
  isLowLevel levelPct || (levelPct >? 90).

Definition feedPct (state : Pub.SimulationState) : Q :=
  (Pub.level_feed_tank state / 5.0) * 100.
Definition clearPct (state : Pub.SimulationState) : Q :=
  (Pub.level_clearwell state / 6.0) * 100.

(** The [alarm] flags of the instrument tags. *)
Definition PIT_101_alarm (state : Pub.SimulationState) : bool :=
  Pub.pressure_well state >? 10.
Definition PDT_201_alarm (state : Pub.SimulationState) : bool :=
  Pub.dP_ro_true state >? 3.5.
Definition AIT_301_alarm (state : Pub.SimulationState) : bool :=
  Pub.pH_true state >? 8.5.
Definition PIT_401_alarm (state : Pub.SimulationState) : bool :=
  Pub.pressure_dist state >? 12.

End ProcessDiagram.

(** ** Vocabulary of the further properties *)

(** The bounds of the environment: draws in [0, 1) and a sine in
    [-1, 1]. *)
Definition env_ok (e : Env) : Prop :=
  jitter_ok e /\ - (1) <= sin_now e <= 1.

(** Upper bounds of the integrated flows and pressures: the capacities
    and the deadhead pressures. *)
Definition hydraulics_bounded (s : PhysicsState) : Prop :=
  Q_wellfield s <= 110 /\ Q_feed s <= 100 /\ Q_out s <= 120 /\
  pressure_well s <= 12 /\ pressure_feed s <= 33 /\ pressure_dist s <= 15.

(** A series of calls with the same controls and step, each with its own
    environment: the snapshots, oldest first, and the final state. *)
Fixpoint calls (es : list Env) (c : SimulationControls) (dt : Q)
    (s : PhysicsState) : list Pub.SimulationState * PhysicsState :=
  match es with
  | [] => ([], s)
  | e :: rest =>
      let r := simulatePhysics c dt e s in
      let r' := calls rest c dt (snd r) in
      (fst r :: fst r', snd r')
  end.

(** The plant at rest: no flow, no pressure, no chlorine, levels within
    the tanks. *)
Definition at_rest (s : PhysicsState) : Prop :=
  Q_wellfield s == 0 /\ Q_feed s == 0 /\ Q_out s == 0 /\
  pressure_well s == 0 /\ pressure_feed s == 0 /\ pressure_dist s == 0 /\
  Cl_true s == 0 /\
  0 <= level_feed_tank s <= 5 /\ 0 <= level_clearwell s <= 6.

(** Two states with the same value in every field. *)
Definition same_state (s1 s2 : PhysicsState) : Prop :=
  forall f, get f s1 == get f s2.

(** The fields a snapshot copies without jitter, and the same fields of
    the integrated state. *)
Definition snapshot_exact (p : Pub.SimulationState) : list Q :=
  [Pub.level_feed_tank p; Pub.level_clearwell p;
   Pub.membrane_health p; Pub.pump_well_health p; Pub.pump_feed_health p;
   Pub.pump_dist_health p; Pub.pipe_well_health p; Pub.pipe_feed_health p;
   Pub.pipe_dist_health p].

Definition state_exact (s : PhysicsState) : list Q :=
  [level_feed_tank s; level_clearwell s;
   membrane_health s; pump_well_health s; pump_feed_health s;
   pump_dist_health s; pipe_well_health s; pipe_feed_health s;
   pipe_dist_health s].

(** The four main pumps and dosing pumps that drive the integrated
    state are off. *)
Definition pumps_off (c : SimulationControls) : Prop :=
  wellfield_on c = false /\ ro_feed_pump_on c = false /\
  dist_pump_on c = false /\ cl_pump_on c = false.


Definition panel_run (evs : list MouseEvent) (p : Panel) : Panel :=
  fold_left (fun p ev => panel_step ev p) evs p.


(** How bad a status is. *)
Definition severity (st : Status) : nat :=
  match st with
  | normal => 0
  | warning => 1
  | alarm => 2
  | critical => 3
  end.

(** Everything off and every setpoint at 0; everything on with the
    setpoints of the "Normal Operation" button. *)
Definition all_off : SimulationControls :=
  mkControls false false false false false false false false false false
    0 0 0.

Definition normal_operation : SimulationControls :=
  mkControls true true true true true true true true true true
    5.0 1.0 80.0.

(** Whether the last request of a run was answered; [before] when the run
    is empty. *)
Fixpoint last_answered
    (firings : list (option Pub.SimulationState * Q * Env)) (before : bool)
    : bool :=
  match firings with
  | [] => before
  | (Some _, _, _) :: rest => last_answered rest true
  | (None, _, _) :: rest => last_answered rest false
  end.

(** * Comparisons, maxima and debits *)

Lemma Qgtb_true (x y : Q) : (x >? y) = true <-> y < x.
Proof.
  unfold Qgtb. rewrite negb_true_iff, <- not_true_iff_false, Qle_bool_iff.
  split; [apply Qnot_le_lt | apply Qlt_not_le].
Qed.

Lemma Qgtb_false (x y : Q) : (x >? y) = false <-> x <= y.
Proof. unfold Qgtb. rewrite negb_false_iff. apply Qle_bool_iff. Qed.

Lemma Qltb_true (x y : Q) : (x <? y) = true <-> x < y.
Proof. apply Qgtb_true. Qed.

Lemma Qltb_false (x y : Q) : (x <? y) = false <-> y <= x.
Proof. apply Qgtb_false. Qed.

(** Replace every comparison of the goal by its two outcomes, each
    recorded as an inequality. *)
Ltac split_cmp :=
  repeat match goal with
  | |- context [?x >? ?y] =>
      let E := fresh "E" in
      destruct (x >? y) eqn:E;
      [apply Qgtb_true in E | apply Qgtb_false in E]
  | |- context [?x <? ?y] =>
      let E := fresh "E" in
      destruct (x <? y) eqn:E;
      [apply Qltb_true in E | apply Qltb_false in E]
  end.

(** Case analysis on every conditional of the goal. *)
Ltac split_if :=
  repeat match goal with
  | |- context [if ?b then _ else _] => destruct b; cbn
  end.

Lemma Math_max_spec (x y : Q) :
  (x < y /\ Math_max x y == y) \/ (y <= x /\ Math_max x y == x).
Proof. apply Q.max_spec. Qed.

Lemma Math_min_spec (x y : Q) :
  (x < y /\ Math_min x y == x) \/ (y <= x /\ Math_min x y == y).
Proof. apply Q.min_spec. Qed.

Lemma debit_spec (rate dt h : Q) :
  (h - rate * dt <= 0 /\ debit rate dt h == 0) \/
  (0 < h - rate * dt /\ debit rate dt h == h - rate * dt).
Proof.
  unfold debit. destruct (Math_max_spec 0 (h - rate * dt)) as [[H E]|[H E]];
    [right | left]; split; assumption.
Qed.

(** Name every debit of the goal, innermost first, with its two cases,
    and leave the rest to linear arithmetic. *)
Ltac name_debits :=
  repeat match goal with
  | |- context [debit ?r ?dt ?h] =>
      lazymatch h with
      | context [debit _ _ _] => fail
      | _ => idtac
      end;
      let d := fresh "d" in
      let H := fresh "Hd" in
      pose proof (debit_spec r dt h) as H;
      set (d := debit r dt h) in *;
      clearbody d
  end.

Ltac debit_lra :=
  name_debits;
  repeat match goal with
  | H : _ \/ _ |- _ => destruct H as [[? ?]|[? ?]]
  end;
  lra.

Lemma debit_if_bounds (b : bool) (rate dt h : Q) :
  0 <= rate * dt -> 0 <= h ->
  0 <= debit_if b rate dt h <= h.
Proof. intros Hr Hh. destruct b; cbn; [debit_lra | lra]. Qed.

(** * Frames: what each phase of [simulatePhysics] leaves alone *)

Ltac frame_of phase f Hf :=
  unfold phase; cbv zeta;
  destruct f; try discriminate Hf; try (now elim Hf);
  cbn; split_if; reflexivity.

Lemma pump_damage_frame c dt ok s f :
  is_pump_health f = false -> get f (pump_damage c dt ok s) = get f s.
Proof. intros Hf. frame_of pump_damage f Hf. Qed.

Lemma ramps_frame a b c d e g s f :
  is_ramped f = false -> get f (ramps a b c d e g s) = get f s.
Proof. intros Hf. frame_of ramps f Hf. Qed.

Lemma pipe_damage_frame dt s f :
  is_pipe_health f = false -> get f (pipe_damage dt s) = get f s.
Proof. intros Hf. frame_of pipe_damage f Hf. Qed.

Lemma chlorine_frame c s f :
  f <> F_Cl_true -> get f (chlorine c s) = get f s.
Proof. intros Hf. frame_of chlorine f Hf. Qed.

Lemma membrane_damage_frame dt s f :
  f <> F_membrane_health -> get f (membrane_damage dt s) = get f s.
Proof. intros Hf. frame_of membrane_damage f Hf. Qed.

Lemma feed_tank_balance_frame dt s f :
  f <> F_level_feed_tank -> get f (feed_tank_balance dt s) = get f s.
Proof. intros Hf. frame_of feed_tank_balance f Hf. Qed.

Lemma clearwell_balance_frame dt q s f :
  f <> F_level_clearwell -> get f (clearwell_balance dt q s) = get f s.
Proof. intros Hf. frame_of clearwell_balance f Hf. Qed.

Lemma simulatePhysics_state c dt e s :
  snd (simulatePhysics c dt e s) = tick c dt s.
Proof.
  unfold simulatePhysics, tick, after_feed_tank, after_membrane_damage,
    after_chlorine, after_pipe_damage, after_ramps, target_feed,
    after_pump_damage.
  cbv zeta. cbn [snd]. reflexivity.
Qed.

(** * The value of each field after one call *)

Lemma after_pump_damage_get c dt s f :
  is_pump_health f = false -> get f (after_pump_damage c dt s) = get f s.
Proof. unfold after_pump_damage. apply pump_damage_frame. Qed.

Lemma after_ramps_get c dt s f :
  is_ramped f = false ->
  get f (after_ramps c dt s) = get f (after_pump_damage c dt s).
Proof. unfold after_ramps. cbv zeta. apply ramps_frame. Qed.

Lemma after_pipe_damage_get c dt s f :
  is_pipe_health f = false ->
  get f (after_pipe_damage c dt s) = get f (after_ramps c dt s).
Proof. unfold after_pipe_damage. apply pipe_damage_frame. Qed.

Lemma after_chlorine_get c dt s f :
  f <> F_Cl_true ->
  get f (after_chlorine c dt s) = get f (after_pipe_damage c dt s).
Proof. unfold after_chlorine. apply chlorine_frame. Qed.

Lemma after_membrane_damage_get c dt s f :
  f <> F_membrane_health ->
  get f (after_membrane_damage c dt s) = get f (after_chlorine c dt s).
Proof. unfold after_membrane_damage. apply membrane_damage_frame. Qed.

Lemma after_feed_tank_get c dt s f :
  f <> F_level_feed_tank ->
  get f (after_feed_tank c dt s) = get f (after_membrane_damage c dt s).
Proof. unfold after_feed_tank. apply feed_tank_balance_frame. Qed.

Lemma tick_after_feed_tank c dt s f :
  f <> F_level_clearwell ->
  get f (tick c dt s) = get f (after_feed_tank c dt s).
Proof. unfold tick. cbv zeta. apply clearwell_balance_frame. Qed.

(** Follow a field back through the phases that do not assign it. *)
Ltac chase :=
  repeat first
    [ rewrite tick_after_feed_tank by discriminate
    | rewrite after_feed_tank_get by discriminate
    | rewrite after_membrane_damage_get by discriminate
    | rewrite after_chlorine_get by discriminate
    | rewrite after_pipe_damage_get by reflexivity
    | rewrite after_ramps_get by reflexivity
    | rewrite after_pump_damage_get by reflexivity ].

(** Each field of the state after the call is the field at the program
    point of its last assignment. *)
Lemma tick_get c dt s f :
  get f (tick c dt s) =
  match f with
  | F_level_clearwell => get f (tick c dt s)
  | F_level_feed_tank => get f (after_feed_tank c dt s)
  | F_membrane_health => get f (after_membrane_damage c dt s)
  | F_Cl_true => get f (after_chlorine c dt s)
  | F_pipe_well_health | F_pipe_feed_health | F_pipe_dist_health =>
      get f (after_pipe_damage c dt s)
  | F_Q_wellfield | F_Q_feed | F_Q_out
  | F_pressure_well | F_pressure_feed | F_pressure_dist =>
      get f (after_ramps c dt s)
  | F_pump_well_health | F_pump_feed_health | F_pump_dist_health =>
      get f (after_pump_damage c dt s)
  | F_TDS_feed | F_pH_true | F_H2S_feed => get f s
  end.
Proof. destruct f; chase; reflexivity. Qed.

(** ** Projections as instances of [get] *)

Lemma Q_wellfield_get s : Q_wellfield s = get F_Q_wellfield s.
Proof. reflexivity. Qed.

Lemma Q_feed_get s : Q_feed s = get F_Q_feed s.
Proof. reflexivity. Qed.

Lemma Q_out_get s : Q_out s = get F_Q_out s.
Proof. reflexivity. Qed.

Lemma level_feed_tank_get s : level_feed_tank s = get F_level_feed_tank s.
Proof. reflexivity. Qed.

Lemma level_clearwell_get s : level_clearwell s = get F_level_clearwell s.
Proof. reflexivity. Qed.

Lemma pressure_well_get s : pressure_well s = get F_pressure_well s.
Proof. reflexivity. Qed.

Lemma pressure_feed_get s : pressure_feed s = get F_pressure_feed s.
Proof. reflexivity. Qed.

Lemma pressure_dist_get s : pressure_dist s = get F_pressure_dist s.
Proof. reflexivity. Qed.

Lemma TDS_feed_get s : TDS_feed s = get F_TDS_feed s.
Proof. reflexivity. Qed.

Lemma pH_true_get s : pH_true s = get F_pH_true s.
Proof. reflexivity. Qed.

Lemma Cl_true_get s : Cl_true s = get F_Cl_true s.
Proof. reflexivity. Qed.

Lemma H2S_feed_get s : H2S_feed s = get F_H2S_feed s.
Proof. reflexivity. Qed.

Lemma membrane_health_get s : membrane_health s = get F_membrane_health s.
Proof. reflexivity. Qed.

Lemma pump_well_health_get s : pump_well_health s = get F_pump_well_health s.
Proof. reflexivity. Qed.

Lemma pump_feed_health_get s : pump_feed_health s = get F_pump_feed_health s.
Proof. reflexivity. Qed.

Lemma pump_dist_health_get s : pump_dist_health s = get F_pump_dist_health s.
Proof. reflexivity. Qed.

Lemma pipe_well_health_get s : pipe_well_health s = get F_pipe_well_health s.
Proof. reflexivity. Qed.

Lemma pipe_feed_health_get s : pipe_feed_health s = get F_pipe_feed_health s.
Proof. reflexivity. Qed.

Lemma pipe_dist_health_get s : pipe_dist_health s = get F_pipe_dist_health s.
Proof. reflexivity. Qed.


(** ** Each field after the call, at the program point of its last
    assignment *)

Lemma tick_stage_Q_wellfield c dt s :
  Q_wellfield (tick c dt s) = Q_wellfield (after_ramps c dt s).
Proof. rewrite !Q_wellfield_get. chase. reflexivity. Qed.

Lemma tick_stage_Q_feed c dt s :
  Q_feed (tick c dt s) = Q_feed (after_ramps c dt s).
Proof. rewrite !Q_feed_get. chase. reflexivity. Qed.

Lemma tick_stage_Q_out c dt s :
  Q_out (tick c dt s) = Q_out (after_ramps c dt s).
Proof. rewrite !Q_out_get. chase. reflexivity. Qed.

Lemma tick_stage_level_feed_tank c dt s :
  level_feed_tank (tick c dt s) = level_feed_tank (after_feed_tank c dt s).
Proof. rewrite !level_feed_tank_get. chase. reflexivity. Qed.

Lemma tick_stage_pressure_well c dt s :
  pressure_well (tick c dt s) = pressure_well (after_ramps c dt s).
Proof. rewrite !pressure_well_get. chase. reflexivity. Qed.

Lemma tick_stage_pressure_feed c dt s :
  pressure_feed (tick c dt s) = pressure_feed (after_ramps c dt s).
Proof. rewrite !pressure_feed_get. chase. reflexivity. Qed.

Lemma tick_stage_pressure_dist c dt s :
  pressure_dist (tick c dt s) = pressure_dist (after_ramps c dt s).
Proof. rewrite !pressure_dist_get. chase. reflexivity. Qed.

Lemma tick_stage_Cl_true c dt s :
  Cl_true (tick c dt s) = Cl_true (after_chlorine c dt s).
Proof. rewrite !Cl_true_get. chase. reflexivity. Qed.

Lemma tick_stage_membrane_health c dt s :
  membrane_health (tick c dt s) = membrane_health (after_membrane_damage c dt s).
Proof. rewrite !membrane_health_get. chase. reflexivity. Qed.

Lemma tick_stage_pump_well_health c dt s :
  pump_well_health (tick c dt s) = pump_well_health (after_pump_damage c dt s).
Proof. rewrite !pump_well_health_get. chase. reflexivity. Qed.

Lemma tick_stage_pump_feed_health c dt s :
  pump_feed_health (tick c dt s) = pump_feed_health (after_pump_damage c dt s).
Proof. rewrite !pump_feed_health_get. chase. reflexivity. Qed.

Lemma tick_stage_pump_dist_health c dt s :
  pump_dist_health (tick c dt s) = pump_dist_health (after_pump_damage c dt s).
Proof. rewrite !pump_dist_health_get. chase. reflexivity. Qed.

Lemma tick_stage_pipe_well_health c dt s :
  pipe_well_health (tick c dt s) = pipe_well_health (after_pipe_damage c dt s).
Proof. rewrite !pipe_well_health_get. chase. reflexivity. Qed.

Lemma tick_stage_pipe_feed_health c dt s :
  pipe_feed_health (tick c dt s) = pipe_feed_health (after_pipe_damage c dt s).
Proof. rewrite !pipe_feed_health_get. chase. reflexivity. Qed.

Lemma tick_stage_pipe_dist_health c dt s :
  pipe_dist_health (tick c dt s) = pipe_dist_health (after_pipe_damage c dt s).
Proof. rewrite !pipe_dist_health_get. chase. reflexivity. Qed.

(** ** What each phase assigns *)

Lemma pump_damage_feed c dt ok s :
  pump_feed_health (pump_damage c dt ok s) =
  debit_if (ro_feed_pump_on c && negb ok) 0.5 dt (pump_feed_health s).
Proof.
  unfold pump_damage, debit_if. cbv zeta.
  destruct (ro_feed_pump_on c && negb ok);
  destruct (wellfield_on c && negb (valve_101_open c));
  destruct (dist_pump_on c); destruct (valve_401_open c); cbn;
  destruct (level_clearwell s <? 0.2); reflexivity.
Qed.

Lemma pump_damage_well c dt ok s :
  pump_well_health (pump_damage c dt ok s) =
  debit_if (wellfield_on c && negb (valve_101_open c)) 0.3 dt
    (pump_well_health s).
Proof.
  unfold pump_damage, debit_if. cbv zeta.
  destruct (ro_feed_pump_on c && negb ok);
  destruct (wellfield_on c && negb (valve_101_open c));
  destruct (dist_pump_on c); destruct (valve_401_open c); cbn;
  destruct (level_clearwell s <? 0.2); reflexivity.
Qed.

Lemma pump_damage_dist c dt ok s :
  pump_dist_health (pump_damage c dt ok s) =
  debit_if (dist_pump_on c && negb (valve_401_open c)) 0.3 dt
    (debit_if (dist_pump_on c && (level_clearwell s <? 0.2)) 0.5 dt
       (pump_dist_health s)).
Proof.
  unfold pump_damage, debit_if. cbv zeta.
  destruct (ro_feed_pump_on c && negb ok);
  destruct (wellfield_on c && negb (valve_101_open c));
  destruct (dist_pump_on c); destruct (valve_401_open c); cbn;
  destruct (level_clearwell s <? 0.2); reflexivity.
Qed.

Lemma ramps_values tqw tqf tqd tpw tpf tpd s :
  let s' := ramps tqw tqf tqd tpw tpf tpd s in
  Q_wellfield s' = Q_wellfield s + (tqw - Q_wellfield s) * RAMP_RATE /\
  Q_feed s' = Q_feed s + (tqf - Q_feed s) * RAMP_RATE /\
  Q_out s' = Q_out s + (tqd - Q_out s) * RAMP_RATE /\
  pressure_well s' = pressure_well s + (tpw - pressure_well s) * 0.5 /\
  pressure_feed s' = pressure_feed s + (tpf - pressure_feed s) * 0.5 /\
  pressure_dist s' = pressure_dist s + (tpd - pressure_dist s) * 0.5.
Proof. cbv zeta. unfold ramps. cbn. repeat split; reflexivity. Qed.

Lemma pipe_damage_values dt s :
  let s' := pipe_damage dt s in
  pipe_well_health s' =
    debit_if (pressure_well s >? 10) 0.2 dt (pipe_well_health s) /\
  pipe_feed_health s' =
    debit_if (pressure_feed s >? 20) 0.5 dt (pipe_feed_health s) /\
  pipe_dist_health s' =
    debit_if (pressure_dist s >? 12) 0.3 dt (pipe_dist_health s).
Proof.
  cbv zeta. unfold pipe_damage, debit_if. cbv zeta.
  destruct (pressure_well s >? 10); cbn;
  destruct (pressure_feed s >? 20); cbn;
  destruct (pressure_dist s >? 12); cbn; repeat split; reflexivity.
Qed.

Lemma chlorine_value c s :
  Cl_true (chlorine c s) = Cl_true s + (current_Cl c s - Cl_true s) * 0.1.
Proof. reflexivity. Qed.

Lemma membrane_damage_value dt s :
  membrane_health (membrane_damage dt s) =
  debit_if (pressure_feed s >? 20.0) 1.0 dt
    (debit_if ((Cl_true s >? MEMBRANE_CHLORINE_LIMIT) && (Q_feed s >? 0))
       0.2 dt (membrane_health s)).
Proof.
  unfold membrane_damage, debit_if. cbv zeta.
  destruct ((Cl_true s >? MEMBRANE_CHLORINE_LIMIT) && (Q_feed s >? 0)); cbn;
  destruct (pressure_feed s >? 20.0); reflexivity.
Qed.

Lemma clamp_spec (lo hi x : Q) :
  lo <= hi ->
  (x <= lo /\ clamp lo hi x == lo) \/
  (lo <= x <= hi /\ clamp lo hi x == x) \/
  (hi <= x /\ clamp lo hi x == hi).
Proof.
  intros Hlh. unfold clamp.
  destruct (Q.min_spec hi x) as [[H1 E1]|[H1 E1]];
  destruct (Q.max_spec lo (Qmin hi x)) as [[H2 E2]|[H2 E2]].
  - right; right. split; lra.
  - right; right. split; lra.
  - right; left. repeat split; lra.
  - left. split; lra.
Qed.

Lemma feed_tank_balance_value dt s :
  level_feed_tank (feed_tank_balance dt s) ==
  clamp 0 5
    (level_feed_tank s +
     (Q_wellfield s - Q_feed s) * (dt / 3600) / TANK_AREA_FEED).
Proof.
  unfold feed_tank_balance. cbv zeta.
  set (x := level_feed_tank s +
            (Q_wellfield s - Q_feed s) * (dt / 3600) / TANK_AREA_FEED).
  clearbody x.
  assert (H05 : 0 <= 5) by lra.
  cbn [level_feed_tank set_level_feed_tank].
  destruct (clamp_spec 0 5 x H05) as [[H E]|[[H E]|[H E]]];
    rewrite E; split_cmp; cbn [level_feed_tank set_level_feed_tank] in *;
    split_cmp; cbn [level_feed_tank set_level_feed_tank] in *; lra.
Qed.

Lemma clearwell_balance_value dt q s :
  level_clearwell (clearwell_balance dt q s) ==
  clamp 0 6
    (level_clearwell s + (q - Q_out s) * (dt / 3600) / TANK_AREA_CLEARWELL).
Proof.
  unfold clearwell_balance. cbv zeta.
  set (x := level_clearwell s +
            (q - Q_out s) * (dt / 3600) / TANK_AREA_CLEARWELL).
  clearbody x.
  assert (H06 : 0 <= 6) by lra.
  cbn [level_clearwell set_level_clearwell].
  destruct (clamp_spec 0 6 x H06) as [[H E]|[[H E]|[H E]]];
    rewrite E; split_cmp; cbn [level_clearwell set_level_clearwell] in *;
    split_cmp; cbn [level_clearwell set_level_clearwell] in *; lra.
Qed.

(** ** Closed forms for one call *)

(** An equation between the same field at two program points. *)
Ltac stage_eq L :=
  match goal with
  | |- _ ?a = _ ?b => rewrite (L a), (L b); chase; reflexivity
  end.

Lemma tick_pump_feed_health c dt s :
  pump_feed_health (tick c dt s) =
  debit_if (ro_feed_pump_on c && negb (level_feed_tank s >? 0.2)) 0.5 dt
    (pump_feed_health s).
Proof.
  rewrite tick_stage_pump_feed_health. unfold after_pump_damage.
  apply pump_damage_feed.
Qed.

Lemma tick_pump_well_health c dt s :
  pump_well_health (tick c dt s) =
  debit_if (wellfield_on c && negb (valve_101_open c)) 0.3 dt
    (pump_well_health s).
Proof.
  rewrite tick_stage_pump_well_health. unfold after_pump_damage.
  apply pump_damage_well.
Qed.

Lemma tick_pump_dist_health c dt s :
  pump_dist_health (tick c dt s) =
  debit_if (dist_pump_on c && negb (valve_401_open c)) 0.3 dt
    (debit_if (dist_pump_on c && (level_clearwell s <? 0.2)) 0.5 dt
       (pump_dist_health s)).
Proof.
  rewrite tick_stage_pump_dist_health. unfold after_pump_damage.
  apply pump_damage_dist.
Qed.

Lemma after_pump_damage_feed_health c dt s :
  pump_feed_health (after_pump_damage c dt s) = pump_feed_health (tick c dt s).
Proof. symmetry. apply tick_stage_pump_feed_health. Qed.

Lemma dist_targets_after_pump_damage c dt s :
  dist_targets c (after_pump_damage c dt s) = dist_targets c s.
Proof.
  unfold dist_targets.
  rewrite (level_clearwell_get (after_pump_damage c dt s)).
  rewrite after_pump_damage_get by reflexivity.
  rewrite <- (level_clearwell_get s). reflexivity.
Qed.

(** The six ramps, from the state before the call. *)
Lemma tick_ramps c dt s :
  Q_wellfield (tick c dt s) =
    Q_wellfield s + (fst (well_targets c) - Q_wellfield s) * RAMP_RATE /\
  Q_feed (tick c dt s) =
    Q_feed s + (fst (target_feed c dt s) - Q_feed s) * RAMP_RATE /\
  Q_out (tick c dt s) =
    Q_out s + (fst (dist_targets c s) - Q_out s) * RAMP_RATE /\
  pressure_well (tick c dt s) =
    pressure_well s + (snd (well_targets c) - pressure_well s) * 0.5 /\
  pressure_feed (tick c dt s) =
    pressure_feed s + (snd (target_feed c dt s) - pressure_feed s) * 0.5 /\
  pressure_dist (tick c dt s) =
    pressure_dist s + (snd (dist_targets c s) - pressure_dist s) * 0.5.
Proof.
  rewrite tick_stage_Q_wellfield, tick_stage_Q_feed, tick_stage_Q_out,
    tick_stage_pressure_well, tick_stage_pressure_feed,
    tick_stage_pressure_dist.
  unfold after_ramps. cbv zeta. rewrite dist_targets_after_pump_damage.
  match goal with
  | |- context [ramps ?a ?b ?c ?d ?e ?g ?x] =>
      pose proof (ramps_values a b c d e g x) as H; cbv zeta in H
  end.
  rewrite (Q_wellfield_get (after_pump_damage c dt s)),
    (Q_feed_get (after_pump_damage c dt s)),
    (Q_out_get (after_pump_damage c dt s)),
    (pressure_well_get (after_pump_damage c dt s)),
    (pressure_feed_get (after_pump_damage c dt s)),
    (pressure_dist_get (after_pump_damage c dt s)) in H.
  rewrite !after_pump_damage_get in H by reflexivity.
  rewrite <- (Q_wellfield_get s), <- (Q_feed_get s), <- (Q_out_get s),
    <- (pressure_well_get s), <- (pressure_feed_get s),
    <- (pressure_dist_get s) in H.
  exact H.
Qed.

Lemma tick_pipe_well_health c dt s :
  pipe_well_health (tick c dt s) =
  debit_if (pressure_well (tick c dt s) >? 10) 0.2 dt (pipe_well_health s).
Proof.
  rewrite tick_stage_pipe_well_health, tick_stage_pressure_well.
  unfold after_pipe_damage.
  destruct (pipe_damage_values dt (after_ramps c dt s)) as (H & _ & _).
  rewrite H. f_equal.
  rewrite pipe_well_health_get.
  rewrite after_ramps_get, after_pump_damage_get by reflexivity.
  reflexivity.
Qed.

Lemma tick_pipe_feed_health c dt s :
  pipe_feed_health (tick c dt s) =
  debit_if (pressure_feed (tick c dt s) >? 20) 0.5 dt (pipe_feed_health s).
Proof.
  rewrite tick_stage_pipe_feed_health, tick_stage_pressure_feed.
  unfold after_pipe_damage.
  destruct (pipe_damage_values dt (after_ramps c dt s)) as (_ & H & _).
  rewrite H. f_equal.
  rewrite pipe_feed_health_get.
  rewrite after_ramps_get, after_pump_damage_get by reflexivity.
  reflexivity.
Qed.

Lemma tick_pipe_dist_health c dt s :
  pipe_dist_health (tick c dt s) =
  debit_if (pressure_dist (tick c dt s) >? 12) 0.3 dt (pipe_dist_health s).
Proof.
  rewrite tick_stage_pipe_dist_health, tick_stage_pressure_dist.
  unfold after_pipe_damage.
  destruct (pipe_damage_values dt (after_ramps c dt s)) as (_ & _ & H).
  rewrite H. f_equal.
  rewrite pipe_dist_health_get.
  rewrite after_ramps_get, after_pump_damage_get by reflexivity.
  reflexivity.
Qed.

Lemma current_Cl_ext c s1 s2 :
  Q_feed s1 = Q_feed s2 -> current_Cl c s1 = current_Cl c s2.
Proof. intros H. unfold current_Cl. rewrite H. reflexivity. Qed.

Lemma tick_Cl_true c dt s :
  Cl_true (tick c dt s) =
  Cl_true s + (current_Cl c (tick c dt s) - Cl_true s) * 0.1.
Proof.
  rewrite tick_stage_Cl_true. unfold after_chlorine. rewrite chlorine_value.
  rewrite (current_Cl_ext c (tick c dt s) (after_pipe_damage c dt s)).
  - rewrite (Cl_true_get (after_pipe_damage c dt s)).
    rewrite after_pipe_damage_get, after_ramps_get, after_pump_damage_get
      by reflexivity.
    reflexivity.
  - stage_eq Q_feed_get.
Qed.

Lemma tick_membrane_health c dt s :
  membrane_health (tick c dt s) =
  debit_if (pressure_feed (tick c dt s) >? 20.0) 1.0 dt
    (debit_if ((Cl_true (tick c dt s) >? MEMBRANE_CHLORINE_LIMIT) &&
               (Q_feed (tick c dt s) >? 0))
       0.2 dt (membrane_health s)).
Proof.
  rewrite tick_stage_membrane_health. unfold after_membrane_damage.
  rewrite membrane_damage_value.
  assert (HP : pressure_feed (tick c dt s) =
               pressure_feed (after_chlorine c dt s))
    by stage_eq pressure_feed_get.
  assert (HC : Cl_true (tick c dt s) = Cl_true (after_chlorine c dt s))
    by stage_eq Cl_true_get.
  assert (HQ : Q_feed (tick c dt s) = Q_feed (after_chlorine c dt s))
    by stage_eq Q_feed_get.
  assert (HM : membrane_health (after_chlorine c dt s) = membrane_health s)
    by stage_eq membrane_health_get.
  rewrite HP, HC, HQ, HM. reflexivity.
Qed.

Lemma tick_level_feed_tank c dt s :
  level_feed_tank (tick c dt s) ==
  clamp 0 5
    (level_feed_tank s +
     (Q_wellfield (tick c dt s) - Q_feed (tick c dt s)) * (dt / 3600)
     / TANK_AREA_FEED).
Proof.
  rewrite tick_stage_level_feed_tank. unfold after_feed_tank.
  rewrite feed_tank_balance_value.
  assert (HL : level_feed_tank (after_membrane_damage c dt s) =
               level_feed_tank s)
    by stage_eq level_feed_tank_get.
  assert (HW : Q_wellfield (tick c dt s) =
               Q_wellfield (after_membrane_damage c dt s))
    by stage_eq Q_wellfield_get.
  assert (HQ : Q_feed (tick c dt s) = Q_feed (after_membrane_damage c dt s))
    by stage_eq Q_feed_get.
  rewrite HL, HW, HQ. reflexivity.
Qed.

Lemma tick_level_clearwell c dt s :
  level_clearwell (tick c dt s) ==
  clamp 0 6
    (level_clearwell s +
     (Q_feed (tick c dt s) * ro_recovery - Q_out (tick c dt s)) * (dt / 3600)
     / TANK_AREA_CLEARWELL).
Proof.
  assert (HL : level_clearwell (after_feed_tank c dt s) = level_clearwell s)
    by stage_eq level_clearwell_get.
  assert (HO : Q_out (tick c dt s) = Q_out (after_feed_tank c dt s))
    by stage_eq Q_out_get.
  assert (HQ : Q_feed (tick c dt s) = Q_feed (after_feed_tank c dt s))
    by stage_eq Q_feed_get.
  rewrite HO, HQ, <- HL. unfold tick. cbv zeta.
  apply clearwell_balance_value.
Qed.

(** ** The returned snapshot *)

Lemma published_unfold c dt e s :
  published c dt e s =
  emit e (Q_feed (after_feed_tank c dt s) * ro_recovery)
    (1250 + sin_now e * 20)
    ((1250 + sin_now e * 20) *
     (1 - 0.98 * (membrane_health (after_membrane_damage c dt s) / 100.0)))
    (7.0 + (if naoh_pump_on c then NaOH_dose c * 0.15 else 0))
    (dP_ro (tick c dt s)) (tick c dt s).
Proof.
  unfold published, simulatePhysics, tick, after_feed_tank,
    after_membrane_damage, after_chlorine, after_pipe_damage, after_ramps,
    target_feed, after_pump_damage.
  cbv zeta. cbn [fst]. reflexivity.
Qed.

Lemma Q_perm_actual_tick c dt s :
  Q_feed (after_feed_tank c dt s) * ro_recovery
  = Q_feed (tick c dt s) * ro_recovery.
Proof. f_equal. symmetry. stage_eq Q_feed_get. Qed.

Lemma fst_noisy_if e b v mag k :
  fst (noisy_if e b v mag k) = if b then v + noise e k mag else 0.
Proof. destruct b; reflexivity. Qed.

Lemma fst_noisy e v mag k : fst (noisy e v mag k) = v + noise e k mag.
Proof. reflexivity. Qed.

(** The flows and pressures of the snapshot, each with the index of the
    random draw it used. *)
Lemma published_values c dt e s :
  let s' := tick c dt s in
  let p := published c dt e s in
  exists k1 k2 k3 k4 k5 k10 k11 k12 k13 : nat,
    Pub.Q_wellfield p =
      (if Q_wellfield s' >? 1 then Q_wellfield s' + noise e k1 2 else 0) /\
    Pub.Q_feed p =
      (if Q_feed s' >? 1 then Q_feed s' + noise e k2 2 else 0) /\
    Pub.Q_perm p =
      (if Q_feed s' * ro_recovery >? 0.1
       then Q_feed s' * ro_recovery + noise e k3 1 else 0) /\
    Pub.Q_brine p =
      (if Q_feed s' - Q_feed s' * ro_recovery >? 0.1
       then Q_feed s' - Q_feed s' * ro_recovery + noise e k4 1 else 0) /\
    Pub.Q_out p =
      (if Q_out s' >? 1 then Q_out s' + noise e k5 1 else 0) /\
    Pub.pressure_well p = pressure_well s' + noise e k10 0.1 /\
    Pub.dP_ro_true p = dP_ro s' + noise e k11 0.02 /\
    Pub.pressure_feed p = pressure_feed s' + noise e k12 0.1 /\
    Pub.pressure_dist p = pressure_dist s' + noise e k13 0.1.
Proof.
  cbv zeta. rewrite published_unfold, Q_perm_actual_tick.
  unfold emit. cbv zeta.
  cbn [Pub.Q_wellfield Pub.Q_feed Pub.Q_perm Pub.Q_brine Pub.Q_out
       Pub.pressure_well Pub.dP_ro_true Pub.pressure_feed Pub.pressure_dist].
  rewrite !fst_noisy_if, !fst_noisy.
  do 9 eexists. repeat split; reflexivity.
Qed.

(** * Health *)

(** From here on a call is known through its closed forms only. *)
Opaque tick.

Ltac split_debit_if :=
  unfold debit_if;
  repeat match goal with
  | |- context [if ?b then _ else _] => destruct b; cbv iota
  end.

(** One call never raises a health value and never takes it below 0. *)
Lemma tick_health_step c dt s f :
  0 <= dt -> is_health f = true -> 0 <= get f s ->
  0 <= get f (tick c dt s) <= get f s.
Proof.
  intros Hdt Hf Hs.
  destruct f; try discriminate Hf.
  - rewrite <- (membrane_health_get s) in *.
    rewrite <- (membrane_health_get (tick c dt s)), tick_membrane_health.
    split_debit_if; debit_lra.
  - rewrite <- (pump_well_health_get s) in *.
    rewrite <- (pump_well_health_get (tick c dt s)), tick_pump_well_health.
    split_debit_if; debit_lra.
  - rewrite <- (pump_feed_health_get s) in *.
    rewrite <- (pump_feed_health_get (tick c dt s)), tick_pump_feed_health.
    split_debit_if; debit_lra.
  - rewrite <- (pump_dist_health_get s) in *.
    rewrite <- (pump_dist_health_get (tick c dt s)), tick_pump_dist_health.
    split_debit_if; debit_lra.
  - rewrite <- (pipe_well_health_get s) in *.
    rewrite <- (pipe_well_health_get (tick c dt s)), tick_pipe_well_health.
    split_debit_if; debit_lra.
  - rewrite <- (pipe_feed_health_get s) in *.
    rewrite <- (pipe_feed_health_get (tick c dt s)), tick_pipe_feed_health.
    split_debit_if; debit_lra.
  - rewrite <- (pipe_dist_health_get s) in *.
    rewrite <- (pipe_dist_health_get (tick c dt s)), tick_pipe_dist_health.
    split_debit_if; debit_lra.
Qed.

Lemma resetDamage_get s f :
  get f (resetDamage s) = if is_health f then 100.0 else get f s.
Proof. destruct f; reflexivity. Qed.

Lemma physicsState_health_in_range : health_in_range physicsState.
Proof.
  intros f Hf. destruct f; try discriminate Hf; cbn; split; discriminate.
Qed.

Lemma exec1_health_in_range o s :
  step_ok o -> health_in_range s -> health_in_range (exec1 o s).
Proof.
  intros Ho Hs f Hf. destruct o as [c dt|]; cbn [exec1 step_ok] in *.
  - destruct (tick_health_step c dt s f Ho Hf) as [H0 H1].
    + apply Hs, Hf.
    + specialize (Hs f Hf). lra.
  - rewrite resetDamage_get, Hf. lra.
Qed.

Lemma exec_health_in_range ops :
  forall s, Forall step_ok ops -> health_in_range s ->
  health_in_range (exec ops s).
Proof.
  induction ops as [|o ops IH]; intros s Hops Hs; [exact Hs|].
  inversion Hops as [|? ? Ho Hrest]; subst.
  cbn [exec fold_left]. apply IH; [exact Hrest|].
  apply exec1_health_in_range; [exact Ho | exact Hs].
Qed.

Lemma exec_no_reset_monotone ops :
  forall s f, Forall step_ok ops -> ~ In OpReset ops ->
  health_in_range s -> is_health f = true ->
  get f (exec ops s) <= get f s.
Proof.
  induction ops as [|o ops IH]; intros s f Hops Hnr Hs Hf.
  - cbn. lra.
  - inversion Hops as [|? ? Ho Hrest]; subst.
    cbn [exec fold_left].
    assert (Hs' : health_in_range (exec1 o s))
      by (apply exec1_health_in_range; [exact Ho | exact Hs]).
    assert (Hstep : get f (exec1 o s) <= get f s).
    { destruct o as [c dt|].
      - apply tick_health_step; [exact Ho | exact Hf | apply Hs, Hf].
      - exfalso. apply Hnr. left. reflexivity. }
    assert (Htail : get f (exec ops (exec1 o s)) <= get f (exec1 o s)).
    { apply IH; [exact Hrest | | exact Hs' | exact Hf].
      intros Hin. apply Hnr. right. exact Hin. }
    unfold exec in *. lra.
Qed.

Lemma exec_raise_needs_reset ops :
  forall s f, Forall step_ok ops -> health_in_range s -> is_health f = true ->
  get f s < get f (exec ops s) -> In OpReset ops.
Proof.
  induction ops as [|o ops IH]; intros s f Hops Hs Hf Hlt.
  - cbn in Hlt. lra.
  - inversion Hops as [|? ? Ho Hrest]; subst.
    destruct o as [c dt|]; [|left; reflexivity].
    right. apply (IH (tick c dt s) f); [exact Hrest | | exact Hf | ].
    + apply (exec1_health_in_range (OpTick c dt)); [exact Ho | exact Hs].
    + cbn [exec fold_left exec1] in Hlt.
      pose proof (tick_health_step c dt s f Ho Hf (proj1 (Hs f Hf))).
      unfold exec. lra.
Qed.

Lemma reachable_health_in_range s : reachable s -> health_in_range s.
Proof.
  induction 1 as [|o s Hr IH Ho].
  - apply physicsState_health_in_range.
  - apply exec1_health_in_range; [|exact IH].
    destruct o; cbn in *; [tauto | exact I].
Qed.

(** C1.  From a state whose seven health values lie in [0, 100], after any
    sequence of calls of [simulatePhysics] (any controls, any step
    [dt >= 0]) and of [resetDamage], every health value lies in [0, 100];
    a single call leaves each health value in [0, 100] and not above its
    value before the call; a sequence without a reset never ends with a
    health value above the one it started with; and a sequence that does
    end with a higher health value contains a reset. *)
Theorem health_bounded_and_monotone (ops : list Op) (s : PhysicsState)
    (f : Field) :
  health_in_range s -> Forall step_ok ops -> is_health f = true ->
  (forall c dt, 0 <= dt ->
     0 <= get f (tick c dt s) <= 100 /\ get f (tick c dt s) <= get f s) /\
  0 <= get f (exec ops s) <= 100 /\
  (~ In OpReset ops -> get f (exec ops s) <= get f s) /\
  (get f s < get f (exec ops s) -> In OpReset ops).
Proof.
  intros Hs Hops Hf.
  split.
  { intros c dt Hdt.
    pose proof (tick_health_step c dt s f Hdt Hf (proj1 (Hs f Hf))) as Ht.
    specialize (Hs f Hf). lra. }
  split; [exact (exec_health_in_range ops s Hops Hs f Hf)|].
  split.
  - intros Hnr. exact (exec_no_reset_monotone ops s f Hops Hnr Hs Hf).
  - intros Hlt. exact (exec_raise_needs_reset ops s f Hops Hs Hf Hlt).
Qed.

Lemma health_bounded_and_monotone_witness :
  health_in_range physicsState /\
  Forall step_ok [OpTick S1_controls 0.1; OpTick currentControls 0.1] /\
  0 <= get F_pipe_feed_health
         (exec [OpTick S1_controls 0.1; OpTick currentControls 0.1]
            physicsState) <= 100 /\
  get F_pipe_feed_health
    (exec [OpTick S1_controls 0.1; OpTick currentControls 0.1] physicsState)
  <= get F_pipe_feed_health physicsState.
Proof.
  assert (H1 : health_in_range physicsState).
  { intros f Hf. destruct f; try discriminate Hf; vm_compute;
      split; discriminate. }
  assert (H2 : Forall step_ok
                 [OpTick S1_controls 0.1; OpTick currentControls 0.1]).
  { repeat constructor; vm_compute; discriminate. }
  destruct (health_bounded_and_monotone
              [OpTick S1_controls 0.1; OpTick currentControls 0.1]
              physicsState F_pipe_feed_health H1 H2 eq_refl)
    as (_ & Hb & Hm & _).
  split; [exact H1 | split; [exact H2 | split; [exact Hb |]]].
  apply Hm. intros [H | [H | []]]; discriminate H.
Defined.

(** * Damage accrual *)

Lemma Qgtb_Qeq (x y y' : Q) : y == y' -> (x >? y) = (x >? y').
Proof. intros E. unfold Qgtb. rewrite E. reflexivity. Qed.

(** C2.  After one call, each health value is its value before the call
    debited once for every damage condition that holds, each debit being
    [Math.max(0, h - rate * dt)] at the rate of the table: the two pump
    conditions on the distribution pump and the two on the membrane are
    applied one after the other in the same call.  The tank levels in the
    conditions are those before the call; pressures, feed flow and
    chlorine are those after the ramps of the call, which are the values
    in the state after the call. *)
Theorem damage_accrual (c : SimulationControls) (dt : Q) (s : PhysicsState) :
  let s' := tick c dt s in
  pump_well_health s' =
    debit_if (wellfield_on c && negb (valve_101_open c)) 0.3 dt
      (pump_well_health s) /\
  pump_feed_health s' =
    debit_if (ro_feed_pump_on c && negb (level_feed_tank s >? 0.2)) 0.5 dt
      (pump_feed_health s) /\
  pump_dist_health s' =
    debit_if (dist_pump_on c && negb (valve_401_open c)) 0.3 dt
      (debit_if (dist_pump_on c && (level_clearwell s <? 0.2)) 0.5 dt
         (pump_dist_health s)) /\
  pipe_well_health s' =
    debit_if (pressure_well s' >? 10) 0.2 dt (pipe_well_health s) /\
  pipe_feed_health s' =
    debit_if (pressure_feed s' >? 20) 0.5 dt (pipe_feed_health s) /\
  pipe_dist_health s' =
    debit_if (pressure_dist s' >? 12) 0.3 dt (pipe_dist_health s) /\
  membrane_health s' =
    debit_if (pressure_feed s' >? 20) 1.0 dt
      (debit_if ((Cl_true s' >? 0.1) && (Q_feed s' >? 0)) 0.2 dt
         (membrane_health s)) /\
  (forall (b : bool) (rate h : Q),
     debit_if b rate dt h = if b then Qmax 0 (h - rate * dt) else h).
Proof.
  cbv zeta. repeat split.
  - apply tick_pump_well_health.
  - apply tick_pump_feed_health.
  - apply tick_pump_dist_health.
  - apply tick_pipe_well_health.
  - apply tick_pipe_feed_health.
  - apply tick_pipe_dist_health.
  - rewrite tick_membrane_health.
    rewrite (Qgtb_Qeq (pressure_feed (tick c dt s)) 20.0 20)
      by reflexivity.
    reflexivity.
Qed.

(** * Reset *)

Lemma resetDamage_idem s : resetDamage (resetDamage s) = resetDamage s.
Proof. destruct s. vm_compute. reflexivity. Qed.

(** C9.  [resetDamage] sets each of the seven health fields to 100.0 and
    leaves every other field of [physicsState] as it was; the controls
    object is not touched by the handler that calls it; and a second
    reset changes nothing. *)
Theorem resetDamage_frame (p : Plant) (f : Field) :
  get f (plant_physics (handleResetDamage p)) =
    (if is_health f then 100.0 else get f (plant_physics p)) /\
  100.0 == 100 /\
  plant_controls (handleResetDamage p) = plant_controls p /\
  resetDamage (resetDamage (plant_physics p)) = resetDamage (plant_physics p) /\
  handleResetDamage (handleResetDamage p) = handleResetDamage p.
Proof.
  destruct p as [s c]. unfold handleResetDamage.
  cbn [plant_physics plant_controls].
  split; [apply resetDamage_get|].
  split; [reflexivity|].
  split; [reflexivity|].
  split; [apply resetDamage_idem|].
  rewrite resetDamage_idem. reflexivity.
Qed.

(** * Levels *)

(** C7.  After one call, from any state and with any controls and step,
    the feed tank level lies in [0, 5] and the clearwell level in [0, 6]:
    each is the integrated level clamped into its range, and the clamp
    assigns nothing but the level itself. *)
Theorem levels_clamped (c : SimulationControls) (dt : Q) (s : PhysicsState) :
  let s' := tick c dt s in
  0 <= level_feed_tank s' <= 5 /\
  0 <= level_clearwell s' <= 6 /\
  level_feed_tank s' ==
    clamp 0 5
      (level_feed_tank s +
       (Q_wellfield s' - Q_feed s') * (dt / 3600) / TANK_AREA_FEED) /\
  level_clearwell s' ==
    clamp 0 6
      (level_clearwell s +
       (Q_feed s' * ro_recovery - Q_out s') * (dt / 3600)
       / TANK_AREA_CLEARWELL) /\
  (forall (x : PhysicsState) (f : Field),
     get f (feed_tank_balance dt x) =
       match f with
       | F_level_feed_tank => level_feed_tank (feed_tank_balance dt x)
       | _ => get f x
       end) /\
  (forall (x : PhysicsState) (q : Q) (f : Field),
     get f (clearwell_balance dt q x) =
       match f with
       | F_level_clearwell => level_clearwell (clearwell_balance dt q x)
       | _ => get f x
       end).
Proof.
  cbv zeta.
  pose proof (tick_level_feed_tank c dt s) as HF.
  pose proof (tick_level_clearwell c dt s) as HC.
  assert (H05 : 0 <= 5) by lra. assert (H06 : 0 <= 6) by lra.
  split; [|split; [|split; [exact HF | split; [exact HC | split]]]].
  - match type of HF with _ == clamp _ _ ?x =>
      destruct (clamp_spec 0 5 x H05) as [[H E]|[[H E]|[H E]]]
    end; rewrite E in HF; lra.
  - match type of HC with _ == clamp _ _ ?x =>
      destruct (clamp_spec 0 6 x H06) as [[H E]|[[H E]|[H E]]]
    end; rewrite E in HC; lra.
  - intros x f. destruct f;
      first [ reflexivity
            | apply feed_tank_balance_frame; discriminate ].
  - intros x q f. destruct f;
      first [ reflexivity
            | apply clearwell_balance_frame; discriminate ].
Qed.

(** * Cold start *)

(** The valves do not default open in every component: the React state
    of [App] starts with all five closed. *)
Lemma cold_start_valves_not_all_open :
  ~ Forall (fun c => valves c = [true; true; true; true; true])
      [currentControls; App_controls].
Proof.
  intros H. inversion H as [|? ? _ H']; subst.
  inversion H' as [|? ? HA _]; subst. discriminate HA.
Qed.

(** C10, amended.  At load time the simulation object has levels 2.5 and
    3.0, the seven health values at 100, a feed conductivity of 1250 and a
    pH of 7.2, and the controls object of [PlantApi] has every pump off
    and the five valves open.  The React state of [App] starts with every
    pump off, the five valves closed and both levels, the conductivity
    and the pH at the placeholders 0, 0, 0 and 7.0, and takes the controls
    of [PlantApi] at the first payload. *)
Theorem cold_start_defaults :
  switches currentControls = [false; false; false; false; false] /\
  valves currentControls = [true; true; true; true; true] /\
  level_feed_tank physicsState == 2.5 /\
  level_clearwell physicsState == 3.0 /\
  Forall (fun f => get f physicsState == 100) health_fields /\
  TDS_feed physicsState == 1250 /\
  pH_true physicsState == 7.2 /\
  switches App_controls = [false; false; false; false; false] /\
  valves App_controls = [false; false; false; false; false] /\
  Pub.level_feed_tank App_simState == 0 /\
  Pub.level_clearwell App_simState == 0 /\
  Pub.TDS_feed App_simState == 0 /\
  Pub.pH_true App_simState == 7.0 /\
  Forall (fun f => get f (plant_physics plant_start) == 100) health_fields /\
  plant_controls plant_start = currentControls /\
  (forall state a,
     app_controls (App_onData state (plant_controls plant_start) a)
     = currentControls).
Proof.
  repeat split; try reflexivity;
    repeat constructor; reflexivity.
Qed.

(** * RO feed targets *)

(** Divisions by the constants of the source, as multiplications. *)
Lemma Qdiv_100_0 (x : Q) : x / 100.0 == x * 0.01.
Proof. field. Qed.

Lemma Qdiv_100 (x : Q) : x / 100 == x * 0.01.
Proof. field. Qed.

Lemma target_feed_spec c dt s :
  fst (target_feed c dt s) == fst (spec_target_feed c s) /\
  snd (target_feed c dt s) == snd (spec_target_feed c s).
Proof.
  unfold target_feed, feed_targets, spec_target_feed.
  rewrite after_pump_damage_feed_health, tick_pump_feed_health.
  unfold debit_if, RO_FEED_RATE, MAX_FEED_PRESSURE. cbv zeta.
  destruct (ro_feed_pump_on c); destruct (level_feed_tank s >? 0.2);
  destruct (valve_201_open c); destruct (valve_202_open c);
  destruct (valve_203_open c); cbn [andb negb fst snd]; split;
    rewrite ?Qdiv_100_0, ?Qdiv_100; lra.
Qed.

(** C3.  The feed targets computed by a call are those of the four-case
    rule of the design document on the state before the call, and the
    feed flow and feed pressure move towards them by the factors 0.1 and
    0.5. *)
Theorem ro_feed_targets (c : SimulationControls) (dt : Q)
    (s : PhysicsState) :
  fst (target_feed c dt s) == fst (spec_target_feed c s) /\
  snd (target_feed c dt s) == snd (spec_target_feed c s) /\
  Q_feed (tick c dt s) ==
    Q_feed s + (fst (spec_target_feed c s) - Q_feed s) * 0.1 /\
  pressure_feed (tick c dt s) ==
    pressure_feed s + (snd (spec_target_feed c s) - pressure_feed s) * 0.5.
Proof.
  destruct (target_feed_spec c dt s) as [HQ HP].
  destruct (tick_ramps c dt s) as (_ & EQ & _ & _ & EP & _).
  rewrite EQ, EP. unfold RAMP_RATE.
  repeat split; try assumption; lra.
Qed.

(** * Chlorine *)

Lemma current_Cl_spec c s :
  0 <= Cl_dose c -> current_Cl c s == spec_current_Cl c (Q_feed s).
Proof.
  intros Hd. unfold current_Cl, spec_current_Cl.
  destruct (cl_pump_on c); cbn [andb negb]; [|reflexivity].
  destruct (Q_feed s >? 5); cbn [andb negb].
  - destruct (Math_max_spec 0 (Cl_dose c * 0.9)) as [[H E]|[H E]];
      rewrite E; lra.
  - destruct (Cl_dose c >? 0); reflexivity.
Qed.

Lemma tick_Cl_true_stagnant c dt s :
  cl_pump_on c = true -> 0 < Cl_dose c -> Q_feed (tick c dt s) <= 5 ->
  50 - Cl_true (tick c dt s) == 0.9 * (50 - Cl_true s).
Proof.
  intros Hon Hdose Hq. rewrite tick_Cl_true. unfold current_Cl.
  rewrite Hon.
  apply Qgtb_false in Hq. rewrite Hq.
  apply Qgtb_true in Hdose. rewrite Hdose. lra.
Qed.

Lemma ticks_Cl_true_stagnant c dt s n :
  cl_pump_on c = true -> 0 < Cl_dose c ->
  (forall k, (k < n)%nat -> Q_feed (ticks (S k) c dt s) <= 5) ->
  50 - Cl_true (ticks n c dt s) == pow 0.9 n * (50 - Cl_true s).
Proof.
  intros Hon Hdose. induction n as [|n IH]; intros Hq.
  - cbn [ticks pow]. lra.
  - cbn [ticks pow].
    assert (Hn : Q_feed (tick c dt (ticks n c dt s)) <= 5)
      by (apply (Hq n); lia).
    rewrite (tick_Cl_true_stagnant c dt (ticks n c dt s) Hon Hdose Hn).
    rewrite IH; [ring|].
    intros k Hk. apply Hq. lia.
Qed.

(** C6.  With a dose that is not negative, the chlorine level a call
    aims at is the one of the three-case rule of the design document on
    the feed flow after the ramps, and the chlorine state moves a tenth of
    the way towards it.  While the dosing pump runs with a positive dose
    and the feed flow stays at or below 5, the distance of the chlorine
    state to 50 is multiplied by 0.9 at every call. *)
Theorem chlorine_model (c : SimulationControls) (dt : Q) (s : PhysicsState) :
  0 <= Cl_dose c ->
  let s' := tick c dt s in
  current_Cl c s' == spec_current_Cl c (Q_feed s') /\
  Cl_true s' ==
    Cl_true s + 0.1 * (spec_current_Cl c (Q_feed s') - Cl_true s) /\
  (forall n : nat,
     cl_pump_on c = true -> 0 < Cl_dose c ->
     (forall k, (k < n)%nat -> Q_feed (ticks (S k) c dt s) <= 5) ->
     50 - Cl_true (ticks n c dt s) == pow 0.9 n * (50 - Cl_true s)).
Proof.
  intros Hd. cbv zeta.
  pose proof (current_Cl_spec c (tick c dt s) Hd) as HC.
  split; [exact HC | split].
  - rewrite tick_Cl_true, HC. lra.
  - intros n Hon Hdose Hq.
    exact (ticks_Cl_true_stagnant c dt s n Hon Hdose Hq).
Qed.

Lemma chlorine_model_witness :
  0 <= Cl_dose Cl_dosing_controls /\
  50 - Cl_true (ticks 2 Cl_dosing_controls 0.1 physicsState)
  == pow 0.9 2 * (50 - Cl_true physicsState).
Proof.
  assert (H : 0 <= Cl_dose Cl_dosing_controls) by (vm_compute; discriminate).
  split; [exact H|].
  destruct (chlorine_model Cl_dosing_controls 0.1 physicsState H)
    as (_ & _ & Hn).
  apply Hn.
  - reflexivity.
  - vm_compute. reflexivity.
  - intros k Hk. destruct k as [|[|k]]; [vm_compute; discriminate .. | lia].
Defined.

(** * Flows and pressures *)

Lemma well_targets_nonneg c :
  0 <= fst (well_targets c) /\ 0 <= snd (well_targets c).
Proof.
  unfold well_targets, WELL_FLOW_RATE.
  destruct (wellfield_on c); [destruct (valve_101_open c)|];
    cbn [fst snd]; split; lra.
Qed.

Lemma target_feed_nonneg c dt s :
  0 <= pump_feed_health s ->
  0 <= fst (target_feed c dt s) /\ 0 <= snd (target_feed c dt s).
Proof.
  intros Hh. destruct (target_feed_spec c dt s) as [EQ EP].
  rewrite EQ, EP. unfold spec_target_feed. cbv zeta.
  destruct (ro_feed_pump_on c); destruct (level_feed_tank s >? 0.2);
  destruct (valve_201_open c); destruct (valve_202_open c);
  destruct (valve_203_open c); cbn [andb negb fst snd]; split;
    rewrite ?Qdiv_100; lra.
Qed.

Lemma dist_targets_nonneg c s :
  0 <= Q_out_sp c ->
  0 <= fst (dist_targets c s) /\ 0 <= snd (dist_targets c s).
Proof.
  intros Hsp. unfold dist_targets, DIST_PUMP_CAPACITY.
  destruct (dist_pump_on c && (level_clearwell s >? 0.1));
    [destruct (valve_401_open c)|]; cbn [fst snd]; split; try lra.
  destruct (Math_min_spec (Q_out_sp c) 120) as [[H E]|[H E]];
    rewrite E; lra.
Qed.

Lemma tick_hydraulics_nonneg c dt s :
  0 <= Q_out_sp c -> hydraulics_nonneg s -> hydraulics_nonneg (tick c dt s).
Proof.
  intros Hsp (H1 & H2 & H3 & H4 & H5 & H6 & H7).
  destruct (tick_ramps c dt s) as (E1 & E2 & E3 & E4 & E5 & E6).
  destruct (well_targets_nonneg c) as [W1 W2].
  destruct (target_feed_nonneg c dt s H7) as [F1 F2].
  destruct (dist_targets_nonneg c s Hsp) as [D1 D2].
  unfold hydraulics_nonneg.
  rewrite E1, E2, E3, E4, E5, E6, tick_pump_feed_health.
  unfold RAMP_RATE.
  repeat split; try lra.
  split_debit_if; debit_lra.
Qed.

Lemma resetDamage_hydraulics_nonneg s :
  hydraulics_nonneg s -> hydraulics_nonneg (resetDamage s).
Proof.
  intros (H1 & H2 & H3 & H4 & H5 & H6 & H7).
  unfold hydraulics_nonneg.
  rewrite (Q_wellfield_get (resetDamage s)), (Q_feed_get (resetDamage s)),
    (Q_out_get (resetDamage s)), (pressure_well_get (resetDamage s)),
    (pressure_feed_get (resetDamage s)), (pressure_dist_get (resetDamage s)),
    (pump_feed_health_get (resetDamage s)).
  rewrite !resetDamage_get. cbn [is_health get].
  repeat split; try assumption. lra.
Qed.

Lemma reachable_hydraulics_nonneg s : reachable s -> hydraulics_nonneg s.
Proof.
  induction 1 as [|o s Hr IH Ho].
  - unfold hydraulics_nonneg. vm_compute. repeat split; discriminate.
  - destruct o as [c dt|]; cbn [exec1].
    + destruct Ho as [(_ & _ & Hsp & _) _].
      apply tick_hydraulics_nonneg; [exact Hsp | exact IH].
    + apply resetDamage_hydraulics_nonneg. exact IH.
Qed.

Lemma dP_ro_nonneg s : 0 <= Q_feed s -> 0 <= dP_ro s.
Proof.
  intros Hq. unfold dP_ro, RO_FEED_RATE. cbv zeta.
  destruct (Q_feed s >? 1); [|lra].
  destruct (membrane_health s <? 30); rewrite Qdiv_100; lra.
Qed.

(** Bring the bounds of every random draw of the goal into the context. *)
Ltac jitter_bounds Hj :=
  unfold noise;
  repeat match goal with
  | |- context [rnd ?e ?k] =>
      let r := fresh "r" in
      pose proof (Hj k);
      set (r := rnd e k) in *; clearbody r
  end.

(** With every draw at its minimum the published well pressure of the
    first call is negative. *)
Lemma published_pressure_negative :
  reachable physicsState /\ controls_in_range currentControls /\
  jitter_ok env_low /\
  Pub.pressure_well (published currentControls 0.1 env_low physicsState)
  == - (0.05) /\
  Pub.pressure_well (published currentControls 0.1 env_low physicsState) < 0.
Proof.
  split; [constructor|]. split; [vm_compute; intuition discriminate|].
  split; [intros k; vm_compute; split; [discriminate | reflexivity]|].
  split; vm_compute; reflexivity.
Qed.

(** C8, amended.  In every reachable state the three integrated flows and
    the three integrated pressures are non-negative, and so are the
    permeate flow, the brine flow and the RO differential pressure derived
    from them.  In the snapshot returned by a call from such a state, with
    setpoints in range and any jitter, the well, feed and outlet flows are
    non-negative, the permeate and brine flows are above -0.4, the three
    pressures are at least -0.05 and the differential pressure is at
    least -0.01. *)
Theorem flows_pressures_bounds (s : PhysicsState) :
  reachable s ->
  (0 <= Q_wellfield s /\ 0 <= Q_feed s /\ 0 <= Q_out s /\
   0 <= pressure_well s /\ 0 <= pressure_feed s /\ 0 <= pressure_dist s) /\
  (0 <= Q_feed s * ro_recovery /\
   0 <= Q_feed s - Q_feed s * ro_recovery /\
   0 <= dP_ro s) /\
  (forall c dt e,
     controls_in_range c -> 0 <= dt -> jitter_ok e ->
     let p := published c dt e s in
     0 <= Pub.Q_wellfield p /\ 0 <= Pub.Q_feed p /\ 0 <= Pub.Q_out p /\
     - (0.4) < Pub.Q_perm p /\ - (0.4) < Pub.Q_brine p /\
     - (0.05) <= Pub.pressure_well p /\
     - (0.05) <= Pub.pressure_feed p /\
     - (0.05) <= Pub.pressure_dist p /\
     - (0.01) <= Pub.dP_ro_true p).
Proof.
  intros Hr.
  pose proof (reachable_hydraulics_nonneg s Hr)
    as (H1 & H2 & H3 & H4 & H5 & H6 & H7).
  split; [repeat split; assumption|].
  split.
  { pose proof (dP_ro_nonneg s H2). unfold ro_recovery.
    repeat split; try assumption; lra. }
  intros c dt e Hc Hdt Hj. cbv zeta.
  assert (Hr' : reachable (tick c dt s))
    by (apply (reach_op (OpTick c dt) s Hr); split; [exact Hc | exact Hdt]).
  pose proof (reachable_hydraulics_nonneg _ Hr')
    as (T1 & T2 & T3 & T4 & T5 & T6 & T7).
  pose proof (dP_ro_nonneg _ T2) as TD.
  destruct (published_values c dt e s)
    as (k1 & k2 & k3 & k4 & k5 & k10 & k11 & k12 & k13 &
        E1 & E2 & E3 & E4 & E5 & E10 & E11 & E12 & E13).
  cbv zeta in *.
  rewrite E1, E2, E3, E4, E5, E10, E11, E12, E13.
  unfold ro_recovery. clear E1 E2 E3 E4 E5 E10 E11 E12 E13.
  jitter_bounds Hj.
  repeat split; split_cmp; lra.
Qed.

Lemma flows_pressures_bounds_witness :
  reachable physicsState /\
  0 <= Pub.Q_feed (published currentControls 0.1 env_low physicsState) /\
  - (0.05) <=
    Pub.pressure_well (published currentControls 0.1 env_low physicsState).
Proof.
  assert (Hr : reachable physicsState) by constructor.
  split; [exact Hr|].
  destruct (flows_pressures_bounds physicsState Hr) as (_ & _ & Hp).
  assert (Hc : controls_in_range currentControls)
    by (vm_compute; intuition discriminate).
  assert (Hdt : 0 <= 0.1) by (vm_compute; discriminate).
  assert (Hj : jitter_ok env_low)
    by (intros k; vm_compute; split; [discriminate | reflexivity]).
  destruct (Hp currentControls 0.1 env_low Hc Hdt Hj)
    as (_ & HQ & _ & _ & _ & HP & _).
  split; [exact HQ | exact HP].
Defined.

(** * Mass balance *)

(** One call with the feed pump started, with the draw for the feed flow
    at its minimum and the two draws for permeate and brine at 3/4: the
    published feed flow is 9 and the other two add up to 10.5. *)
Lemma published_mass_balance_off :
  jitter_ok env_skewed /\
  Q_feed (tick RO_running_controls 0.1 physicsState) == 10 /\
  Pub.Q_feed (published RO_running_controls 0.1 env_skewed physicsState)
  == 9 /\
  Pub.Q_perm (published RO_running_controls 0.1 env_skewed physicsState)
  == 7.75 /\
  Pub.Q_brine (published RO_running_controls 0.1 env_skewed physicsState)
  == 2.75 /\
  ~ Qabs (Pub.Q_feed (published RO_running_controls 0.1 env_skewed physicsState)
          - (Pub.Q_perm (published RO_running_controls 0.1 env_skewed
                           physicsState)
             + Pub.Q_brine (published RO_running_controls 0.1 env_skewed
                              physicsState))) < 1.
Proof.
  split.
  { intros [|k]; vm_compute; split; (discriminate || reflexivity). }
  repeat split; try (vm_compute; reflexivity).
  vm_compute. discriminate.
Qed.

(** C4, amended.  The permeate and brine flows computed by a call from
    the feed flow, with a recovery of 0.75, add up to the feed flow
    exactly.  The snapshot publishes each of the three flows with its own
    jitter and its own cut-off, and its feed flow differs from the sum of
    its permeate and brine flows by less than 2. *)
Theorem mass_balance (c : SimulationControls) (dt : Q) (e : Env)
    (s : PhysicsState) :
  jitter_ok e ->
  let s' := tick c dt s in
  let p := published c dt e s in
  let Q_perm_actual := Q_feed s' * ro_recovery in
  ro_recovery == 0.75 /\
  Q_perm_actual + (Q_feed s' - Q_perm_actual) == Q_feed s' /\
  (exists k2 k3 k4 : nat,
     Pub.Q_feed p =
       (if Q_feed s' >? 1 then Q_feed s' + noise e k2 2 else 0) /\
     Pub.Q_perm p =
       (if Q_perm_actual >? 0.1 then Q_perm_actual + noise e k3 1 else 0) /\
     Pub.Q_brine p =
       (if Q_feed s' - Q_perm_actual >? 0.1
        then Q_feed s' - Q_perm_actual + noise e k4 1 else 0)) /\
  Qabs (Pub.Q_feed p - (Pub.Q_perm p + Pub.Q_brine p)) < 2.
Proof.
  intros Hj. cbv zeta.
  destruct (published_values c dt e s)
    as (k1 & k2 & k3 & k4 & k5 & k10 & k11 & k12 & k13 &
        E1 & E2 & E3 & E4 & E5 & E10 & E11 & E12 & E13).
  cbv zeta in *.
  split; [reflexivity|]. split; [ring|].
  split; [exists k2, k3, k4; repeat split; assumption|].
  rewrite E2, E3, E4. unfold ro_recovery.
  clear E1 E2 E3 E4 E5 E10 E11 E12 E13.
  apply Qabs_Qlt_condition.
  jitter_bounds Hj.
  split_cmp; lra.
Qed.

Lemma mass_balance_witness :
  jitter_ok env_skewed /\
  Qabs (Pub.Q_feed (published RO_running_controls 0.1 env_skewed physicsState)
        - (Pub.Q_perm (published RO_running_controls 0.1 env_skewed
                         physicsState)
           + Pub.Q_brine (published RO_running_controls 0.1 env_skewed
                            physicsState))) < 2.
Proof.
  assert (Hj : jitter_ok env_skewed)
    by (intros [|k]; vm_compute; split; (discriminate || reflexivity)).
  split; [exact Hj|].
  destruct (mass_balance RO_running_controls 0.1 env_skewed physicsState Hj)
    as (_ & _ & _ & H).
  exact H.
Defined.

(** * Scenario S1: P-201 deadhead *)

Lemma S1_controls_eq :
  S1_controls =
  mkControls false true false true true false false true false false
    5.0 1.0 80.0.
Proof. reflexivity. Qed.

Lemma inject_Z_succ (n : nat) :
  inject_Z (Z.of_nat (S n)) == inject_Z (Z.of_nat n) + 1.
Proof. rewrite Nat2Z.inj_succ, <- Z.add_1_r, inject_Z_plus. reflexivity. Qed.

Lemma inject_Z_below (n m : nat) :
  (n <= m)%nat -> inject_Z (Z.of_nat n) <= inject_Z (Z.of_nat m).
Proof. intros H. rewrite <- Zle_Qle. lia. Qed.

(** One call of the scenario, from a state in which the well and feed
    flows and the chlorine are 0, the feed tank is at 2.5 and the feed
    pressure is at least 15. *)
Section S1_call.

Variable s : PhysicsState.
Hypothesis HP : 15 <= pressure_feed s <= 30.
Hypothesis HW : Q_wellfield s == 0.
Hypothesis HQ : Q_feed s == 0.
Hypothesis HL : level_feed_tank s == 2.5.
Hypothesis HC : Cl_true s == 0.

Lemma S1_target_feed :
  fst (target_feed S1_controls 0.1 s) == 0 /\
  snd (target_feed S1_controls 0.1 s) == 30.
Proof.
  destruct (target_feed_spec S1_controls 0.1 s) as [TQ TP].
  assert (Hsuction : (level_feed_tank s >? 0.2) = true)
    by (apply Qgtb_true; lra).
  unfold spec_target_feed in TQ, TP. cbv zeta in TQ, TP.
  rewrite Hsuction, S1_controls_eq in TQ, TP.
  cbn [ro_feed_pump_on valve_201_open valve_202_open valve_203_open
       andb negb fst snd] in TQ, TP.
  split; [exact TQ | rewrite TP; reflexivity].
Qed.

Lemma S1_Q_wellfield : Q_wellfield (tick S1_controls 0.1 s) == 0.
Proof.
  destruct (tick_ramps S1_controls 0.1 s) as (E & _).
  rewrite E, S1_controls_eq. unfold well_targets, RAMP_RATE.
  cbn [wellfield_on fst]. lra.
Qed.

Lemma S1_Q_feed : Q_feed (tick S1_controls 0.1 s) == 0.
Proof.
  destruct (tick_ramps S1_controls 0.1 s) as (_ & E & _).
  destruct S1_target_feed as [TQ _].
  rewrite E, TQ. unfold RAMP_RATE. lra.
Qed.

Lemma S1_pressure_feed :
  22.5 <= pressure_feed (tick S1_controls 0.1 s) <= 30.
Proof.
  destruct (tick_ramps S1_controls 0.1 s) as (_ & _ & _ & _ & E & _).
  destruct S1_target_feed as [_ TP].
  rewrite E, TP. lra.
Qed.

Lemma S1_Cl_true : Cl_true (tick S1_controls 0.1 s) == 0.
Proof.
  rewrite tick_Cl_true. unfold current_Cl. rewrite S1_controls_eq.
  cbn [cl_pump_on]. lra.
Qed.

Lemma S1_level_feed_tank : level_feed_tank (tick S1_controls 0.1 s) == 2.5.
Proof.
  rewrite tick_level_feed_tank.
  assert (H05 : 0 <= 5) by lra.
  match goal with
  | |- clamp _ _ ?x == _ =>
      assert (Hx : x == 2.5)
        by (rewrite S1_Q_wellfield, S1_Q_feed, HL; reflexivity);
      destruct (clamp_spec 0 5 x H05) as [[H E]|[[H E]|[H E]]];
      rewrite E; lra
  end.
Qed.

(** The membrane and the feed pipe are debited by 0.1 and 0.05, as long
    as no more than 999 such debits were made before. *)
Variable n : nat.
Hypothesis Hn : (n < 1000)%nat.
Hypothesis HM : membrane_health s == 100 - 0.1 * inject_Z (Z.of_nat n).
Hypothesis HPi : pipe_feed_health s == 100 - 0.05 * inject_Z (Z.of_nat n).

Lemma S1_membrane_health :
  membrane_health (tick S1_controls 0.1 s)
  == 100 - 0.1 * inject_Z (Z.of_nat (S n)).
Proof.
  assert (Hq : inject_Z (Z.of_nat n) <= 999).
  { change 999 with (inject_Z (Z.of_nat 999)). apply inject_Z_below. lia. }
  pose proof (inject_Z_succ n) as HS.
  pose proof S1_pressure_feed as P'. pose proof S1_Cl_true as C'.
  rewrite tick_membrane_health.
  rewrite (proj2 (Qgtb_true _ _)) by lra.
  rewrite (proj2 (Qgtb_false (Cl_true (tick S1_controls 0.1 s)) _))
    by (unfold MEMBRANE_CHLORINE_LIMIT; lra).
  unfold debit_if. cbn [andb].
  destruct (debit_spec 1.0 0.1 (membrane_health s)) as [[H E]|[H E]];
    rewrite E; lra.
Qed.

Lemma S1_pipe_feed_health :
  pipe_feed_health (tick S1_controls 0.1 s)
  == 100 - 0.05 * inject_Z (Z.of_nat (S n)).
Proof.
  assert (Hq : inject_Z (Z.of_nat n) <= 999).
  { change 999 with (inject_Z (Z.of_nat 999)). apply inject_Z_below. lia. }
  pose proof (inject_Z_succ n) as HS.
  pose proof S1_pressure_feed as P'.
  rewrite tick_pipe_feed_health.
  rewrite (proj2 (Qgtb_true _ _)) by lra.
  unfold debit_if.
  destruct (debit_spec 0.5 0.1 (pipe_feed_health s)) as [[H E]|[H E]];
    rewrite E; lra.
Qed.

Lemma S1_step : S1_inv (S n) (tick S1_controls 0.1 s).
Proof.
  unfold S1_inv.
  split; [exact S1_Q_wellfield|].
  split; [exact S1_Q_feed|].
  split; [exact S1_level_feed_tank|].
  split; [exact S1_Cl_true|].
  split; [exact S1_pressure_feed|].
  split; [exact S1_membrane_health | exact S1_pipe_feed_health].
Qed.

End S1_call.

Lemma S1_after_succ (k : nat) :
  S1_after (S k) = tick S1_controls 0.1 (S1_after k).
Proof. reflexivity. Qed.

(** After the first call the feed pressure is 15 and nothing is debited;
    every later call, up to the thousandth debit, debits the membrane by
    0.1 and the feed pipe by 0.05. *)
Lemma S1_run (m : nat) :
  (m < 1000)%nat -> S1_inv (S m) (S1_after (S (S m))).
Proof.
  induction m as [|m IH]; intros Hm.
  - rewrite S1_after_succ.
    apply S1_step; [ | | | | | lia | | ];
      vm_compute; try reflexivity; split; discriminate.
  - rewrite S1_after_succ.
    destruct IH as (HW & HQ & HL & HC & HP & HM & HPi); [lia|].
    apply S1_step;
      [lra | exact HW | exact HQ | exact HL | exact HC | lia | exact HM
      | exact HPi].
Qed.

(** After 600 calls the membrane is at 40.1, not below 40. *)
Lemma S1_membrane_not_below_40 :
  ~ (20 < pressure_feed (S1_after 600) /\
     membrane_health (S1_after 600) < 40 /\
     pipe_feed_health (S1_after 600) < 70 /\
     Q_feed (S1_after 600) == 0).
Proof.
  intros (_ & HM & _ & _).
  destruct (S1_run 598) as (_ & _ & _ & _ & _ & EM & _); [lia|].
  assert (E : inject_Z (Z.of_nat 599) == 599) by reflexivity.
  rewrite E in EM. rewrite EM in HM. lra.
Qed.

(** The hydraulics of the scenario after any number of calls: no flow,
    the feed tank at 2.5, and the feed pressure at 15 after the first call
    and between 22.5 and 30 after every later one. *)
Lemma S1_hydraulics (m : nat) :
  Q_wellfield (S1_after (S m)) == 0 /\ Q_feed (S1_after (S m)) == 0 /\
  level_feed_tank (S1_after (S m)) == 2.5 /\
  Cl_true (S1_after (S m)) == 0 /\
  15 <= pressure_feed (S1_after (S m)) <= 30 /\
  ((1 <= m)%nat -> 22.5 <= pressure_feed (S1_after (S m))).
Proof.
  induction m as [|m IH].
  - split; [vm_compute; reflexivity|]. split; [vm_compute; reflexivity|].
    split; [vm_compute; reflexivity|]. split; [vm_compute; reflexivity|].
    split; [vm_compute; split; discriminate | lia].
  - destruct IH as (HW & HQ & HL & HC & HP & _).
    rewrite (S1_after_succ (S m)).
    pose proof (S1_pressure_feed (S1_after (S m)) HP HL) as HP'.
    split; [exact (S1_Q_wellfield _ HW)|].
    split; [exact (S1_Q_feed _ HQ HL)|].
    split; [exact (S1_level_feed_tank _ HW HQ HL)|].
    split; [exact (S1_Cl_true _ HC)|].
    split; [lra | intros _; lra].
Qed.

Lemma S1_reachable (k : nat) : reachable (S1_after k).
Proof.
  induction k as [|k IH]; [exact reach_init|].
  rewrite S1_after_succ.
  apply (reach_op (OpTick S1_controls 0.1) (S1_after k) IH).
  vm_compute. intuition discriminate.
Qed.

(** No call of the scenario raises a health. *)
Lemma S1_health_antitone (f : Field) (k d : nat) :
  is_health f = true ->
  0 <= get f (S1_after (k + d)) <= get f (S1_after k).
Proof.
  intros Hf. induction d as [|d IH].
  - rewrite Nat.add_0_r.
    pose proof (reachable_health_in_range _ (S1_reachable k) f Hf). lra.
  - rewrite Nat.add_succ_r, S1_after_succ.
    assert (Hdt : 0 <= 0.1) by lra.
    pose proof (tick_health_step S1_controls 0.1 (S1_after (k + d)) f
                  Hdt Hf (proj1 IH)).
    lra.
Qed.

(** C5, amended.  Scenario S1 switches the feed pump on with valve 201
    open and valves 202 and 203 closed.  The first call only brings the
    feed pressure to 15, so after 600 calls at the step 0.1 only 599 have
    debited: the feed pressure is above 20 and the feed flow is 0, but in
    exact arithmetic the membrane health is 40.1 and the feed pipe health
    70.05.  After 601 calls they are 40 and 70, still not below.  After
    602 calls and after every later number of calls the feed pressure is
    above 20, the feed flow is 0, the membrane health is below 40 and the
    feed pipe health below 70. *)
Theorem S1_deadhead :
  (ro_feed_pump_on S1_controls = true /\ valve_201_open S1_controls = true /\
   valve_202_open S1_controls = false /\ valve_203_open S1_controls = false) /\
  pressure_feed (S1_after 1) == 15 /\
  (20 < pressure_feed (S1_after 600) /\
   membrane_health (S1_after 600) == 40.1 /\
   pipe_feed_health (S1_after 600) == 70.05 /\
   Q_feed (S1_after 600) == 0) /\
  (membrane_health (S1_after 601) == 40 /\
   pipe_feed_health (S1_after 601) == 70) /\
  (forall n : nat, (602 <= n)%nat ->
   20 < pressure_feed (S1_after n) /\
   membrane_health (S1_after n) < 40 /\
   pipe_feed_health (S1_after n) < 70 /\
   Q_feed (S1_after n) == 0).
Proof.
  split; [repeat split; reflexivity|].
  split; [vm_compute; reflexivity|].
  split.
  { destruct (S1_run 598) as (_ & HQ & _ & _ & HP & EM & EP); [lia|].
    assert (E : inject_Z (Z.of_nat 599) == 599) by reflexivity.
    rewrite E in EM, EP.
    split; [lra | split; [lra | split; [lra | exact HQ]]]. }
  split.
  { destruct (S1_run 599) as (_ & _ & _ & _ & _ & EM & EP); [lia|].
    assert (E : inject_Z (Z.of_nat 600) == 600) by reflexivity.
    rewrite E in EM, EP. split; lra. }
  intros n Hn.
  destruct (S1_run 600) as (_ & _ & _ & _ & _ & EM & EP); [lia|].
  assert (E : inject_Z (Z.of_nat 601) == 601) by reflexivity.
  rewrite E in EM, EP.
  assert (En : n = (602 + (n - 602))%nat) by lia.
  pose proof (S1_health_antitone F_membrane_health 602 (n - 602) eq_refl)
    as HM.
  pose proof (S1_health_antitone F_pipe_feed_health 602 (n - 602) eq_refl)
    as HPi.
  rewrite <- En in HM, HPi.
  rewrite <- (membrane_health_get (S1_after n)),
    <- (membrane_health_get (S1_after 602)) in HM.
  rewrite <- (pipe_feed_health_get (S1_after n)),
    <- (pipe_feed_health_get (S1_after 602)) in HPi.
  assert (En' : n = S (n - 1)) by lia.
  destruct (S1_hydraulics (n - 1)) as (_ & HQ & _ & _ & _ & HP).
  rewrite <- En' in HQ, HP.
  assert (HP' : 22.5 <= pressure_feed (S1_after n)) by (apply HP; lia).
  split; [lra | split; [lra | split; [lra | exact HQ]]].
Qed.

(** A run well past 602 calls. *)
Lemma S1_deadhead_witness :
  (602 <= 1000)%nat /\
  membrane_health (S1_after 1000) < 40 /\
  pipe_feed_health (S1_after 1000) < 70.
Proof.
  assert (H : (602 <= 1000)%nat) by lia.
  split; [exact H|].
  destruct (proj2 (proj2 (proj2 (proj2 S1_deadhead))) 1000%nat H)
    as (_ & HM & HPi & _).
  split; [exact HM | exact HPi].
Defined.

(** * Further properties of [simulatePhysics] *)

Lemma spec_target_feed_le c s :
  pump_feed_health s <= 100 ->
  fst (spec_target_feed c s) <= 100 /\ snd (spec_target_feed c s) <= 33.
Proof.
  intros Hh. unfold spec_target_feed. cbv zeta.
  destruct (ro_feed_pump_on c); destruct (level_feed_tank s >? 0.2);
  destruct (valve_201_open c); destruct (valve_202_open c);
  destruct (valve_203_open c); cbn [andb negb fst snd]; split;
    rewrite ?Qdiv_100; lra.
Qed.

Lemma well_targets_le c :
  fst (well_targets c) <= 110 /\ snd (well_targets c) <= 12.
Proof.
  unfold well_targets, WELL_FLOW_RATE.
  destruct (wellfield_on c); [destruct (valve_101_open c)|];
    cbn [fst snd]; split; lra.
Qed.

Lemma dist_targets_le c s :
  fst (dist_targets c s) <= 120 /\ snd (dist_targets c s) <= 15.
Proof.
  unfold dist_targets, DIST_PUMP_CAPACITY.
  destruct (dist_pump_on c && (level_clearwell s >? 0.1));
    [destruct (valve_401_open c)|]; cbn [fst snd]; split; try lra.
  destruct (Math_min_spec (Q_out_sp c) 120) as [[H E]|[H E]];
    rewrite E; lra.
Qed.

Lemma tick_hydraulics_bounded c dt s :
  pump_feed_health s <= 100 ->
  hydraulics_bounded s -> hydraulics_bounded (tick c dt s).
Proof.
  intros Hh (H1 & H2 & H3 & H4 & H5 & H6).
  destruct (tick_ramps c dt s) as (E1 & E2 & E3 & E4 & E5 & E6).
  destruct (well_targets_le c) as [W1 W2].
  destruct (target_feed_spec c dt s) as [TQ TP].
  destruct (spec_target_feed_le c s Hh) as [F1 F2].
  destruct (dist_targets_le c s) as [D1 D2].
  unfold hydraulics_bounded.
  rewrite E1, E2, E3, E4, E5, E6, TQ, TP. unfold RAMP_RATE.
  repeat split; lra.
Qed.

Lemma resetDamage_hydraulics_bounded s :
  hydraulics_bounded s -> hydraulics_bounded (resetDamage s).
Proof.
  intros (H1 & H2 & H3 & H4 & H5 & H6).
  unfold hydraulics_bounded.
  rewrite (Q_wellfield_get (resetDamage s)), (Q_feed_get (resetDamage s)),
    (Q_out_get (resetDamage s)), (pressure_well_get (resetDamage s)),
    (pressure_feed_get (resetDamage s)), (pressure_dist_get (resetDamage s)).
  rewrite !resetDamage_get. cbn [is_health get].
  repeat split; assumption.
Qed.

Lemma reachable_hydraulics_bounded s : reachable s -> hydraulics_bounded s.
Proof.
  induction 1 as [|o s Hr IH Ho].
  - unfold hydraulics_bounded. vm_compute. repeat split; discriminate.
  - destruct o as [c dt|]; cbn [exec1].
    + apply tick_hydraulics_bounded; [|exact IH].
      pose proof (reachable_health_in_range s Hr F_pump_feed_health eq_refl)
        as Hh.
      cbn [get] in Hh. lra.
    + apply resetDamage_hydraulics_bounded. exact IH.
Qed.

(** X1.  In every reachable state the integrated flows stay at or below
    the capacities 110, 100 and 120, also with a flow setpoint above 120,
    and the integrated pressures at or below the deadhead pressures 12, 33
    and 15. *)
Theorem hydraulics_upper_bounds (s : PhysicsState) :
  reachable s -> hydraulics_bounded s.
Proof. exact (reachable_hydraulics_bounded s). Qed.

Lemma hydraulics_upper_bounds_witness :
  reachable (tick S1_controls 0.1 physicsState) /\
  hydraulics_bounded (tick S1_controls 0.1 physicsState).
Proof.
  assert (Hr : reachable (tick S1_controls 0.1 physicsState)).
  { apply (reach_op (OpTick S1_controls 0.1) physicsState reach_init).
    vm_compute. intuition discriminate. }
  split; [exact Hr | exact (hydraulics_upper_bounds _ Hr)].
Defined.

Lemma simulatePhysics_pair c dt e s :
  simulatePhysics c dt e s = (published c dt e s, tick c dt s).
Proof.
  rewrite (surjective_pairing (simulatePhysics c dt e s)).
  rewrite simulatePhysics_state. reflexivity.
Qed.

Lemma published_exact c dt e s :
  snapshot_exact (published c dt e s) = state_exact (tick c dt s).
Proof. rewrite published_unfold. reflexivity. Qed.

Lemma ticks_shift n c dt s :
  ticks n c dt (tick c dt s) = tick c dt (ticks n c dt s).
Proof.
  induction n as [|n IH]; [reflexivity|].
  cbn [ticks]. rewrite IH. reflexivity.
Qed.

Lemma ticks_succ n c dt s :
  ticks (S n) c dt s = tick c dt (ticks n c dt s).
Proof. reflexivity. Qed.

Lemma calls_cons e es c dt s :
  calls (e :: es) c dt s =
  (fst (simulatePhysics c dt e s)
     :: fst (calls es c dt (snd (simulatePhysics c dt e s))),
   snd (calls es c dt (snd (simulatePhysics c dt e s)))).
Proof. reflexivity. Qed.

Lemma calls_snapshots es c dt :
  forall s,
  map snapshot_exact (fst (calls es c dt s)) =
  map (fun k => state_exact (ticks (S k) c dt s)) (seq 0 (length es)).
Proof.
  induction es as [|e es IH]; intros s; [reflexivity|].
  rewrite calls_cons, simulatePhysics_pair.
  cbn [length seq map fst snd].
  rewrite published_exact, IH. f_equal.
  rewrite <- seq_shift, map_map.
  apply map_ext. intros k.
  rewrite (ticks_succ (S k)), <- ticks_shift. reflexivity.
Qed.

Lemma calls_state es c dt :
  forall s, snd (calls es c dt s) = ticks (length es) c dt s.
Proof.
  induction es as [|e es IH]; intros s; [reflexivity|].
  rewrite calls_cons, simulatePhysics_pair. cbn [snd length].
  rewrite IH, ticks_succ. apply ticks_shift.
Qed.

(** X2.  Jitter and clock never reach the integrated state: a series of
    calls ends in the same state whatever the random draws and the clock
    were, and every snapshot carries the two levels and the seven health
    values of the state after its call without jitter. *)
Theorem jitter_never_feeds_back (es es' : list Env) (c : SimulationControls)
    (dt : Q) (s : PhysicsState) :
  length es = length es' ->
  snd (calls es c dt s) = snd (calls es' c dt s) /\
  snd (calls es c dt s) = ticks (length es) c dt s /\
  map snapshot_exact (fst (calls es c dt s)) =
    map snapshot_exact (fst (calls es' c dt s)) /\
  map snapshot_exact (fst (calls es c dt s)) =
    map (fun k => state_exact (ticks (S k) c dt s)) (seq 0 (length es)).
Proof.
  intros Hlen.
  rewrite !calls_state, !calls_snapshots, Hlen.
  repeat split; reflexivity.
Qed.

Lemma jitter_never_feeds_back_witness :
  length [env_low; env_skewed] = length [env_skewed; env_low] /\
  snd (calls [env_low; env_skewed] RO_running_controls 0.1 physicsState) =
  snd (calls [env_skewed; env_low] RO_running_controls 0.1 physicsState).
Proof.
  split; [reflexivity|].
  exact (proj1 (jitter_never_feeds_back [env_low; env_skewed]
                  [env_skewed; env_low] RO_running_controls 0.1 physicsState
                  eq_refl)).
Defined.

Lemma ticks_wellfield n c dt s :
  Q_wellfield (ticks n c dt s) - fst (well_targets c)
    == pow 0.9 n * (Q_wellfield s - fst (well_targets c)) /\
  pressure_well (ticks n c dt s) - snd (well_targets c)
    == pow 0.5 n * (pressure_well s - snd (well_targets c)).
Proof.
  induction n as [|n [IHq IHp]].
  - cbn [ticks pow]. split; ring.
  - rewrite ticks_succ. cbn [pow].
    destruct (tick_ramps c dt (ticks n c dt s)) as (EQ & _ & _ & EP & _).
    rewrite EQ, EP. unfold RAMP_RATE. split.
    + setoid_replace
        (Q_wellfield (ticks n c dt s) +
         (fst (well_targets c) - Q_wellfield (ticks n c dt s)) * 0.1 -
         fst (well_targets c))
        with (0.9 * (Q_wellfield (ticks n c dt s) - fst (well_targets c)))
        by ring.
      rewrite IHq. ring.
    + setoid_replace
        (pressure_well (ticks n c dt s) +
         (snd (well_targets c) - pressure_well (ticks n c dt s)) * 0.5 -
         snd (well_targets c))
        with (0.5 * (pressure_well (ticks n c dt s) - snd (well_targets c)))
        by ring.
      rewrite IHp. ring.
Qed.

Lemma pow_bounds q n : 0 <= q <= 1 -> 0 <= pow q n <= 1.
Proof.
  intros Hq. induction n as [|n IH]; cbn [pow]; [lra|].
  split.
  - apply Qmult_le_0_compat; tauto.
  - setoid_replace 1 with (1 * 1) by ring.
    apply Qmult_le_compat_nonneg; split; tauto || lra.
Qed.

(** X3.  Under constant controls the wellfield flow and the well
    pressure approach their targets geometrically: after [n] calls the
    distance to the target is the initial one times 0.9^n for the flow and
    0.5^n for the pressure, whatever the step and the rest of the state.
    The factors lie in [0, 1], so neither overshoots its target. *)
Theorem wellfield_ramp_geometric (n : nat) (c : SimulationControls) (dt : Q)
    (s : PhysicsState) :
  Q_wellfield (ticks n c dt s) - fst (well_targets c)
    == pow 0.9 n * (Q_wellfield s - fst (well_targets c)) /\
  pressure_well (ticks n c dt s) - snd (well_targets c)
    == pow 0.5 n * (pressure_well s - snd (well_targets c)) /\
  0 <= pow 0.9 n <= 1 /\ 0 <= pow 0.5 n <= 1 /\
  well_targets c =
    (if wellfield_on c
     then if valve_101_open c then (110, 3.0) else (0, 12.0)
     else (0, 0)).
Proof.
  destruct (ticks_wellfield n c dt s) as [HQ HP].
  split; [exact HQ|]. split; [exact HP|].
  split; [apply pow_bounds; lra|]. split; [apply pow_bounds; lra|].
  reflexivity.
Qed.

(** X4.  The plant at rest stays at rest: with the three process pumps
    and the chlorine pump off, a call from a state with no flow, no
    pressure, no chlorine and levels within the tanks changes no field,
    whatever the valves, the setpoints and the step. *)
Theorem rest_is_fixed (c : SimulationControls) (dt : Q) (s : PhysicsState) :
  pumps_off c -> at_rest s ->
  same_state (tick c dt s) s /\ at_rest (tick c dt s).
Proof.
  intros (Hw & Hr & Hd & Hc) (H1 & H2 & H3 & H4 & H5 & H6 & H7 & H8 & H9).
  destruct (tick_ramps c dt s) as (E1 & E2 & E3 & E4 & E5 & E6).
  destruct (target_feed_spec c dt s) as [TQ TP].
  unfold spec_target_feed in TQ, TP. cbv zeta in TQ, TP.
  rewrite Hr in TQ, TP. cbn [andb fst snd] in TQ, TP.
  assert (W : well_targets c = (0, 0)) by (unfold well_targets; now rewrite Hw).
  assert (D : dist_targets c s = (0, 0))
    by (unfold dist_targets; now rewrite Hd).
  rewrite W in E1, E4. rewrite D in E3, E6. cbn [fst snd] in *.
  unfold RAMP_RATE in *.
  assert (Q1 : Q_wellfield (tick c dt s) == 0) by (rewrite E1; lra).
  assert (Q2 : Q_feed (tick c dt s) == 0) by (rewrite E2, TQ; lra).
  assert (Q3 : Q_out (tick c dt s) == 0) by (rewrite E3; lra).
  assert (P1 : pressure_well (tick c dt s) == 0) by (rewrite E4; lra).
  assert (P2 : pressure_feed (tick c dt s) == 0) by (rewrite E5, TP; lra).
  assert (P3 : pressure_dist (tick c dt s) == 0) by (rewrite E6; lra).
  assert (C1 : Cl_true (tick c dt s) == 0).
  { rewrite tick_Cl_true. unfold current_Cl. rewrite Hc. lra. }
  assert (L1 : level_feed_tank (tick c dt s) == level_feed_tank s).
  { rewrite tick_level_feed_tank.
    assert (H05 : 0 <= 5) by lra.
    match goal with
    | |- clamp _ _ ?x == _ =>
        assert (Hx : x == level_feed_tank s)
          by (rewrite Q1, Q2; unfold TANK_AREA_FEED, Qdiv; ring);
        destruct (clamp_spec 0 5 x H05) as [[H E]|[[H E]|[H E]]];
        rewrite E; lra
    end. }
  assert (L2 : level_clearwell (tick c dt s) == level_clearwell s).
  { rewrite tick_level_clearwell.
    assert (H06 : 0 <= 6) by lra.
    match goal with
    | |- clamp _ _ ?x == _ =>
        assert (Hx : x == level_clearwell s)
          by (rewrite Q2, Q3; unfold TANK_AREA_CLEARWELL, Qdiv; ring);
        destruct (clamp_spec 0 6 x H06) as [[H E]|[[H E]|[H E]]];
        rewrite E; lra
    end. }
  split.
  - intros f. destruct f.
    + rewrite <- (Q_wellfield_get s), <- (Q_wellfield_get (tick c dt s)). lra.
    + rewrite <- (Q_feed_get s), <- (Q_feed_get (tick c dt s)). lra.
    + rewrite <- (Q_out_get s), <- (Q_out_get (tick c dt s)). lra.
    + exact L1.
    + exact L2.
    + rewrite <- (pressure_well_get s), <- (pressure_well_get (tick c dt s)).
      lra.
    + rewrite <- (pressure_feed_get s), <- (pressure_feed_get (tick c dt s)).
      lra.
    + rewrite <- (pressure_dist_get s), <- (pressure_dist_get (tick c dt s)).
      lra.
    + rewrite tick_get. reflexivity.
    + rewrite tick_get. reflexivity.
    + rewrite <- (Cl_true_get s), <- (Cl_true_get (tick c dt s)). lra.
    + rewrite tick_get. reflexivity.
    + rewrite <- (membrane_health_get s),
        <- (membrane_health_get (tick c dt s)), tick_membrane_health.
      rewrite (proj2 (Qgtb_false (pressure_feed (tick c dt s)) _)) by lra.
      rewrite (proj2 (Qgtb_false (Cl_true (tick c dt s)) _))
        by (unfold MEMBRANE_CHLORINE_LIMIT; lra).
      reflexivity.
    + rewrite <- (pump_well_health_get s),
        <- (pump_well_health_get (tick c dt s)), tick_pump_well_health, Hw.
      reflexivity.
    + rewrite <- (pump_feed_health_get s),
        <- (pump_feed_health_get (tick c dt s)), tick_pump_feed_health, Hr.
      reflexivity.
    + rewrite <- (pump_dist_health_get s),
        <- (pump_dist_health_get (tick c dt s)), tick_pump_dist_health, Hd.
      reflexivity.
    + rewrite <- (pipe_well_health_get s),
        <- (pipe_well_health_get (tick c dt s)), tick_pipe_well_health.
      rewrite (proj2 (Qgtb_false (pressure_well (tick c dt s)) _)) by lra.
      reflexivity.
    + rewrite <- (pipe_feed_health_get s),
        <- (pipe_feed_health_get (tick c dt s)), tick_pipe_feed_health.
      rewrite (proj2 (Qgtb_false (pressure_feed (tick c dt s)) _)) by lra.
      reflexivity.
    + rewrite <- (pipe_dist_health_get s),
        <- (pipe_dist_health_get (tick c dt s)), tick_pipe_dist_health.
      rewrite (proj2 (Qgtb_false (pressure_dist (tick c dt s)) _)) by lra.
      reflexivity.
  - unfold at_rest. rewrite L1, L2.
    repeat split; try assumption; lra.
Qed.

Lemma rest_is_fixed_witness :
  pumps_off currentControls /\ at_rest physicsState /\
  same_state (tick currentControls 0.1 physicsState) physicsState.
Proof.
  assert (Hc : pumps_off currentControls) by (repeat split; reflexivity).
  assert (Hs : at_rest physicsState)
    by (unfold at_rest; vm_compute; intuition discriminate).
  split; [exact Hc | split; [exact Hs|]].
  exact (proj1 (rest_is_fixed currentControls 0.1 physicsState Hc Hs)).
Defined.

(** ** Sustained chlorine dosing *)

Lemma tick_chlorine_stays_above c dt s :
  cl_pump_on c = true -> (1 # 9) < Cl_dose c -> 0.1 <= Cl_true s ->
  0.1 < Cl_true (tick c dt s).
Proof.
  intros Hon Hdose Hcl. rewrite tick_Cl_true. unfold current_Cl.
  rewrite Hon. destruct (Q_feed (tick c dt s) >? 5).
  - destruct (Math_max_spec 0 (Cl_dose c * 0.9)) as [[H E]|[H E]];
      rewrite E; lra.
  - rewrite (proj2 (Qgtb_true (Cl_dose c) 0)) by lra. lra.
Qed.

Lemma tick_membrane_attacked c dt s :
  0 <= dt -> 0.1 < Cl_true (tick c dt s) -> 0 < Q_feed (tick c dt s) ->
  membrane_health (tick c dt s) <= debit 0.2 dt (membrane_health s).
Proof.
  intros Hdt Hcl Hq. rewrite tick_membrane_health.
  rewrite (proj2 (Qgtb_true (Cl_true (tick c dt s)) _))
    by (unfold MEMBRANE_CHLORINE_LIMIT; lra).
  rewrite (proj2 (Qgtb_true (Q_feed (tick c dt s)) 0)) by lra.
  cbn [andb]. unfold debit_if at 2.
  split_debit_if; debit_lra.
Qed.

Lemma debit_mono rate dt h h' :
  h <= h' -> debit rate dt h <= debit rate dt h'.
Proof.
  intros Hh.
  destruct (debit_spec rate dt h) as [[H E]|[H E]];
  destruct (debit_spec rate dt h') as [[H' E']|[H' E']];
    rewrite E, E'; lra.
Qed.

Lemma ticks_chlorine_stays_above n c dt s :
  cl_pump_on c = true -> (1 # 9) < Cl_dose c -> 0.1 <= Cl_true s ->
  0.1 <= Cl_true (ticks n c dt s).
Proof.
  intros Hon Hdose Hcl. induction n as [|n IH]; [exact Hcl|].
  rewrite ticks_succ.
  pose proof (tick_chlorine_stays_above c dt (ticks n c dt s) Hon Hdose IH).
  lra.
Qed.

(** X5.  While the chlorine pump runs with a dose above 1/9 mg/L (the
    default dose is 1.0), chlorine that has reached the membrane limit 0.1
    stays at or above it after any number of calls, with or without feed
    flow and whatever the step.  If moreover the step is not negative and
    the feed flow after each call is positive, every call debits the
    membrane, so that after [n] calls its health is at most
    [max(0, h - 0.2 * dt * n)]. *)
Theorem sustained_chlorine_attack (n : nat) (c : SimulationControls) (dt : Q)
    (s : PhysicsState) :
  cl_pump_on c = true -> (1 # 9) < Cl_dose c -> 0.1 <= Cl_true s ->
  0.1 <= Cl_true (ticks n c dt s) /\
  (0 <= dt ->
   (forall k, (k < n)%nat -> 0 < Q_feed (ticks (S k) c dt s)) ->
   membrane_health (ticks n c dt s)
     <= Qmax 0 (membrane_health s - 0.2 * dt * inject_Z (Z.of_nat n))).
Proof.
  intros Hon Hdose Hcl.
  split; [exact (ticks_chlorine_stays_above n c dt s Hon Hdose Hcl)|].
  intros Hdt. induction n as [|n IH]; intros Hq.
  - cbn [ticks].
    destruct (Q.max_spec 0 (membrane_health s - 0.2 * dt * inject_Z (Z.of_nat 0)))
      as [[H E]|[H E]]; rewrite E.
    + setoid_replace (inject_Z (Z.of_nat 0)) with 0 by reflexivity. lra.
    + setoid_replace (inject_Z (Z.of_nat 0)) with 0 in H by reflexivity. lra.
  - assert (IHm := IH (fun k Hk => Hq k (Nat.lt_lt_succ_r _ _ Hk))).
    clear IH.
    rewrite ticks_succ.
    pose proof (ticks_chlorine_stays_above n c dt s Hon Hdose Hcl) as IHc.
    pose proof (tick_chlorine_stays_above c dt (ticks n c dt s)
                  Hon Hdose IHc) as Hc'.
    assert (Hq' : 0 < Q_feed (tick c dt (ticks n c dt s)))
      by (apply (Hq n); lia).
    pose proof (tick_membrane_attacked c dt (ticks n c dt s) Hdt Hc' Hq')
      as Hm.
    pose proof (debit_mono 0.2 dt _ _ IHm) as Hmono.
    assert (Hs : 0.2 * dt * inject_Z (Z.of_nat (S n))
                 == 0.2 * dt * inject_Z (Z.of_nat n) + 0.2 * dt)
      by (rewrite inject_Z_succ; ring).
    rewrite Hs.
    set (a := 0.2 * dt * inject_Z (Z.of_nat n)) in *. clearbody a.
    set (m := membrane_health (tick c dt (ticks n c dt s))) in *.
    clearbody m.
    set (h := membrane_health s) in *.
    unfold debit, Math_max in Hmono.
    destruct (Q.max_spec 0 (h - a)) as [[H1 E1]|[H1 E1]];
    destruct (Q.max_spec 0 (Qmax 0 (h - a) - 0.2 * dt)) as [[H2 E2]|[H2 E2]];
    destruct (Q.max_spec 0 (h - (a + 0.2 * dt))) as [[H3 E3]|[H3 E3]];
    rewrite E3; rewrite E2 in Hmono; rewrite ?E1 in *;
    unfold debit, Math_max in Hm; lra.
Qed.

(** Without feed flow: the default controls with the chlorine pump on
    leave the RO feed pump off.  With feed flow: the controls of "Normal
    Operation". *)
Lemma sustained_chlorine_attack_witness :
  (Q_feed (ticks 3 Cl_dosing_controls 0.1
             (ticks 1 Cl_dosing_controls 0.1 physicsState)) == 0 /\
   0.1 <= Cl_true (ticks 3 Cl_dosing_controls 0.1
                     (ticks 1 Cl_dosing_controls 0.1 physicsState))) /\
  membrane_health
    (ticks 1 (handleReset currentControls) 0.1
       (ticks 2 (handleReset currentControls) 0.1 physicsState))
  <= Qmax 0
       (membrane_health
          (ticks 2 (handleReset currentControls) 0.1 physicsState)
        - 0.2 * 0.1 * inject_Z (Z.of_nat 1)).
Proof.
  split.
  - split; [vm_compute; reflexivity|].
    apply (proj1 (sustained_chlorine_attack 3 Cl_dosing_controls 0.1
                    (ticks 1 Cl_dosing_controls 0.1 physicsState)
                    eq_refl eq_refl
                    ltac:(vm_compute; discriminate))).
  - apply (proj2 (sustained_chlorine_attack 1 (handleReset currentControls)
                    0.1
                    (ticks 2 (handleReset currentControls) 0.1 physicsState)
                    eq_refl eq_refl
                    ltac:(vm_compute; discriminate))).
    + vm_compute; discriminate.
    + intros k Hk. destruct k as [|k]; [vm_compute; reflexivity | lia].
Defined.

(** ** The chemistry read-outs of the snapshot *)

Lemma published_chemistry c dt e s :
  let s' := tick c dt s in
  let p := published c dt e s in
  exists k6 k7 k8 k9 : nat,
    Pub.TDS_feed p = 1250 + sin_now e * 20 + noise e k6 5 /\
    Pub.TDS_perm p =
      (1250 + sin_now e * 20) * (1 - 0.98 * (membrane_health s' / 100.0))
      + noise e k7 2 /\
    Pub.pH_true p =
      7.0 + (if naoh_pump_on c then NaOH_dose c * 0.15 else 0)
      + noise e k8 0.05 /\
    Pub.Cl_true p =
      (if Cl_true s' >? 0.05 then Cl_true s' + noise e k9 0.01 else 0).
Proof.
  cbv zeta. rewrite published_unfold, <- tick_stage_membrane_health.
  unfold emit. cbv zeta.
  cbn [Pub.TDS_feed Pub.TDS_perm Pub.pH_true Pub.Cl_true].
  rewrite !fst_noisy_if, !fst_noisy.
  do 4 eexists. repeat split; reflexivity.
Qed.

Lemma published_membrane_health c dt e s :
  Pub.membrane_health (published c dt e s) = membrane_health (tick c dt s).
Proof. rewrite published_unfold. reflexivity. Qed.

Lemma published_levels c dt e s :
  Pub.level_feed_tank (published c dt e s) = level_feed_tank (tick c dt s) /\
  Pub.level_clearwell (published c dt e s) = level_clearwell (tick c dt s).
Proof. rewrite published_unfold. split; reflexivity. Qed.

(** ** Differential pressure *)

Lemma dP_ro_le s :
  0 <= Q_feed s <= 100 ->
  dP_ro s <= 2 /\ (membrane_health s < 30 -> dP_ro s <= 0.4).
Proof.
  intros Hq. unfold dP_ro, RO_FEED_RATE. cbv zeta.
  destruct (Q_feed s >? 1); [|split; [lra | intros _; lra]].
  destruct (membrane_health s <? 30) eqn:E; rewrite Qdiv_100.
  - split; [lra | intros _; lra].
  - split; [lra|]. intros H. apply Qltb_false in E. lra.
Qed.

(** X6.  In the snapshot of a call from a reachable state the RO
    differential pressure is below 2.01, so the alarm of the PDT-201 tag
    of the process diagram, set above 3.5, never shows; and once the
    membrane health is below 30 the value is at most 0.41, so the warning
    of the data panel, set above 1.5, does not show either. *)
Theorem diff_pressure_alarms (c : SimulationControls) (dt : Q) (e : Env)
    (s : PhysicsState) :
  reachable s -> controls_in_range c -> 0 <= dt -> jitter_ok e ->
  let p := published c dt e s in
  Pub.dP_ro_true p < 2.01 /\
  ProcessDiagram.PDT_201_alarm p = false /\
  (Pub.membrane_health p < 30 ->
   Pub.dP_ro_true p < 0.41 /\ DataPanel.diff_pressure p = normal).
Proof.
  intros Hr Hc Hdt Hj. cbv zeta.
  assert (Hr' : reachable (tick c dt s))
    by (apply (reach_op (OpTick c dt) s Hr); split; [exact Hc | exact Hdt]).
  pose proof (reachable_hydraulics_nonneg _ Hr') as (_ & T2 & _).
  pose proof (reachable_hydraulics_bounded _ Hr') as (_ & U2 & _).
  destruct (dP_ro_le (tick c dt s) (conj T2 U2)) as [D2 D04].
  destruct (published_values c dt e s)
    as (k1 & k2 & k3 & k4 & k5 & k10 & k11 & k12 & k13 &
        _ & _ & _ & _ & _ & _ & E11 & _).
  cbv zeta in E11.
  unfold ProcessDiagram.PDT_201_alarm, DataPanel.diff_pressure.
  rewrite published_membrane_health, E11.
  pose proof (Hj k11) as Hk. unfold noise.
  set (r := rnd e k11) in *. clearbody r.
  split; [lra|]. split; [apply Qgtb_false; lra|].
  intros Hm. specialize (D04 Hm). split; [lra|].
  rewrite (proj2 (Qgtb_false _ _)) by lra. reflexivity.
Qed.

Lemma diff_pressure_alarms_witness :
  reachable physicsState /\ controls_in_range RO_running_controls /\
  0 <= 0.1 /\ jitter_ok env_skewed /\
  ProcessDiagram.PDT_201_alarm
    (published RO_running_controls 0.1 env_skewed physicsState) = false.
Proof.
  assert (Hr : reachable physicsState) by constructor.
  assert (Hc : controls_in_range RO_running_controls)
    by (vm_compute; intuition discriminate).
  assert (Hdt : 0 <= 0.1) by (vm_compute; discriminate).
  assert (Hj : jitter_ok env_skewed)
    by (intros [|k]; vm_compute; split; (discriminate || reflexivity)).
  split; [exact Hr|]. split; [exact Hc|]. split; [exact Hdt|].
  split; [exact Hj|].
  exact (proj1 (proj2 (diff_pressure_alarms RO_running_controls 0.1
                         env_skewed physicsState Hr Hc Hdt Hj))).
Defined.

(** ** pH *)

(** X7.  The published pH is 7.0 plus 0.15 per mg/L of NaOH when the NaOH
    pump runs, within 0.025 of jitter; the [pH_true] field of
    [physicsState] (7.2 at load time) is never read.  With a dose that is
    not negative the low-pH alarm of the data panel never shows; with the
    pump off or a dose of at most 9.8 the high-pH alarms of the data panel
    and of the AIT-301 tag never show, and with the pump on and a dose of
    at least 10.2 they always do. *)
Theorem published_pH (c : SimulationControls) (dt : Q) (e : Env)
    (s : PhysicsState) :
  jitter_ok e -> 0 <= NaOH_dose c ->
  let p := published c dt e s in
  let adj := if naoh_pump_on c then NaOH_dose c * 0.15 else 0 in
  7.0 + adj - 0.025 <= Pub.pH_true p < 7.0 + adj + 0.025 /\
  (Pub.pH_true p <? 6.5) = false /\
  (naoh_pump_on c = false -> Pub.pH_true p < 7.2) /\
  (naoh_pump_on c = false \/ NaOH_dose c <= 9.8 ->
   DataPanel.product_pH p = normal /\
   ProcessDiagram.AIT_301_alarm p = false) /\
  (naoh_pump_on c = true /\ 10.2 <= NaOH_dose c ->
   DataPanel.product_pH p = alarm /\
   ProcessDiagram.AIT_301_alarm p = true).
Proof.
  intros Hj Hd. cbv zeta.
  destruct (published_chemistry c dt e s)
    as (k6 & k7 & k8 & k9 & _ & _ & E8 & _).
  cbv zeta in E8.
  unfold DataPanel.product_pH, ProcessDiagram.AIT_301_alarm.
  rewrite E8. clear E8.
  pose proof (Hj k8) as Hk. unfold noise.
  set (r := rnd e k8) in *. clearbody r.
  set (adj := if naoh_pump_on c then NaOH_dose c * 0.15 else 0).
  assert (Hadj : 0 <= adj) by (unfold adj; destruct (naoh_pump_on c); lra).
  split; [lra|].
  split; [apply Qltb_false; lra|].
  split; [intros Hoff; unfold adj; rewrite Hoff; lra|].
  split.
  - intros Hlow.
    assert (Ha : adj <= 1.47).
    { unfold adj. destruct Hlow as [Hoff | Hle];
        [rewrite Hoff; lra | destruct (naoh_pump_on c); lra]. }
    rewrite (proj2 (Qgtb_false _ 8.5)) by lra.
    rewrite (proj2 (Qltb_false _ 6.5)) by lra.
    split; reflexivity.
  - intros [Hon Hhigh].
    assert (Ha : 1.53 <= adj) by (unfold adj; rewrite Hon; lra).
    rewrite (proj2 (Qgtb_true _ 8.5)) by lra.
    split; reflexivity.
Qed.

Lemma published_pH_witness :
  jitter_ok env_low /\ 0 <= NaOH_dose currentControls /\
  DataPanel.product_pH (published currentControls 0.1 env_low physicsState)
  = normal.
Proof.
  assert (Hj : jitter_ok env_low)
    by (intros k; vm_compute; split; [discriminate | reflexivity]).
  assert (Hd : 0 <= NaOH_dose currentControls) by (vm_compute; discriminate).
  split; [exact Hj | split; [exact Hd|]].
  destruct (published_pH currentControls 0.1 env_low physicsState Hj Hd)
    as (_ & _ & _ & H & _).
  exact (proj1 (H (or_introl eq_refl))).
Defined.

(** ** Permeate conductivity *)

(** X8.  With the sine of the clock in [-1, 1], the published feed
    conductivity lies in [1227.5, 1272.5) and the published permeate
    conductivity follows the membrane health of the same snapshot: at a
    health of 93 or less the permeate alarm of the data panel (above 100)
    always shows, in particular whenever the membrane row is not normal
    (health below 80), and at a health of 95 or more it never shows. *)
Theorem permeate_alarm_follows_health (c : SimulationControls) (dt : Q)
    (e : Env) (s : PhysicsState) :
  env_ok e ->
  let p := published c dt e s in
  1227.5 <= Pub.TDS_feed p < 1272.5 /\
  (Pub.membrane_health p <= 93 -> DataPanel.permeate_cond p = alarm) /\
  (DataPanel.membrane_health p <> normal ->
   DataPanel.permeate_cond p = alarm) /\
  (95 <= Pub.membrane_health p -> DataPanel.permeate_cond p = normal).
Proof.
  intros [Hj Hsin]. cbv zeta.
  destruct (published_chemistry c dt e s)
    as (k6 & k7 & k8 & k9 & E6 & E7 & _ & _).
  cbv zeta in E6, E7.
  unfold DataPanel.permeate_cond, DataPanel.membrane_health,
    DataPanel.memHealthStatus.
  rewrite published_membrane_health, E6, E7. clear E6 E7.
  pose proof (Hj k6) as Hk6. pose proof (Hj k7) as Hk7. unfold noise.
  set (r6 := rnd e k6) in *. set (r7 := rnd e k7) in *.
  set (sn := sin_now e) in *.
  set (h := membrane_health (tick c dt s)).
  clearbody r6 r7 sn h.
  assert (Hdiv : h / 100.0 == h * 0.01) by apply Qdiv_100_0.
  assert (Hhigh : h <= 93 ->
            ((1250 + sn * 20) * (1 - 0.98 * (h / 100.0)) + (r7 - 0.5) * 2
             >? 100) = true).
  { intros Hh. apply Qgtb_true. rewrite Hdiv.
    assert (Hp : 1230 * 0.0886 <= (1250 + sn * 20) * (1 - 0.98 * (h * 0.01))).
    { apply Qmult_le_compat_nonneg; split; lra. }
    lra. }
  split; [lra|]. split; [|split].
  - intros Hh. rewrite (Hhigh Hh). reflexivity.
  - intros Hst.
    assert (Hh : h <= 93).
    { destruct (h <? 50) eqn:E50; [apply Qltb_true in E50; lra|].
      destruct (h <? 80) eqn:E80; [apply Qltb_true in E80; lra|].
      now elim Hst. }
    rewrite (Hhigh Hh). reflexivity.
  - intros Hh.
    rewrite (proj2 (Qgtb_false _ 100)); [reflexivity|].
    rewrite Hdiv.
    assert (Hp : (1250 + sn * 20) * (1 - 0.98 * (h * 0.01))
                 <= (1250 + sn * 20) * 0.069).
    { nra. }
    lra.
Qed.

Lemma permeate_alarm_follows_health_witness :
  env_ok env_low /\
  DataPanel.permeate_cond (published currentControls 0.1 env_low physicsState)
  = normal.
Proof.
  assert (He : env_ok env_low).
  { split; [intros k; vm_compute; split; [discriminate | reflexivity]|].
    vm_compute. split; discriminate. }
  split; [exact He|].
  destruct (permeate_alarm_follows_health currentControls 0.1 env_low
              physicsState He) as (_ & _ & _ & H).
  apply H. vm_compute. discriminate.
Defined.

(** ** Recovery *)

(** X9.  The recovery row of the data panel divides the published
    permeate flow by the published feed flow, and only when the latter is
    positive.  When the integrated feed flow after the call is 24 or more
    the recovery is at least 70 for every jitter and the row is normal;
    when it is 1 or less the published feed flow is 0, the recovery is 0
    and the row is normal. *)
Theorem recovery_row (c : SimulationControls) (dt : Q) (e : Env)
    (s : PhysicsState) :
  jitter_ok e ->
  let p := published c dt e s in
  (24 <= Q_feed (tick c dt s) ->
   70 <= DataPanel.recovery p /\ DataPanel.recovery_rate p = normal) /\
  (Q_feed (tick c dt s) <= 1 ->
   DataPanel.recovery p = 0 /\ DataPanel.recovery_rate p = normal).
Proof.
  intros Hj. cbv zeta.
  destruct (published_values c dt e s)
    as (k1 & k2 & k3 & k4 & k5 & k10 & k11 & k12 & k13 &
        _ & E2 & E3 & _).
  cbv zeta in E2, E3.
  unfold DataPanel.recovery_rate, DataPanel.recovery.
  rewrite E2, E3. clear E2 E3. unfold ro_recovery.
  pose proof (Hj k2) as Hk2. pose proof (Hj k3) as Hk3. unfold noise.
  set (r2 := rnd e k2) in *. set (r3 := rnd e k3) in *.
  set (q := Q_feed (tick c dt s)). clearbody r2 r3 q.
  split.
  - intros Hq.
    rewrite (proj2 (Qgtb_true q 1)) by lra.
    rewrite (proj2 (Qgtb_true (q * 0.75) 0.1)) by lra.
    rewrite (proj2 (Qgtb_true (q + (r2 - 0.5) * 2) 0)) by lra.
    assert (H70 : 70 <= (q * 0.75 + (r3 - 0.5) * 1) / (q + (r2 - 0.5) * 2)
                        * 100).
    { assert (H : 0.7 <= (q * 0.75 + (r3 - 0.5) * 1) / (q + (r2 - 0.5) * 2))
        by (apply Qle_shift_div_l; lra).
      lra. }
    split; [exact H70|].
    rewrite (proj2 (Qltb_false _ 70)) by exact H70. reflexivity.
  - intros Hq.
    rewrite (proj2 (Qgtb_false q 1)) by lra.
    split; reflexivity.
Qed.

Lemma recovery_row_witness :
  jitter_ok env_skewed /\
  24 <= Q_feed (tick RO_running_controls 0.1 (set_Q_feed 30 physicsState)) /\
  DataPanel.recovery_rate
    (published RO_running_controls 0.1 env_skewed
       (set_Q_feed 30 physicsState)) = normal.
Proof.
  assert (Hj : jitter_ok env_skewed)
    by (intros [|k]; vm_compute; split; (discriminate || reflexivity)).
  assert (Hq : 24 <= Q_feed (tick RO_running_controls 0.1
                               (set_Q_feed 30 physicsState)))
    by (vm_compute; discriminate).
  split; [exact Hj | split; [exact Hq|]].
  destruct (recovery_row RO_running_controls 0.1 env_skewed
              (set_Q_feed 30 physicsState) Hj) as [H _].
  exact (proj2 (H Hq)).
Defined.

(** * [PlantApi] *)

(** X10.  Reading a control back after [sendControl] gives what was
    stored, and every other control reads as before.  What is stored
    under a boolean control is true exactly for the values 1 and true, so
    any other number clears it; under a numeric control it is
    [Number(value)]. *)
Theorem sendControl_read_back (k k' : ControlKey) (v : JsValue)
    (c : SimulationControls) :
  getControl k (sendControl k v c) = stored k v /\
  (k' <> k -> getControl k' (sendControl k v c) = getControl k' c) /\
  (isBooleanControl k = true ->
   (stored k v = JBool true <->
    v = JBool true \/ exists n, v = JNum n /\ n == 1) /\
   (stored k v = JBool true \/ stored k v = JBool false)) /\
  (isBooleanControl k = false ->
   stored k v = JNum (match v with
                      | JNum n => n
                      | JBool b => if b then 1 else 0
                      end)).
Proof.
  split; [destruct k; reflexivity|].
  split.
  { intros Hk. destruct k, k'; try reflexivity; now elim Hk. }
  split.
  - intros Hb. unfold stored. rewrite Hb. split.
    + split.
      * intros H. injection H as H. destruct v as [n | b]; cbn in H.
        -- right. exists n. split; [reflexivity|].
           apply Qeq_bool_iff. exact H.
        -- left. now rewrite H.
      * intros [-> | (n & -> & Hn)]; cbn; [reflexivity|].
        f_equal. apply Qeq_bool_iff. exact Hn.
    + destruct (is_one_or_true v); [left | right]; reflexivity.
  - intros Hb. unfold stored. rewrite Hb.
    destruct v as [n | [|]]; reflexivity.
Qed.

Lemma sendControl_read_back_witness :
  K_valve_201_open <> K_ro_feed_pump_on /\
  getControl K_valve_201_open
    (sendControl K_ro_feed_pump_on (JNum 2) currentControls)
  = getControl K_valve_201_open currentControls.
Proof.
  assert (H : K_valve_201_open <> K_ro_feed_pump_on) by discriminate.
  split; [exact H|].
  exact (proj1 (proj2 (sendControl_read_back K_ro_feed_pump_on
                         K_valve_201_open (JNum 2) currentControls)) H).
Defined.

(** X11.  Writes compose as on a record: a second write to the same
    control replaces the first, writes to different controls commute, and
    writing back the value just read changes nothing. *)
Theorem sendControl_compose (k k' : ControlKey) (v v' : JsValue)
    (c : SimulationControls) :
  sendControl k v' (sendControl k v c) = sendControl k v' c /\
  sendControl k (getControl k c) c = c /\
  (k <> k' ->
   sendControl k v (sendControl k' v' c)
   = sendControl k' v' (sendControl k v c)).
Proof.
  split; [destruct k; reflexivity|].
  split; [destruct k, c; reflexivity|].
  intros Hk. destruct k, k'; try reflexivity; now elim Hk.
Qed.

Lemma sendControl_compose_witness :
  K_Cl_dose <> K_cl_pump_on /\
  sendControl K_Cl_dose (JNum 5) (sendControl K_cl_pump_on (JBool true)
                                   currentControls)
  = sendControl K_cl_pump_on (JBool true) (sendControl K_Cl_dose (JNum 5)
                                             currentControls).
Proof.
  assert (H : K_Cl_dose <> K_cl_pump_on) by discriminate.
  split; [exact H|].
  exact (proj2 (proj2 (sendControl_compose K_Cl_dose K_cl_pump_on (JNum 5)
                         (JBool true) currentControls)) H).
Defined.

Lemma timer_callback_facts response now e a s :
  let f := timer_callback response now e a s in
  fired_status f = connected /\
  payload_controls (fired_payload f) = api_controls a /\
  api_controls (fired_api f) = api_controls a /\
  backendAvailable (fired_api f)
    = (match response with Some _ => true | None => false end) /\
  fired_physics f
    = (match response with
       | Some _ => s
       | None => tick (api_controls a) 0.1 s
       end) /\
  payload_state (fired_payload f)
    = (match response with
       | Some newState => newState
       | None => published (api_controls a) 0.1 e s
       end) /\
  (fired_log f = [] <->
   backendAvailable a
     = (match response with Some _ => true | None => false end)).
Proof.
  cbv zeta. unfold timer_callback.
  destruct a as [b ctl]. destruct response as [st|]; destruct b;
    cbn [backendAvailable api_controls negb fired_status fired_payload
         fired_log fired_api fired_physics payload_controls payload_state];
    rewrite ?simulatePhysics_state; unfold published;
    repeat split; try reflexivity; try discriminate; intros H; discriminate H.
Qed.

(** X12.  Over any run of firings of the polling timer: the status
    reported is always [connected], also when the backend is away; the
    payload always carries [currentControls], which the callback never
    changes; the local [physicsState] advances by exactly one call at the
    step 0.1 per failed request and not at all while the backend answers;
    and the flag [backendAvailable] ends as the last response was. *)
Theorem polling_timer (firings : list (option Pub.SimulationState * Q * Env))
    (a : PlantApi) (s : PhysicsState) :
  let r := timer_run firings a s in
  Forall (fun f => fired_status f = connected) (fst (fst r)) /\
  Forall (fun f => payload_controls (fired_payload f) = api_controls a)
    (fst (fst r)) /\
  length (fst (fst r)) = length firings /\
  api_controls (snd (fst r)) = api_controls a /\
  snd r = ticks (failures firings) (api_controls a) 0.1 s /\
  backendAvailable (snd (fst r))
    = last_answered firings (backendAvailable a).
Proof.
  cbv zeta. revert a s.
  induction firings as [|[[response now] e] rest IH]; intros a s.
  - cbn. repeat split; constructor.
  - cbn [timer_run fst snd].
    destruct (timer_callback_facts response now e a s)
      as (F1 & F2 & F3 & F4 & F5 & _).
    cbv zeta in *.
    set (f := timer_callback response now e a s) in *.
    destruct (IH (fired_api f) (fired_physics f))
      as (I1 & I2 & I3 & I4 & I5 & I6).
    rewrite F3 in *.
    split; [constructor; assumption|].
    split; [constructor; assumption|].
    split; [cbn [length]; now rewrite I3|].
    split; [exact I4|].
    split.
    + rewrite I5, F5. destruct response; cbn [failures]; [reflexivity|].
      rewrite ticks_succ. apply ticks_shift.
    + rewrite I6, F4. destruct response; reflexivity.
Qed.

(** * [App]: the handlers *)

Lemma handleEmergencyStop_eq c : handleEmergencyStop c = all_off.
Proof. destruct c. reflexivity. Qed.

Lemma handleReset_eq c : handleReset c = normal_operation.
Proof. destruct c. reflexivity. Qed.

(** Pressures after a call under controls whose pressure targets are at
    most [tw], [tf] and [td]. *)
Lemma tick_pressures_le c dt s tw tf td :
  snd (well_targets c) <= tw -> snd (spec_target_feed c s) <= tf ->
  snd (dist_targets c s) <= td ->
  pressure_well (tick c dt s) <= (pressure_well s + tw) * 0.5 /\
  pressure_feed (tick c dt s) <= (pressure_feed s + tf) * 0.5 /\
  pressure_dist (tick c dt s) <= (pressure_dist s + td) * 0.5.
Proof.
  intros Hw Hf Hd.
  destruct (tick_ramps c dt s) as (_ & _ & _ & E4 & E5 & E6).
  destruct (target_feed_spec c dt s) as [_ TP].
  rewrite E4, E5, E6, TP. repeat split; lra.
Qed.

(** X13.  The emergency stop leaves every pump off, every valve closed
    and every setpoint at 0, whatever the controls were.  A call under it
    from a reachable state debits no pump and no pipe, and multiplies the
    three flows by 0.9 and the three pressures by 0.5; the membrane is the
    only asset it can still debit. *)
Theorem emergency_stop (c : SimulationControls) (dt : Q) (s : PhysicsState)
    (f : Field) :
  reachable s ->
  handleEmergencyStop c = all_off /\
  (is_pump_health f || is_pipe_health f = true ->
   get f (tick (handleEmergencyStop c) dt s) = get f s) /\
  Q_wellfield (tick (handleEmergencyStop c) dt s) == 0.9 * Q_wellfield s /\
  Q_feed (tick (handleEmergencyStop c) dt s) == 0.9 * Q_feed s /\
  Q_out (tick (handleEmergencyStop c) dt s) == 0.9 * Q_out s /\
  pressure_well (tick (handleEmergencyStop c) dt s)
    == 0.5 * pressure_well s /\
  pressure_feed (tick (handleEmergencyStop c) dt s)
    == 0.5 * pressure_feed s /\
  pressure_dist (tick (handleEmergencyStop c) dt s)
    == 0.5 * pressure_dist s.
Proof.
  intros Hr. rewrite handleEmergencyStop_eq.
  split; [reflexivity|].
  pose proof (reachable_hydraulics_bounded s Hr) as (_ & _ & _ & U4 & U5 & U6).
  destruct (tick_ramps all_off dt s) as (E1 & E2 & E3 & E4 & E5 & E6).
  destruct (target_feed_spec all_off dt s) as [TQ TP].
  change (spec_target_feed all_off s) with (0, 0) in TQ, TP.
  change (well_targets all_off) with (0, 0) in E1, E4.
  change (dist_targets all_off s) with (0, 0) in E3, E6.
  cbn [fst snd] in *. unfold RAMP_RATE in *.
  assert (P1 : pressure_well (tick all_off dt s) == 0.5 * pressure_well s)
    by (rewrite E4; lra).
  assert (P2 : pressure_feed (tick all_off dt s) == 0.5 * pressure_feed s)
    by (rewrite E5, TP; lra).
  assert (P3 : pressure_dist (tick all_off dt s) == 0.5 * pressure_dist s)
    by (rewrite E6; lra).
  split.
  { intros Hf. destruct f; try discriminate Hf.
    - rewrite <- (pump_well_health_get s),
        <- (pump_well_health_get (tick all_off dt s)), tick_pump_well_health.
      reflexivity.
    - rewrite <- (pump_feed_health_get s),
        <- (pump_feed_health_get (tick all_off dt s)), tick_pump_feed_health.
      reflexivity.
    - rewrite <- (pump_dist_health_get s),
        <- (pump_dist_health_get (tick all_off dt s)), tick_pump_dist_health.
      reflexivity.
    - rewrite <- (pipe_well_health_get s),
        <- (pipe_well_health_get (tick all_off dt s)), tick_pipe_well_health.
      rewrite (proj2 (Qgtb_false (pressure_well (tick all_off dt s)) _))
        by lra.
      reflexivity.
    - rewrite <- (pipe_feed_health_get s),
        <- (pipe_feed_health_get (tick all_off dt s)), tick_pipe_feed_health.
      rewrite (proj2 (Qgtb_false (pressure_feed (tick all_off dt s)) _))
        by lra.
      reflexivity.
    - rewrite <- (pipe_dist_health_get s),
        <- (pipe_dist_health_get (tick all_off dt s)), tick_pipe_dist_health.
      rewrite (proj2 (Qgtb_false (pressure_dist (tick all_off dt s)) _))
        by lra.
      reflexivity. }
  split; [rewrite E1; lra|].
  split; [rewrite E2, TQ; lra|].
  split; [rewrite E3; lra|].
  split; [exact P1|]. split; [exact P2 | exact P3].
Qed.

Lemma emergency_stop_witness :
  reachable (tick S1_controls 0.1 physicsState) /\
  get F_pipe_feed_health
    (tick (handleEmergencyStop S1_controls) 0.1
       (tick S1_controls 0.1 physicsState))
  = get F_pipe_feed_health (tick S1_controls 0.1 physicsState).
Proof.
  assert (Hr : reachable (tick S1_controls 0.1 physicsState)).
  { apply (reach_op (OpTick S1_controls 0.1) physicsState reach_init).
    vm_compute. intuition discriminate. }
  split; [exact Hr|].
  exact (proj1 (proj2 (emergency_stop S1_controls 0.1
                         (tick S1_controls 0.1 physicsState)
                         F_pipe_feed_health Hr)) eq_refl).
Defined.

Lemma normal_operation_feed_target s :
  snd (spec_target_feed normal_operation s) <= 12.
Proof.
  unfold spec_target_feed, normal_operation. cbv zeta.
  cbn [ro_feed_pump_on valve_201_open valve_202_open valve_203_open].
  destruct (level_feed_tank s >? 0.2); cbn [andb negb fst snd]; lra.
Qed.

Lemma normal_operation_dist_target s :
  snd (dist_targets normal_operation s) <= 4.
Proof.
  unfold dist_targets, normal_operation.
  cbn [dist_pump_on valve_401_open].
  destruct (level_clearwell s >? 0.1); cbn [andb fst snd]; lra.
Qed.

(** X14.  The button "Normal Operation" leaves every pump on, every valve
    open and the setpoints at 5, 1 and 80, whatever the controls were.  A
    call under it from a reachable state debits neither the well pump nor
    the well and distribution pipes; the RO feed pump and the distribution
    pump only by cavitation; the feed pipe only when the feed pressure
    before the call was above 28 bar, and never in the call after. *)
Theorem normal_operation_relieves (c : SimulationControls) (dt dt' : Q)
    (s : PhysicsState) :
  reachable s ->
  let n := handleReset c in
  n = normal_operation /\
  pump_well_health (tick n dt s) = pump_well_health s /\
  pipe_well_health (tick n dt s) = pipe_well_health s /\
  pipe_dist_health (tick n dt s) = pipe_dist_health s /\
  (0.2 < level_feed_tank s ->
   pump_feed_health (tick n dt s) = pump_feed_health s) /\
  (0.2 <= level_clearwell s ->
   pump_dist_health (tick n dt s) = pump_dist_health s) /\
  (pressure_feed s <= 28 ->
   pipe_feed_health (tick n dt s) = pipe_feed_health s) /\
  pipe_feed_health (tick n dt' (tick n dt s)) =
  pipe_feed_health (tick n dt s).
Proof.
  intros Hr n. subst n. rewrite handleReset_eq.
  set (n := normal_operation).
  split; [reflexivity|].
  pose proof (reachable_hydraulics_bounded s Hr) as (_ & _ & _ & U4 & U5 & U6).
  assert (Hw : snd (well_targets n) <= 3) by (vm_compute; discriminate).
  destruct (tick_pressures_le n dt s 3 12 4 Hw
              (normal_operation_feed_target s)
              (normal_operation_dist_target s)) as (P1 & P2 & P3).
  destruct (tick_pressures_le n dt' (tick n dt s) 3 12 4 Hw
              (normal_operation_feed_target (tick n dt s))
              (normal_operation_dist_target (tick n dt s))) as (_ & P2' & _).
  split; [rewrite tick_pump_well_health; reflexivity|].
  split.
  { rewrite tick_pipe_well_health.
    rewrite (proj2 (Qgtb_false (pressure_well (tick n dt s)) _)) by lra.
    reflexivity. }
  split.
  { rewrite tick_pipe_dist_health.
    rewrite (proj2 (Qgtb_false (pressure_dist (tick n dt s)) _)) by lra.
    reflexivity. }
  split.
  { intros Hl. rewrite tick_pump_feed_health.
    rewrite (proj2 (Qgtb_true (level_feed_tank s) _)) by exact Hl.
    reflexivity. }
  split.
  { intros Hl. rewrite tick_pump_dist_health.
    rewrite (proj2 (Qltb_false (level_clearwell s) _)) by exact Hl.
    reflexivity. }
  split.
  { intros Hp. rewrite tick_pipe_feed_health.
    rewrite (proj2 (Qgtb_false (pressure_feed (tick n dt s)) _)) by lra.
    reflexivity. }
  rewrite (tick_pipe_feed_health n dt' (tick n dt s)).
  rewrite (proj2 (Qgtb_false (pressure_feed (tick n dt' (tick n dt s))) _))
    by lra.
  reflexivity.
Qed.

Lemma normal_operation_relieves_witness :
  reachable (tick S1_controls 0.1 physicsState) /\
  pipe_well_health
    (tick (handleReset S1_controls) 0.1 (tick S1_controls 0.1 physicsState))
  = pipe_well_health (tick S1_controls 0.1 physicsState).
Proof.
  assert (Hr : reachable (tick S1_controls 0.1 physicsState)).
  { apply (reach_op (OpTick S1_controls 0.1) physicsState reach_init).
    vm_compute. intuition discriminate. }
  split; [exact Hr|].
  exact (proj1 (proj2 (proj2 (normal_operation_relieves S1_controls 0.1 0.1
                         (tick S1_controls 0.1 physicsState) Hr)))).
Defined.

Lemma is_one_or_true_Number (b : bool) :
  is_one_or_true (JNum (Number (JBool b))) = b.
Proof. destruct b; reflexivity. Qed.

Lemma sendControl_switch w v c :
  sendControl (switch_key w) v c = spread_switch w (is_one_or_true v) c.
Proof. destruct w; reflexivity. Qed.


Lemma switch_value_spread w b c : switch_value w (spread_switch w b c) = b.
Proof. destruct w; reflexivity. Qed.

Lemma getControl_spread_switch w b c k :
  k <> switch_key w ->
  getControl k (spread_switch w b c) = getControl k c.
Proof. destruct w; destruct k; intros H; try reflexivity; now destruct H. Qed.

Lemma spread_switch_twice w b b' c :
  spread_switch w b' (spread_switch w b c) = spread_switch w b' c.
Proof. destruct w; reflexivity. Qed.

Lemma spread_switch_self w c : spread_switch w (switch_value w c) c = c.
Proof. destruct c; destruct w; reflexivity. Qed.

Lemma handleToggle_spread w d :
  handleToggle w d =
  mkDesk (desk_rendered d)
    (spread_switch w (negb (switch_value w (desk_rendered d))) (desk_app d))
    (spread_switch w (negb (switch_value w (desk_rendered d))) (desk_api d)).
Proof.
  unfold handleToggle. cbv zeta.
  rewrite sendControl_switch, is_one_or_true_Number. reflexivity.
Qed.

(** X15.  A switch of the control panel negates the value that the last
    render bound, not the current React state, and writes it to the
    current state and to the instance: afterwards both hold the negation
    of what the page showed, and no other control of either changes.  A
    second click on the same switch before the next render therefore
    changes nothing; with a render before each click, from a state that
    was rendered, two clicks give the React state back.  When the instance
    held the opposite of what the page showed, the click leaves the
    instance as it was. *)
Theorem toggle_negates_rendered_value (w : Switch) (d : Desk)
    (k : ControlKey) :
  let d' := handleToggle w d in
  switch_value w (desk_app d') = negb (switch_value w (desk_rendered d)) /\
  switch_value w (desk_api d') = negb (switch_value w (desk_rendered d)) /\
  desk_rendered d' = desk_rendered d /\
  (k <> switch_key w ->
   getControl k (desk_app d') = getControl k (desk_app d) /\
   getControl k (desk_api d') = getControl k (desk_api d)) /\
  handleToggle w d' = d' /\
  (desk_rendered d = desk_app d ->
   desk_app (handleToggle w (desk_step Render d')) = desk_app d) /\
  (switch_value w (desk_api d) <> switch_value w (desk_rendered d) ->
   switch_value w (desk_api d') = switch_value w (desk_api d)).
Proof.
  cbv zeta. rewrite !handleToggle_spread.
  cbn [desk_step desk_rendered desk_app desk_api].
  rewrite !switch_value_spread, !spread_switch_twice, negb_involutive.
  split; [reflexivity|]. split; [reflexivity|]. split; [reflexivity|].
  split.
  { intros H. split; apply getControl_spread_switch; exact H. }
  split; [reflexivity|].
  split.
  { intros H. rewrite H. apply spread_switch_self. }
  intros H. destruct (switch_value w (desk_api d));
    destruct (switch_value w (desk_rendered d)); try reflexivity;
    now destruct H.
Qed.

Lemma toggle_negates_rendered_value_witness :
  desk_app
    (handleToggle SW_wellfield_on
       (desk_step Render
          (handleToggle SW_wellfield_on
             (mkDesk App_controls App_controls currentControls))))
  = App_controls /\
  switch_value SW_wellfield_on
    (desk_api (handleToggle SW_wellfield_on
                 (mkDesk normal_operation normal_operation all_off)))
  = false.
Proof.
  split.
  - apply (proj1 (proj2 (proj2 (proj2 (proj2 (proj2
             (toggle_negates_rendered_value SW_wellfield_on
                (mkDesk App_controls App_controls currentControls)
                K_Cl_dose))))))).
    reflexivity.
  - apply (proj2 (proj2 (proj2 (proj2 (proj2 (proj2
             (toggle_negates_rendered_value SW_wellfield_on
                (mkDesk normal_operation normal_operation all_off)
                K_Cl_dose))))))).
    cbn. discriminate.
Defined.






(** * [App]: resizing the lower panel *)

Lemma panel_step_height ev p :
  150 <= panelHeight p -> 150 <= panelHeight (panel_step ev p).
Proof.
  intros H. destruct ev as [y|y ih|]; cbn [panel_step panelHeight];
    try exact H.
  destruct (isDragging p); cbn [negb]; cbv zeta; cbn [panelHeight];
    [|exact H].
  apply Q.le_max_l.
Qed.

Lemma panel_run_height evs : forall p,
  150 <= panelHeight p -> 150 <= panelHeight (panel_run evs p).
Proof.
  unfold panel_run.
  induction evs as [|ev evs IH]; intros p H; [exact H|].
  cbn [fold_left]. apply IH, panel_step_height, H.
Qed.

(** The moves of a drag leave the two refs and the flag as they are. *)
Lemma panel_moves_refs moves : forall p,
  Forall (fun ev => exists y ih, ev = MouseMove y ih) moves ->
  isDragging (panel_run moves p) = isDragging p /\
  dragStartY (panel_run moves p) = dragStartY p /\
  dragStartHeight (panel_run moves p) = dragStartHeight p.
Proof.
  unfold panel_run.
  induction moves as [|ev moves IH]; intros p Hm; [repeat split|].
  inversion Hm as [|? ? (y & ih & ->) Hm']; subst.
  cbn [fold_left].
  destruct (IH (panel_step (MouseMove y ih) p) Hm') as (E1 & E2 & E3).
  rewrite E1, E2, E3. cbn [panel_step].
  destruct (isDragging p) eqn:Hd; cbn [negb]; cbv zeta;
    cbn [isDragging dragStartY dragStartHeight]; rewrite ?Hd;
    repeat split.
Qed.

(** X17.  The lower panel starts 300 high and never gets lower than 150,
    whatever the mouse does.  During a drag that started at [y0] on a
    panel [h] high, a move to [y] in a window [ih] high sets the height to
    [h + (y0 - y)] cut to [[150, ih - 200]], whatever moves came before;
    in a window lower than 350 that is 150, above the upper limit.  A move
    outside a drag changes nothing. *)
Theorem panel_resize (evs moves : list MouseEvent) (y0 y ih : Q) :
  Forall (fun ev => exists y' ih', ev = MouseMove y' ih') moves ->
  let p := panel_run evs panel_start in
  let h := panelHeight p in
  let q := panel_run (MouseDown y0 :: moves ++ [MouseMove y ih]) p in
  150 <= h /\
  panelHeight q == Math_max 150 (Math_min (ih - 200) (h + (y0 - y))) /\
  (350 <= ih -> 150 <= panelHeight q <= ih - 200) /\
  (ih < 350 -> panelHeight q == 150) /\
  (isDragging p = false -> panel_step (MouseMove y ih) p = p).
Proof.
  intros Hm p h q.
  assert (Hh : 150 <= h).
  { apply panel_run_height. vm_compute. discriminate. }
  assert (Eq : panelHeight q =
               Math_max 150 (Math_min (ih - 200) (h + (y0 - y)))).
  { subst q. unfold panel_run at 1. cbn [fold_left].
    rewrite fold_left_app. cbn [fold_left].
    set (p1 := panel_step (MouseDown y0) p).
    change (fold_left (fun p0 ev => panel_step ev p0) moves p1)
      with (panel_run moves p1).
    destruct (panel_moves_refs moves p1 Hm) as (E1 & E2 & E3).
    cbn [panel_step]. rewrite E1, E2, E3. subst p1.
    cbn [panel_step isDragging dragStartY dragStartHeight negb].
    cbv zeta. cbn [panelHeight]. reflexivity. }
  split; [exact Hh|].
  split; [rewrite Eq; reflexivity|].
  rewrite Eq.
  destruct (Math_max_spec 150 (Math_min (ih - 200) (h + (y0 - y))))
    as [[H1 E1]|[H1 E1]];
  destruct (Math_min_spec (ih - 200) (h + (y0 - y))) as [[H2 E2]|[H2 E2]];
  rewrite E1 in *; rewrite ?E2 in *.
  all: repeat split; intros; try lra.
  all: try (cbn [panel_step]; rewrite H; reflexivity).
Qed.

Lemma panel_resize_witness :
  panelHeight
    (panel_run [MouseDown 500; MouseMove 480 900; MouseMove 300 900]
       (panel_run [] panel_start)) == 500.
Proof.
  assert (Hm : Forall (fun ev => exists y' ih', ev = MouseMove y' ih')
                 [MouseMove 480 900]).
  { repeat constructor. exists 480, 900. reflexivity. }
  rewrite (proj1 (proj2 (panel_resize [] [MouseMove 480 900] 500 300 900
                           Hm))).
  vm_compute. reflexivity.
Defined.

(** * The data panel and the process diagram *)

Lemma Qgeb_true (x y : Q) : Qgeb x y = true <-> y <= x.
Proof. unfold Qgeb. apply Qle_bool_iff. Qed.


(** X18.  The status of a row of the equipment table never improves as
    the health falls: critical below 50, warning from 50 to below 80,
    normal from 80.  The membrane row of the RO table agrees with it.  The
    feed-pump row of the pre-treatment table uses one limit only, 80, and
    goes straight to critical: for a health from 50 to below 80 the same
    pump is critical there and warning in the equipment table, and for no
    other health do the two rows differ. *)
Theorem equipment_status (h1 h2 : Q) (state : Pub.SimulationState) :
  h1 <= h2 ->
  (severity (DataPanel.equipment h2) <= severity (DataPanel.equipment h1))%nat
  /\
  DataPanel.membrane_health state =
    DataPanel.equipment (Pub.membrane_health state) /\
  (50 <= Pub.pump_feed_health state < 80 <->
   DataPanel.feed_pump_health state <>
     DataPanel.equipment (Pub.pump_feed_health state)) /\
  (50 <= Pub.pump_feed_health state < 80 ->
   DataPanel.feed_pump_health state = critical /\
   DataPanel.equipment (Pub.pump_feed_health state) = warning).
Proof.
  intros Hle. split.
  { unfold DataPanel.equipment.
    destruct (h1 <? 50) eqn:A1; destruct (h1 <? 80) eqn:A2;
    destruct (h2 <? 50) eqn:B1; destruct (h2 <? 80) eqn:B2;
    cbn [severity]; try lia; exfalso;
    rewrite ?Qltb_true, ?Qltb_false in *; lra. }
  split; [reflexivity|].
  unfold DataPanel.feed_pump_health, DataPanel.pumpHealthStatus,
    DataPanel.equipment.
  set (h := Pub.pump_feed_health state).
  destruct (h <? 50) eqn:A1; destruct (h <? 80) eqn:A2;
    rewrite ?Qltb_true, ?Qltb_false in *.
  - split; [split; [intros [H _]; lra | intros H; now destruct H]|].
    intros [H _]; lra.
  - lra.
  - split; [split; [intros _; discriminate | intros _; lra]|].
    intros _. split; reflexivity.
  - split; [split; [intros [_ H]; lra | intros H; now destruct H]|].
    intros [_ H]; lra.
Qed.

Lemma equipment_status_witness :
  (severity (DataPanel.equipment 90) <= severity (DataPanel.equipment 60))%nat.
Proof.
  assert (H : 60 <= 90) by (vm_compute; discriminate).
  exact (proj1 (equipment_status 60 90 App_simState H)).
Defined.





Lemma feedPct_eq state :
  ProcessDiagram.feedPct state == Pub.level_feed_tank state * 20.
Proof. unfold ProcessDiagram.feedPct. field. Qed.

Lemma clearPct_eq state :
  ProcessDiagram.clearPct state == Pub.level_clearwell state * (50 # 3).
Proof. unfold ProcessDiagram.clearPct. field. Qed.

Lemma published_levels_in_range c dt e s :
  let p := published c dt e s in
  0 <= Pub.level_feed_tank p <= 5 /\ 0 <= Pub.level_clearwell p <= 6.
Proof.
  cbv zeta. destruct (published_levels c dt e s) as [E1 E2].
  rewrite E1, E2, tick_level_feed_tank, tick_level_clearwell.
  match goal with |- context [clamp 0 5 ?x] =>
    destruct (clamp_spec 0 5 x) as [[? E]|[[? E]|[? E]]];
      [lra | rewrite E ..] end;
  match goal with |- context [clamp 0 6 ?x] =>
    destruct (clamp_spec 0 6 x) as [[? E']|[[? E']|[? E']]];
      [lra | rewrite E' ..] end;
  lra.
Qed.

(** X20.  For the snapshot of any call the two tanks of the process
    diagram are filled between 0 and 100 percent, so the fill never
    leaves the drawn tank; a tank is shown overflowing exactly when its
    level sits at the upper clamp, 5 m or 6 m.  Whenever the level row of
    the data panel is in alarm the tank is drawn red; the tank is also red
    without that alarm, for the feed tank from 0.5 m to below 0.75 m and
    above 4.5 m up to 4.8 m. *)
Theorem tank_drawing (c : SimulationControls) (dt : Q) (e : Env)
    (s : PhysicsState) (h : Q) :
  0 <= h ->
  let p := published c dt e s in
  let feedPct := ProcessDiagram.feedPct p in
  let clearPct := ProcessDiagram.clearPct p in
  0 <= feedPct <= 100 /\ 0 <= clearPct <= 100 /\
  0 <= ProcessDiagram.fillH feedPct h <= h /\
  0 <= ProcessDiagram.fillH clearPct h <= h /\
  (ProcessDiagram.isOverflowing feedPct = true <->
   Pub.level_feed_tank p == 5) /\
  (ProcessDiagram.isOverflowing clearPct = true <->
   Pub.level_clearwell p == 6) /\
  (DataPanel.feed_tank_level p = alarm ->
   ProcessDiagram.liquid_red feedPct = true) /\
  (DataPanel.clearwell_level p = alarm ->
   ProcessDiagram.liquid_red clearPct = true) /\
  (0.5 <= Pub.level_feed_tank p < 0.75 \/
   4.5 < Pub.level_feed_tank p <= 4.8 ->
   DataPanel.feed_tank_level p = normal /\
   ProcessDiagram.liquid_red feedPct = true).
Proof.
  intros Hh p feedPct clearPct.
  destruct (published_levels_in_range c dt e s) as [[L1 L2] [L3 L4]].
  fold p in L1, L2, L3, L4.
  pose proof (feedPct_eq p) as EF. pose proof (clearPct_eq p) as EC.
  fold feedPct in EF. fold clearPct in EC.
  unfold ProcessDiagram.fillH, ProcessDiagram.isOverflowing,
    ProcessDiagram.liquid_red, ProcessDiagram.isLowLevel,
    DataPanel.feed_tank_level, DataPanel.clearwell_level.
  rewrite !Qgeb_true, !Qdiv_100.
  set (lf := Pub.level_feed_tank p) in *.
  set (lc := Pub.level_clearwell p) in *.
  clearbody lf lc feedPct clearPct. clear p.
  repeat split; try lra; try nra.
  - destruct (lf <? 0.5) eqn:A; destruct (lf >? 4.8) eqn:B;
      cbn [orb]; try discriminate; intros _;
      rewrite ?Qltb_true, ?Qltb_false, ?Qgtb_true, ?Qgtb_false in *;
      apply orb_true_iff; rewrite Qltb_true, Qgtb_true; lra.
  - destruct (lc <? 0.5) eqn:A; destruct (lc >? 5.8) eqn:B;
      cbn [orb]; try discriminate; intros _;
      rewrite ?Qltb_true, ?Qltb_false, ?Qgtb_true, ?Qgtb_false in *;
      apply orb_true_iff; rewrite Qltb_true, Qgtb_true; lra.
  - rewrite (proj2 (Qltb_false lf 0.5)) by lra.
    rewrite (proj2 (Qgtb_false lf 4.8)) by lra. reflexivity.
  - apply orb_true_iff; rewrite Qltb_true, Qgtb_true; lra.
Qed.

Lemma tank_drawing_witness :
  0 <= ProcessDiagram.feedPct (published currentControls 0.1 env_low
                                 physicsState) <= 100.
Proof.
  assert (H : 0 <= 140) by (vm_compute; discriminate).
  exact (proj1 (tank_drawing currentControls 0.1 env_low physicsState 140 H)).
Defined.

Lemma debit_if_lt b rate dt h : debit_if b rate dt h < h -> b = true.
Proof.
  destruct b; [reflexivity|]. unfold debit_if. intros H. lra.
Qed.

(** X21.  Pressure alarms against pipe damage, in one call with any
    jitter.  Whenever the call lowers the health of the pipe after P-201,
    the feed-pressure row of the data panel is in alarm in its snapshot.
    The alarms of the PIT-101 and PIT-401 tags use the limits of the pipe
    damage, 10 and 12 bar, on the jittered value: they show when the
    integrated pressure is more than 0.05 bar above the limit, and never
    when it is 0.05 bar or more below. *)
Theorem pressure_alarms_and_damage (c : SimulationControls) (dt : Q)
    (e : Env) (s : PhysicsState) :
  jitter_ok e ->
  let p := published c dt e s in
  let s' := tick c dt s in
  (pipe_feed_health s' < pipe_feed_health s ->
   DataPanel.feed_pressure p = alarm) /\
  (10.05 < pressure_well s' -> ProcessDiagram.PIT_101_alarm p = true) /\
  (pressure_well s' <= 9.95 -> ProcessDiagram.PIT_101_alarm p = false) /\
  (12.05 < pressure_dist s' -> ProcessDiagram.PIT_401_alarm p = true) /\
  (pressure_dist s' <= 11.95 -> ProcessDiagram.PIT_401_alarm p = false).
Proof.
  intros Hj p s'.
  destruct (published_values c dt e s)
    as (k1 & k2 & k3 & k4 & k5 & k10 & k11 & k12 & k13 &
        _ & _ & _ & _ & _ & E10 & _ & E12 & E13).
  cbv zeta in E10, E12, E13. fold p s' in E10, E12, E13.
  unfold DataPanel.feed_pressure, ProcessDiagram.PIT_101_alarm,
    ProcessDiagram.PIT_401_alarm.
  rewrite E10, E12, E13.
  split.
  { intros Hd. subst s'. rewrite tick_pipe_feed_health in Hd.
    apply debit_if_lt in Hd. apply Qgtb_true in Hd.
    match goal with |- (if ?b then _ else _) = _ =>
      assert (Hb : b = true); [|rewrite Hb; reflexivity] end.
    apply Qgtb_true. jitter_bounds Hj. lra. }
  repeat split; intros H;
    first [apply Qgtb_true | apply Qgtb_false]; jitter_bounds Hj; lra.
Qed.

Lemma pressure_alarms_and_damage_witness :
  ProcessDiagram.PIT_101_alarm
    (published currentControls 0.1 env_low physicsState) = false.
Proof.
  assert (Hj : jitter_ok env_low).
  { intros k. vm_compute. split; [discriminate | reflexivity]. }
  apply (proj1 (proj2 (proj2 (pressure_alarms_and_damage currentControls 0.1
                                env_low physicsState Hj)))).
  vm_compute. discriminate.
Defined.
